(** * Verification of [scripts/visualize.py] (redis-laned-benchmarks)

    The script loads a JMH result file and turns it into three charts.
    This development embeds the script's data transformation in Rocq and
    proves the properties its specification states about it.

    Data model.  A benchmark record is the Python dict that [json.load]
    yields for one JMH result.  Its three top-level entries ("benchmark",
    "params", "primaryMetric") are record fields; the entries of "params"
    and the two entries of "primaryMetric" that the script reads may be
    absent, and reading an absent one raises [KeyError] as in Python.
    Numbers are Python numbers: unbounded integers and IEEE-754 doubles,
    with Python's arithmetic on them (exact on integers, correctly rounded
    true division, [ZeroDivisionError], [OverflowError] when an integer has
    no double).  Parameter values are strings, as JMH writes them; values
    of other JSON types in these places are not part of the model.  The
    theorems are therefore about result files whose records have the three
    top-level entries, string parameters and numeric metrics, as JMH
    writes them: on a record without one of the three entries, or with a
    metric of another JSON type, the script raises [KeyError] or
    [TypeError], and these runs are left out.

    Effects.  The script prints, asks matplotlib to draw and saves files.
    Each such call is recorded, in program order, as an [event], with the
    arguments that the script computes from the records; calls that only
    style a chart (axis labels, title, legend, grid, colours, layout) carry
    no data and are left out.  The plotting backend itself is outside the
    model: a recorded call returns.  An exception of the script ends the
    run: the events recorded so far stay, the result is [Raise]. *)

From Stdlib Require Import ZArith Lia Ascii String.
From Stdlib Require Import Floats.
From stdpp Require Import base option list gmap strings sorting.

#[local] Set Warnings "-clear-no-such-hyp".

Local Open Scope Z_scope.

(** ** Results and exceptions *)

(** A dict key: the script indexes dicts by strings and by integers. *)
Inductive key : Type :=
| KStr (s : string)
| KInt (n : Z).

(** The exceptions of a run on the records of the data model.
    [LoadError] stands for whatever [open] and [json.load] raise on a file
    they cannot read or parse. *)
Inductive exn : Type :=
| KeyError (k : key)
| IndexError
| ValueError
| ZeroDivisionError
| OverflowError
| LoadError
| SystemExit (code : Z).

Inductive result (A : Type) : Type :=
| Ok (a : A)
| Raise (e : exn).

Arguments Ok {A} a.
Arguments Raise {A} e.

#[export] Instance result_ret : MRet result := fun _ a => Ok a.
#[export] Instance result_fmap : FMap result := fun _ _ f m =>
  match m with
  | Ok a => Ok (f a)
  | Raise e => Raise e
  end.
#[export] Instance result_bind : MBind result := fun _ _ f m =>
  match m with
  | Ok a => f a
  | Raise e => Raise e
  end.

Definition is_ok {A} (r : result A) : bool :=
  match r with Ok _ => true | Raise _ => false end.

(** ** Python numbers and the builtins the script applies to them *)

Module Py.

Inductive num : Type :=
| PInt (n : Z)
| PFloat (f : float).

(** The exact value of an integer as a (possibly unrepresentable)
    binary float of mantissa [n] and exponent 0. *)
Definition SF_of_Z (n : Z) : spec_float :=
  match n with
  | Z0 => S754_zero false
  | Zpos p => S754_finite false p 0
  | Zneg p => S754_finite true p 0
  end.

Definition is_inf_SF (x : spec_float) : bool :=
  match x with S754_infinity _ => true | _ => false end.

(** [float(n)]: rounded to nearest, ties to even; [OverflowError] when
    the integer is beyond the range of a double. *)
Definition float_of_int (n : Z) : result float :=
  let x := binary_normalize prec emax n 0 false in
  if is_inf_SF x then Raise OverflowError else Ok (SF2Prim x).

Definition to_float (a : num) : result float :=
  match a with
  | PInt n => float_of_int n
  | PFloat f => Ok f
  end.

(** [a - b] *)
Definition sub (a b : num) : result num :=
  match a, b with
  | PInt x, PInt y => Ok (PInt (x - y))
  | _, _ => x ← to_float a; y ← to_float b; Ok (PFloat (x - y)%float)
  end.

(** [a + b] *)
Definition add (a b : num) : result num :=
  match a, b with
  | PInt x, PInt y => Ok (PInt (x + y))
  | _, _ => x ← to_float a; y ← to_float b; Ok (PFloat (x + y)%float)
  end.

(** [a * b] *)
Definition mul (a b : num) : result num :=
  match a, b with
  | PInt x, PInt y => Ok (PInt (x * y))
  | _, _ => x ← to_float a; y ← to_float b; Ok (PFloat (x * y)%float)
  end.

(** [a / b] on two integers: the correctly rounded quotient. *)
Definition int_truediv (x y : Z) : result float :=
  if y =? 0 then Raise ZeroDivisionError
  else if x =? 0 then Ok (if y <? 0 then neg_zero else zero)
  else
    let q := SFdiv prec emax (SF_of_Z x) (SF_of_Z y) in
    if is_inf_SF q then Raise OverflowError else Ok (SF2Prim q).

(** [a / b] (true division) *)
Definition truediv (a b : num) : result num :=
  match a, b with
  | PInt x, PInt y => PFloat <$> int_truediv x y
  | _, _ =>
      x ← to_float a; y ← to_float b;
      if (y =? 0)%float then Raise ZeroDivisionError
      else Ok (PFloat (x / y)%float)
  end.

(** The exact comparison of a double with an integer; [None] for NaN. *)
Definition compare_float_int (f : float) (n : Z) : option comparison :=
  match Prim2SF f with
  | S754_nan => None
  | S754_infinity s => Some (if s then Lt else Gt)
  | S754_zero _ => Some (0 ?= n)
  | S754_finite s m e =>
      let sm := if s then Z.neg m else Z.pos m in
      Some (if 0 <=? e then sm * 2 ^ e ?= n else sm ?= n * 2 ^ (- e))
  end.

(** [a > b] *)
Definition gt (a b : num) : bool :=
  match a, b with
  | PInt x, PInt y => y <? x
  | PFloat x, PFloat y => (y <? x)%float
  | PFloat x, PInt y =>
      match compare_float_int x y with Some Gt => true | _ => false end
  | PInt x, PFloat y =>
      match compare_float_int y x with Some Lt => true | _ => false end
  end.

(** [max(iterable)]: the first of the greatest items; [ValueError] on
    an empty iterable. *)
Fixpoint max_from (m : num) (l : list num) : num :=
  match l with
  | [] => m
  | x :: l => max_from (if gt x m then x else m) l
  end.

Definition max (l : list num) : result num :=
  match l with
  | [] => Raise ValueError
  | x :: l => Ok (max_from x l)
  end.

(** [needle in hay] on two strings *)
Fixpoint contains (needle hay : string) : bool :=
  String.prefix needle hay ||
  match hay with
  | EmptyString => false
  | String _ hay => contains needle hay
  end.

(** [s.split(sep)] for a separator of one character *)
Fixpoint split (sep : Ascii.ascii) (s : string) : list string :=
  match s with
  | EmptyString => [EmptyString]
  | String c s =>
      if Ascii.eqb c sep then EmptyString :: split sep s
      else match split sep s with
           | [] => [String c EmptyString]
           | w :: ws => String c w :: ws
           end
  end.

(** [l[i]] for [0 <= i] *)
Definition index {A} (l : list A) (i : nat) : result A :=
  match l !! i with
  | Some x => Ok x
  | None => Raise IndexError
  end.

(** [l[-1]] *)
Definition index_last {A} (l : list A) : result A :=
  match last l with
  | Some x => Ok x
  | None => Raise IndexError
  end.

(** [d[k]] and [d.get(k, dflt)] on a dict whose keys are strings *)
Definition subscript {A} (d : gmap string A) (k : string) : result A :=
  match d !! k with
  | Some x => Ok x
  | None => Raise (KeyError (KStr k))
  end.

Definition get {A} (d : gmap string A) (k : string) (dflt : A) : A :=
  default dflt (d !! k).

(** [d[n]] on a dict whose keys are integers; [sorted(d.keys())] *)
Definition subscript_int {A} (d : gmap Z A) (n : Z) : result A :=
  match d !! n with
  | Some x => Ok x
  | None => Raise (KeyError (KInt n))
  end.

Definition sorted_keys {A} (d : gmap Z A) : list Z :=
  merge_sort Z.le (map_to_list d).*1.

(** A dict whose order of insertion is observed: [d[k] = v] replaces
    the value of a present key in place and appends an absent one. *)
Fixpoint setitem {A} (k : string) (v : A) (d : list (string * A)) :
    list (string * A) :=
  match d with
  | [] => [(k, v)]
  | (k', v') :: d =>
      if String.eqb k' k then (k, v) :: d else (k', v') :: setitem k v d
  end.

Fixpoint get_item {A} (d : list (string * A)) (k : string) (dflt : A) : A :=
  match d with
  | [] => dflt
  | (k', v') :: d => if String.eqb k' k then v' else get_item d k dflt
  end.

End Py.

Import Py.

(** ** Benchmark records *)

(** [b["primaryMetric"]]: the script reads its "score" and its
    "scorePercentiles" (percentile label to value). *)
Record PrimaryMetric : Type := {
  score : option num;
  scorePercentiles : option (gmap string num);
}.

(** One JMH result: [b["benchmark"]], [b["params"]], [b["primaryMetric"]]. *)
Record Benchmark : Type := {
  benchmark : string;
  params : gmap string string;
  primaryMetric : PrimaryMetric;
}.

(** The dict [{"p50": .., "p95": .., "p99": ..}] of [extract_percentiles]. *)
Record PercentileSet : Type := {
  p50 : num;
  p95 : num;
  p99 : num;
}.

(** ** Paths, messages and recorded calls *)

(** [Path(s)], [p.parent] and [p / name], kept symbolic. *)
Inductive path : Type :=
| PathOf (s : string)
| ParentOf (p : path)
| Slash (p : path) (name : string).

(** What the script prints. *)
Inductive message : Type :=
| NoResultsFound (marker : string)
| NoOverheadData
| Generated (p : path)
| Usage
| FileNotFound (p : path)
| Loading (p : path)
| Loaded (n : nat)
| GeneratingCharts
| AllGenerated (dir : path)
| Tip.

Inductive event : Type :=
| Print (m : message)
| OpenFile (p : path)
  (** [plt.subplots]: a new figure *)
| Subplots
  (** [ax.plot(xs, ys, label=..)] *)
| Plot (xs : list Z) (ys : list num) (label : string)
  (** [ax.set_xticks] with one tick per lane count *)
| Xticks (lane_counts : list Z)
  (** [ax.annotate] of the HOL-Impact chart: the value shown, the point
      annotated and the place of the text *)
| Annotate (improvement : num) (xy xytext : Z * num)
  (** [ax.bar] of the Strategy-Comparison chart: series [i], one bar per
      lane count at cluster position plus [(i - 1) * width] *)
| BarSeries (i : nat) (label : string) (heights : list num)
  (** [ax.bar(labels, values)] of the Selection-Overhead chart *)
| Bars (labels : list string) (values : list num)
  (** [ax.text] above one bar: the value shown and its height *)
| BarText (height y : num)
  (** [ax.text] of the Selection-Overhead chart: absolute and relative
      overhead, and the height of the text *)
| OverheadText (overhead overhead_pct y : num)
| Savefig (p : path)
| Close.

(** ** The monad of the script: recorded calls and exceptions *)

Definition M (A : Type) : Type := list event * result A.

#[export] Instance M_ret : MRet M := fun _ a => ([], Ok a).
#[export] Instance M_bind : MBind M := fun _ _ f m =>
  match m with
  | (t, Ok a) => let '(t', r) := f a in (t ++ t', r)
  | (t, Raise e) => (t, Raise e)
  end.

Definition emit (e : event) : M unit := ([e], Ok tt).
Definition print (m : message) : M unit := emit (Print m).
Definition lift {A} (r : result A) : M A := ([], r).
Definition raise {A} (e : exn) : M A := ([], Raise e).

(** A [for] loop that threads the variables it assigns. *)
Fixpoint foldM {F : Type -> Type} `{!MBind F, !MRet F} {A S : Type}
    (body : S -> A -> F S) (l : list A) (s : S) : F S :=
  match l with
  | [] => mret s
  | x :: l => s' ← body s x; foldM body l s'
  end.

(** A [for] loop run for its calls only. *)
Fixpoint forM_ {A : Type} (body : A -> M unit) (l : list A) : M unit :=
  match l with
  | [] => mret tt
  | x :: l => body x;; forM_ body l
  end.

(** The files written, in order. *)
Definition artifacts (t : list event) : list path :=
  omap (fun e => match e with Savefig p => Some p | _ => None end) t.

(** The status the interpreter exits with. *)
Definition exit_code (r : result unit) : Z :=
  match r with
  | Ok _ => 0
  | Raise (SystemExit c) => c
  | Raise _ => 1
  end.

(** ** The script *)

(** The double nearest to each decimal constant of the script. *)
Definition c_0_2 : float := 0x1.999999999999ap-3%float.
Definition c_0_02 : float := 0x1.47ae147ae147bp-6%float.
Definition c_0_85 : float := 0x1.b333333333333p-1%float.

Section Visualize.

(** [int(s)] on a string, [None] when it raises [ValueError]: the
    interpreter's parser of integer literals, taken as it is. *)
Variable py_int : string -> option Z.

Definition int (s : string) : result Z :=
  match py_int s with
  | Some n => Ok n
  | None => Raise ValueError
  end.

(** [extract_percentiles] *)
Definition extract_percentiles (b : Benchmark) : result PercentileSet :=
  match scorePercentiles (primaryMetric b) with
  | None => Raise (KeyError (KStr "scorePercentiles"))
  | Some percentiles =>
      Ok {| p50 := get percentiles "50.0" (PInt 0);
            p95 := get percentiles "95.0" (PInt 0);
            p99 := get percentiles "99.0" (PInt 0) |}
  end.

(** The records of one experiment: [[b for b in benchmarks if marker in
    b["benchmark"]]]. *)
Definition select (marker : string) (benchmarks : list Benchmark) :
    list Benchmark :=
  List.filter (fun b => contains marker (benchmark b)) benchmarks.

(** *** [plot_hol_impact] *)

(** The body of the loop [for b in hol_data]. *)
Definition hol_step (by_lane : gmap Z PercentileSet) (b : Benchmark) :
    result (gmap Z PercentileSet) :=
  s ← subscript (params b) "laneCount";
  lane_count ← int s;
  percentiles ← extract_percentiles b;
  Ok (<[lane_count := percentiles]> by_lane).

Definition hol_by_lane (hol_data : list Benchmark) :
    result (gmap Z PercentileSet) :=
  foldM hol_step hol_data ∅.

(** [[by_lane[lc][p] for lc in lane_counts]] *)
Definition hol_values (by_lane : gmap Z PercentileSet)
    (p : PercentileSet -> num) (lane_counts : list Z) : result (list num) :=
  mapM (fun lc => p <$> subscript_int by_lane lc) lane_counts.

(** [(p95_baseline - p95_laned) / p95_baseline * 100] *)
Definition hol_improvement (p95_baseline p95_laned : num) : result num :=
  d ← sub p95_baseline p95_laned;
  q ← truediv d p95_baseline;
  mul q (PInt 100).

(** The block under [if len(lane_counts) >= 2]. *)
Definition hol_annotate (lane_counts : list Z) (p95_values : list num) :
    M unit :=
  if decide (2 <= length lane_counts)%nat then
    p95_baseline ← lift (index p95_values 0);
    p95_laned ← lift (index p95_values 1);
    improvement ← lift (hol_improvement p95_baseline p95_laned);
    lc ← lift (index lane_counts 1);
    y ← lift (index p95_values 1);
    lc' ← lift (index lane_counts 1);
    y' ← lift (y0 ← index p95_values 1;
               d ← mul p95_baseline (PFloat c_0_2);
               add y0 d);
    emit (Annotate improvement (lc, y) (lc' + 1, y'))
  else mret tt.

Definition plot_hol_impact (benchmarks : list Benchmark)
    (output_dir : path) : M unit :=
  let hol_data := select "HolImpactBenchmark" benchmarks in
  match hol_data with
  | [] => print (NoResultsFound "HolImpactBenchmark")
  | _ :: _ =>
      by_lane ← lift (hol_by_lane hol_data);
      let lane_counts := sorted_keys by_lane in
      p50_values ← lift (hol_values by_lane p50 lane_counts);
      p95_values ← lift (hol_values by_lane p95 lane_counts);
      p99_values ← lift (hol_values by_lane p99 lane_counts);
      emit Subplots;;
      emit (Plot lane_counts p50_values "p50 (median)");;
      emit (Plot lane_counts p95_values "p95");;
      emit (Plot lane_counts p99_values "p99");;
      emit (Xticks lane_counts);;
      hol_annotate lane_counts p95_values;;
      let output_path := Slash output_dir "hol_impact.png" in
      emit (Savefig output_path);;
      print (Generated output_path);;
      emit Close
  end.

(** *** [plot_strategy_comparison] *)

(** The body of the loop [for b in strategy_data]. *)
Definition strategy_step (by_lane_strategy : gmap Z (gmap string PercentileSet))
    (b : Benchmark) : result (gmap Z (gmap string PercentileSet)) :=
  s ← subscript (params b) "laneCount";
  lane_count ← int s;
  strategy ← subscript (params b) "strategyName";
  percentiles ← extract_percentiles b;
  let by_lane_strategy :=
    match by_lane_strategy !! lane_count with
    | None => <[lane_count := ∅]> by_lane_strategy
    | Some _ => by_lane_strategy
    end in
  Ok (alter (insert strategy percentiles) lane_count by_lane_strategy).

Definition strategy_by_lane (strategy_data : list Benchmark) :
    result (gmap Z (gmap string PercentileSet)) :=
  foldM strategy_step strategy_data ∅.

Definition strategies : list string :=
  ["ROUND_ROBIN"; "THREAD_AFFINITY"; "LEAST_USED"].
Definition strategy_labels : list string :=
  ["RoundRobin"; "ThreadAffinity"; "LeastUsed"].

(** [by_lane_strategy[lc].get(strategy, {}).get("p95", 0)] *)
Definition strategy_p95 (by_lane_strategy : gmap Z (gmap string PercentileSet))
    (strategy : string) (lc : Z) : result num :=
  d ← subscript_int by_lane_strategy lc;
  Ok (match d !! strategy with
      | Some percentiles => p95 percentiles
      | None => PInt 0
      end).

(** The body of the loop over [enumerate(zip(strategies, strategy_labels,
    colors))]. *)
Definition strategy_bars (by_lane_strategy : gmap Z (gmap string PercentileSet))
    (lane_counts : list Z) (entry : nat * (string * string)) : M unit :=
  let '(i, (strategy, label)) := entry in
  p95_values ← lift (mapM (strategy_p95 by_lane_strategy strategy) lane_counts);
  emit (BarSeries i label p95_values).

Definition plot_strategy_comparison (benchmarks : list Benchmark)
    (output_dir : path) : M unit :=
  let strategy_data := select "StrategyComparisonBenchmark" benchmarks in
  match strategy_data with
  | [] => print (NoResultsFound "StrategyComparisonBenchmark")
  | _ :: _ =>
      by_lane_strategy ← lift (strategy_by_lane strategy_data);
      let lane_counts := sorted_keys by_lane_strategy in
      emit Subplots;;
      forM_ (strategy_bars by_lane_strategy lane_counts)
            (imap pair (zip strategies strategy_labels));;
      emit (Xticks lane_counts);;
      let output_path := Slash output_dir "strategy_comparison.png" in
      emit (Savefig output_path);;
      print (Generated output_path);;
      emit Close
  end.

(** *** [plot_selection_overhead] *)

(** The body of the loop [for b in overhead_data]. *)
Definition overhead_step (overheads : list (string * num)) (b : Benchmark) :
    result (list (string * num)) :=
  method ← index_last (split "."%char (benchmark b));
  s ← match score (primaryMetric b) with
      | Some s => Ok s
      | None => Raise (KeyError (KStr "score"))
      end;
  score_us ← mul s (PInt 1000);
  Ok (if contains "baseline" method then
        setitem "Baseline" score_us overheads
      else if contains "roundRobin" method then
        setitem "RoundRobin" score_us overheads
      else if contains "threadAffinity" method then
        setitem "ThreadAffinity" score_us overheads
      else if contains "leastUsed" method then
        setitem "LeastUsed" score_us overheads
      else overheads).

Definition overhead_buckets (overhead_data : list Benchmark) :
    result (list (string * num)) :=
  foldM overhead_step overhead_data [].

(** The body of the loop [for bar in bars]; [bar.get_height()] is the
    value the bar was drawn with. *)
Definition overhead_bar_text (values : list num) (height : num) : M unit :=
  y ← lift (m ← max values; d ← mul m (PFloat c_0_02); add height d);
  emit (BarText height y).

(** [max(v for k, v in overheads.items() if k != "Baseline")] *)
Definition max_strategy_of (overheads : list (string * num)) : result num :=
  max (List.filter (fun kv => negb (String.eqb kv.1 "Baseline")) overheads).*2.

(** The block under [if len(values) >= 2]. *)
Definition overhead_annotate (overheads : list (string * num))
    (values : list num) : M unit :=
  if decide (2 <= length values)%nat then
    let baseline := get_item overheads "Baseline" (PInt 0) in
    max_strategy ← lift (max_strategy_of overheads);
    if gt baseline (PInt 0) then
      overhead ← lift (sub max_strategy baseline);
      overhead_pct ← lift (q ← truediv overhead max_strategy;
                           mul q (PInt 100));
      y ← lift (m ← max values; mul m (PFloat c_0_85));
      emit (OverheadText overhead overhead_pct y)
    else mret tt
  else mret tt.

Definition plot_selection_overhead (benchmarks : list Benchmark)
    (output_dir : path) : M unit :=
  let overhead_data := select "SelectionOverheadBenchmark" benchmarks in
  match overhead_data with
  | [] => print (NoResultsFound "SelectionOverheadBenchmark")
  | _ :: _ =>
      overheads ← lift (overhead_buckets overhead_data);
      match overheads with
      | [] => print NoOverheadData
      | _ :: _ =>
          emit Subplots;;
          let labels := overheads.*1 in
          let values := overheads.*2 in
          emit (Bars labels values);;
          forM_ (overhead_bar_text values) values;;
          overhead_annotate overheads values;;
          let output_path := Slash output_dir "selection_overhead.png" in
          emit (Savefig output_path);;
          print (Generated output_path);;
          emit Close
      end
  end.

(** *** [load_results] and [main] *)

(** The files of the run: whether a path exists, and what [open] and
    [json.load] make of it. *)
Record FileSystem : Type := {
  exists_ : path -> bool;
  json_load : path -> result (list Benchmark);
}.

Definition load_results (fs : FileSystem) (json_path : path) :
    M (list Benchmark) :=
  emit (OpenFile json_path);;
  lift (json_load fs json_path).

(** [main], on [sys.argv]. *)
Definition main (fs : FileSystem) (argv : list string) : M unit :=
  if decide (length argv ≠ 2%nat) then
    print Usage;;
    raise (SystemExit 1)
  else
    arg ← lift (index argv 1);
    let json_path := PathOf arg in
    if negb (exists_ fs json_path) then
      print (FileNotFound json_path);;
      raise (SystemExit 1)
    else
      let output_dir := ParentOf json_path in
      print (Loading json_path);;
      benchmarks ← load_results fs json_path;
      print (Loaded (length benchmarks));;
      print GeneratingCharts;;
      plot_hol_impact benchmarks output_dir;;
      plot_strategy_comparison benchmarks output_dir;;
      plot_selection_overhead benchmarks output_dir;;
      print (AllGenerated output_dir);;
      print Tip.

End Visualize.

(** ** Concrete inputs *)

(** [int(s)] on the strings made of ASCII digits only (any other string
    is refused); used to run the script on concrete records. *)
Fixpoint decimal_digits (s : string) (acc : Z) : option Z :=
  match s with
  | EmptyString => Some acc
  | String c s =>
      let d := Z.of_nat (nat_of_ascii c) - 48 in
      if (0 <=? d) && (d <=? 9) then decimal_digits s (10 * acc + d) else None
  end.

Definition int_decimal (s : string) : option Z :=
  match s with
  | EmptyString => None
  | _ => decimal_digits s 0
  end.

Definition record (name : string) (ps : list (string * string))
    (sc : option num) (pcts : option (list (string * num))) : Benchmark :=
  {| benchmark := name;
     params := list_to_map ps;
     primaryMetric := {| score := sc;
                         scorePercentiles := list_to_map <$> pcts |} |}.

(** * Definitions used in the statements *)

(** What [extract_percentiles] reads for one label: the entry of the
    mapping, and 0 when the mapping has no such entry. *)
Definition reads (percentiles : gmap string num) (label : string) (v : num) :
    Prop :=
  match percentiles !! label with
  | Some x => v = x
  | None => v = PInt 0
  end.


(** The lane count of a record: [int(b["params"]["laneCount"])] when it
    does not raise. *)
Definition lane_of (py_int : string -> option Z) (b : Benchmark) : option Z :=
  params b !! "laneCount" ≫= py_int.

(** The value drawn for lane count [lc]: percentile [p] of its group. *)
Definition at_lane (by_lane : gmap Z PercentileSet) (p : PercentileSet -> num)
    (lc : Z) : num :=
  match by_lane !! lc with
  | Some ps => p ps
  | None => PInt 0
  end.

(** The improvements that the [ax.annotate] calls of a run show. *)
Definition annotations (t : list event) : list num :=
  omap (fun e => match e with Annotate v _ _ => Some v | _ => None end) t.

(** The calls that finish a chart written to [p]. *)
Definition finish (p : path) : list event :=
  [Savefig p; Print (Generated p); Close].

(** The calls that draw the HOL-Impact chart, before its annotation. *)
Definition hol_chart (by_lane : gmap Z PercentileSet) : list event :=
  let lane_counts := sorted_keys by_lane in
  [Subplots;
   Plot lane_counts (at_lane by_lane p50 <$> lane_counts) "p50 (median)";
   Plot lane_counts (at_lane by_lane p95 <$> lane_counts) "p95";
   Plot lane_counts (at_lane by_lane p99 <$> lane_counts) "p99";
   Xticks lane_counts].

(** HOL-Impact records for the examples. *)
Definition hol_record (lane_count : string) (pcts : list (string * num)) :
    Benchmark :=
  record "bench.HolImpactBenchmark.measure" [("laneCount", lane_count)]
         None (Some pcts).

Definition reports_dir : path := ParentOf (PathOf "results.json").

(** p95 values 100 and 10 at lane counts 1 and 4. *)
Definition hol_example : list Benchmark :=
  [hol_record "1" [("50.0", PInt 50); ("95.0", PInt 100); ("99.0", PInt 200)];
   hol_record "4" [("50.0", PInt 5); ("95.0", PInt 10); ("99.0", PInt 20)]].

(** A p95 of 0.0 at the smallest lane count; and the same with the "95.0"
    entry absent there. *)
Definition hol_zero_baseline : list Benchmark :=
  [hol_record "1" [("50.0", PFloat 0); ("95.0", PFloat 0); ("99.0", PFloat 0.5)];
   hol_record "4" [("50.0", PFloat 5); ("95.0", PFloat 10); ("99.0", PFloat 20)]].

Definition hol_absent_baseline : list Benchmark :=
  [hol_record "1" [("50.0", PFloat 50)];
   hol_record "4" [("50.0", PFloat 5); ("95.0", PFloat 10); ("99.0", PFloat 20)]].

(** What one record adds to the HOL-Impact grouping: its lane count and
    its percentiles, when reading them does not raise. *)
Definition hol_entry (py_int : string -> option Z) (b : Benchmark) :
    option (Z * PercentileSet) :=
  lc ← lane_of py_int b;
  match extract_percentiles b with
  | Ok ps => Some (lc, ps)
  | Raise _ => None
  end.

(** The group of lane count [lc] after the records [l], starting from
    [dflt]: the percentiles of the last record with that lane count. *)
Fixpoint last_seen (py_int : string -> option Z) (lc : Z)
    (l : list Benchmark) (dflt : option PercentileSet) : option PercentileSet :=
  match l with
  | [] => dflt
  | b :: l =>
      last_seen py_int lc l
        match hol_entry py_int b with
        | Some (lc', ps) => if decide (lc' = lc) then Some ps else dflt
        | None => dflt
        end
  end.

(** Two records with the same lane count and different p95 values. *)
Definition hol_duplicated : list Benchmark :=
  [hol_record "1" [("95.0", PInt 100)];
   hol_record "1" [("95.0", PInt 10)]].

(** What the grouping loop of the Strategy-Comparison chart reads from one
    record, in the order it reads it: lane count, strategy label and
    percentiles. *)
Definition strategy_read (py_int : string -> option Z) (b : Benchmark) :
    result (Z * string * PercentileSet) :=
  s ← subscript (params b) "laneCount";
  lane_count ← int py_int s;
  strategy ← subscript (params b) "strategyName";
  percentiles ← extract_percentiles b;
  Ok (lane_count, strategy, percentiles).

(** What the loop then stores: the percentiles under the strategy label,
    in the dict of the lane count (created when the lane count is new). *)
Definition strategy_put (by_lane_strategy : gmap Z (gmap string PercentileSet))
    (e : Z * string * PercentileSet) : gmap Z (gmap string PercentileSet) :=
  let '(lc, strategy, ps) := e in
  <[lc := <[strategy := ps]> (default ∅ (by_lane_strategy !! lc))]>
    by_lane_strategy.

(** The percentiles stored for a lane count and a strategy label. *)
Definition cell (by_lane_strategy : gmap Z (gmap string PercentileSet))
    (lc : Z) (strategy : string) : option PercentileSet :=
  by_lane_strategy !! lc ≫= fun d => d !! strategy.

(** The height of the bar of a strategy at a lane count. *)
Definition bar_height (by_lane_strategy : gmap Z (gmap string PercentileSet))
    (strategy : string) (lc : Z) : num :=
  match cell by_lane_strategy lc strategy with
  | Some ps => p95 ps
  | None => PInt 0
  end.

(** The calls that draw the Strategy-Comparison chart. *)
Definition strategy_chart (by_lane_strategy : gmap Z (gmap string PercentileSet)) :
    list event :=
  let lane_counts := sorted_keys by_lane_strategy in
  [Subplots;
   BarSeries 0 "RoundRobin"
     (bar_height by_lane_strategy "ROUND_ROBIN" <$> lane_counts);
   BarSeries 1 "ThreadAffinity"
     (bar_height by_lane_strategy "THREAD_AFFINITY" <$> lane_counts);
   BarSeries 2 "LeastUsed"
     (bar_height by_lane_strategy "LEAST_USED" <$> lane_counts);
   Xticks lane_counts].

(** The run of the Strategy-Comparison builder on records read as [r]:
    the exception of the first record that cannot be read, or the chart
    and its file. *)
Definition strategy_outcome (output_dir : path)
    (r : result (list (Z * string * PercentileSet))) : M unit :=
  match r with
  | Raise e => ([], Raise e)
  | Ok es =>
      (strategy_chart (foldl strategy_put ∅ es) ++
       finish (Slash output_dir "strategy_comparison.png"), Ok tt)
  end.

(** The labels of the bar series that a run draws. *)
Definition series_labels (t : list event) : list string :=
  omap (fun e => match e with BarSeries _ label _ => Some label | _ => None end) t.

(** Strategy-Comparison records for the examples. *)
Definition strategy_record (lane_count strategy : string)
    (pcts : list (string * num)) : Benchmark :=
  record "bench.StrategyComparisonBenchmark.measure"
         [("laneCount", lane_count); ("strategyName", strategy)]
         None (Some pcts).

(** The cell of lane count [lc] and label [strategy] after one more stored
    entry. *)
Definition cell_put (lc : Z) (strategy : string) (acc : option PercentileSet)
    (e : Z * string * PercentileSet) : option PercentileSet :=
  if decide (e.1.1 = lc /\ e.1.2 = strategy) then Some e.2 else acc.

(** A lane count 4 with a round-robin record, and a lane count 8 whose
    only record carries the label "UNKNOWN". *)
Definition strategy_example : list Benchmark :=
  [strategy_record "4" "ROUND_ROBIN" [("95.0", PFloat 5)];
   strategy_record "8" "UNKNOWN" [("95.0", PFloat 7)]].

Definition strategy_example_groups : gmap Z (gmap string PercentileSet) :=
  <[8 := {["UNKNOWN" := {| p50 := PInt 0; p95 := PFloat 7; p99 := PInt 0 |}]}]>
    (<[4 := {["ROUND_ROBIN" :=
                {| p50 := PInt 0; p95 := PFloat 5; p99 := PInt 0 |}]}]> ∅).

(** A round-robin record at lane count 4, and a record of the same lane
    count under the label "UNKNOWN". *)
Definition round_robin_4 : Benchmark :=
  strategy_record "4" "ROUND_ROBIN" [("95.0", PFloat 5)].

Definition unknown_4 : Benchmark :=
  strategy_record "4" "UNKNOWN" [("95.0", PFloat 7)].

(** The method name of a record: what follows the last "." of its
    benchmark identifier. *)
Definition method_of (b : Benchmark) : string :=
  default EmptyString (last (split "." (benchmark b))).

(** The bucket of a method name, as the [if]/[elif] chain picks it. *)
Definition bucket_of (method : string) : option string :=
  if contains "baseline" method then Some "Baseline"
  else if contains "roundRobin" method then Some "RoundRobin"
  else if contains "threadAffinity" method then Some "ThreadAffinity"
  else if contains "leastUsed" method then Some "LeastUsed"
  else None.

(** [s * 1000] *)
Definition score_us (s : num) : num :=
  match s with
  | PInt n => PInt (n * 1000)
  | PFloat f => PFloat (f * 1000)
  end.

(** The overhead annotations of a run: absolute and relative overhead. *)
Definition overhead_texts (t : list event) : list (num * num) :=
  omap (fun e => match e with
                 | OverheadText overhead pct _ => Some (overhead, pct)
                 | _ => None
                 end) t.

(** The value labels put above the bars. *)
Definition bar_texts (t : list event) : list num :=
  omap (fun e => match e with BarText height _ => Some height | _ => None end) t.

(** Selection-Overhead records for the examples. *)
Definition overhead_record (method : string) (s : num) : Benchmark :=
  record ("bench.SelectionOverheadBenchmark." ++ method) [] (Some s) None.

(** Scores of 0.05, 0.09, 0.095 and 0.08 ms: buckets of 50, 90, 95 and 80
    microseconds. *)
Definition overhead_example : list Benchmark :=
  [overhead_record "baselineOverhead" (PFloat 0x1.999999999999ap-5);
   overhead_record "roundRobinOverhead" (PFloat 0x1.70a3d70a3d70ap-4);
   overhead_record "threadAffinityOverhead" (PFloat 0x1.851eb851eb852p-4);
   overhead_record "leastUsedOverhead" (PFloat 0x1.47ae147ae147bp-4)].

Definition overhead_example_buckets : list (string * num) :=
  [("Baseline", PFloat 50); ("RoundRobin", PFloat 90);
   ("ThreadAffinity", PFloat 95); ("LeastUsed", PFloat 80)].

(** The annotations of any kind that a run puts on its charts. *)
Definition is_annotation (e : event) : bool :=
  match e with
  | Annotate _ _ _ | BarText _ _ | OverheadText _ _ _ => true
  | _ => false
  end.

(** The calls of [main] before and after the three reports. *)
Definition main_header (json_path : path) (n : nat) : list event :=
  [Print (Loading json_path); OpenFile json_path; Print (Loaded n);
   Print GeneratingCharts].

Definition main_footer (output_dir : path) : list event :=
  [Print (AllGenerated output_dir); Print Tip].

(** A file system in which every path exists and loads as [benchmarks]. *)
Definition loaded_fs (benchmarks : list Benchmark) : FileSystem :=
  {| exists_ := fun _ => true; json_load := fun _ => Ok benchmarks |}.

(** A HOL-Impact record without its "laneCount" parameter. *)
Definition hol_no_lane_count : Benchmark :=
  record "bench.HolImpactBenchmark.measure" [] None (Some []).

(** A Selection-Overhead record whose method name is in no bucket. *)
Definition overhead_unclassified : Benchmark :=
  overhead_record "warmup" (PFloat 1).

(** A command line with one argument. *)
Definition argv_example : list string := ["visualize.py"; "results.json"].

(** The three series of the HOL-Impact chart: label and percentile. *)
Definition hol_series : list (string * (PercentileSet -> num)) :=
  [("p50 (median)", p50); ("p95", p95); ("p99", p99)].

(** A record that the grouping loop of the HOL-Impact chart can read. *)
Definition hol_readable (py_int : string -> option Z) (b : Benchmark) : Prop :=
  is_Some (hol_entry py_int b).

(** The percentiles of the last record with lane count [lc] and strategy
    label [strategy] among the records [l] that can be read. *)
Definition strategy_last_seen (py_int : string -> option Z) (lc : Z)
    (strategy : string) (l : list Benchmark) : option PercentileSet :=
  foldl (fun acc b => match strategy_read py_int b with
                      | Ok e => cell_put lc strategy acc e
                      | Raise _ => acc
                      end) None l.

(** A Python float, and a record whose score is one (JMH writes its scores
    with a fraction). *)
Definition is_float (a : num) : Prop :=
  match a with PFloat _ => True | PInt _ => False end.

Definition float_scored (b : Benchmark) : Prop :=
  exists f, score (primaryMetric b) = Some (PFloat f).

(** The names of the three files that the script can write, in the order
    of its reports. *)
Definition chart_names : list string :=
  ["hol_impact.png"; "strategy_comparison.png"; "selection_overhead.png"].

(** The calls that the three reports make: their notices, the drawing
    calls and the writing of the file. *)
Definition is_report_event (e : event) : bool :=
  match e with
  | Print (NoResultsFound _) | Print NoOverheadData | Print (Generated _)
  | Subplots | Plot _ _ _ | Xticks _ | Annotate _ _ _ | BarSeries _ _ _
  | Bars _ _ | BarText _ _ | OverheadText _ _ _ | Savefig _ | Close => true
  | _ => false
  end.

(** The files opened for reading, in order. *)
Definition opened (t : list event) : list path :=
  omap (fun e => match e with OpenFile p => Some p | _ => None end) t.


(** A record that the grouping loop of the Strategy-Comparison chart can
    read. *)
Definition strategy_readable (py_int : string -> option Z) (b : Benchmark) :
    Prop :=
  exists e, strategy_read py_int b = Ok e.

(** A record with the label "UNKNOWN" at a lane count of its own. *)
Definition unknown_8 : Benchmark :=
  strategy_record "8" "UNKNOWN" [("95.0", PFloat 7)].

(** The bar series and the ticks that the Strategy-Comparison builder
    draws on [benchmarks]. *)
Definition strategy_chart_of (py_int : string -> option Z)
    (benchmarks : list Benchmark) : list event :=
  List.filter (fun e => match e with
                        | BarSeries _ _ _ | Xticks _ => true
                        | _ => false
                        end)
    (plot_strategy_comparison py_int benchmarks reports_dir).1.
(** * Properties *)

(** ** Sequencing *)

Lemma bind_lift_Ok {A B} (a : A) (f : A -> M B) : lift (Ok a) ≫= f = f a.
Proof. unfold lift, mbind, M_bind. by destruct (f a). Qed.

Lemma bind_lift_Raise {A B} (e : exn) (f : A -> M B) :
  lift (Raise e) ≫= f = ([], Raise e).
Proof. reflexivity. Qed.

Lemma bind_emit {B} (e : event) (f : unit -> M B) :
  emit e ≫= f = ((e :: (f tt).1), (f tt).2).
Proof. unfold emit, mbind, M_bind. by destruct (f tt). Qed.

Lemma bind_trace {A B} (m : M A) (f : A -> M B) :
  m ≫= f =
  match m.2 with
  | Ok a => (m.1 ++ (f a).1, (f a).2)
  | Raise e => (m.1, Raise e)
  end.
Proof.
  destruct m as [t [a|e]]; simpl; [|done].
  unfold mbind, M_bind. by destruct (f a).
Qed.

Lemma bind_Ok_inv {A B} (m : M A) (f : A -> M B) t b :
  m ≫= f = (t, Ok b) ->
  exists t1 a t2, m = (t1, Ok a) /\ f a = (t2, Ok b) /\ t = t1 ++ t2.
Proof.
  rewrite bind_trace. destruct m as [t1 [a|e]]; simpl; [|done].
  destruct (f a) as [t2 r] eqn:Hf. intros [= <- ->]. by exists t1, a, t2.
Qed.

Lemma result_bind_Ok_inv {A B} (m : result A) (f : A -> result B) b :
  m ≫= f = Ok b -> exists a, m = Ok a /\ f a = Ok b.
Proof. destruct m as [a|e]; [|done]. intros. by exists a. Qed.

Lemma foldM_app {A S} (body : S -> A -> result S) l1 l2 s :
  foldM body (l1 ++ l2) s = foldM body l1 s ≫= foldM body l2.
Proof.
  revert s. induction l1 as [|x l1 IH]; intros s; simpl; [done|].
  destruct (body s x) as [s'|e]; simpl; [apply IH|done].
Qed.

Lemma mapM_Ok_fmap {A B} (f : A -> result B) (g : A -> B) (l : list A) :
  Forall (fun x => f x = Ok (g x)) l -> mapM f l = Ok (g <$> l).
Proof.
  induction 1 as [|x l Hx _ IH]; simpl; [done|]. by rewrite Hx, IH.
Qed.

Lemma mapM_Ok_Forall2 {A B} (f : A -> result B) (l : list A) (k : list B) :
  mapM f l = Ok k -> Forall2 (fun x y => f x = Ok y) l k.
Proof.
  revert k. induction l as [|x l IH]; intros k; simpl.
  { intros [= <-]. constructor. }
  intros (y & Hy & (k' & Hk' & [= <-])%result_bind_Ok_inv)%result_bind_Ok_inv.
  constructor; [done|by apply IH].
Qed.

Lemma mapM_result_app {A B} (f : A -> result B) (l1 l2 : list A) :
  mapM f (l1 ++ l2)
  = k1 ← mapM f l1; k2 ← mapM f l2; Ok (k1 ++ k2).
Proof.
  induction l1 as [|x l1 IH]; simpl.
  { by destruct (mapM f l2). }
  destruct (f x) as [y|]; [|done]. simpl. rewrite IH.
  destruct (mapM f l1) as [k1|]; [|done]. simpl.
  by destruct (mapM f l2).
Qed.

(** ** Sorted keys *)

Lemma elem_of_sorted_keys {A} (d : gmap Z A) (n : Z) :
  n ∈ sorted_keys d <-> is_Some (d !! n).
Proof.
  unfold sorted_keys. rewrite merge_sort_Permutation.
  rewrite list_elem_of_fmap. split.
  - intros [[k v] [-> Hkv]]. apply elem_of_map_to_list in Hkv. by exists v.
  - intros [v Hv]. exists (n, v). split; [done|]. by apply elem_of_map_to_list.
Qed.

Lemma sorted_keys_length {A} (d : gmap Z A) : length (sorted_keys d) = size d.
Proof.
  unfold sorted_keys. rewrite merge_sort_Permutation, length_fmap.
  by rewrite length_map_to_list.
Qed.

Lemma sorted_keys_Sorted {A} (d : gmap Z A) : Sorted Z.le (sorted_keys d).
Proof. apply (Sorted_merge_sort Z.le). Qed.

Lemma sorted_keys_NoDup {A} (d : gmap Z A) : NoDup (sorted_keys d).
Proof.
  unfold sorted_keys. rewrite merge_sort_Permutation.
  apply NoDup_fst_map_to_list.
Qed.

(** The sorted keys depend on the set of keys only. *)
Lemma sorted_keys_dom {A B} (d1 : gmap Z A) (d2 : gmap Z B) :
  dom d1 = dom d2 -> sorted_keys d1 = sorted_keys d2.
Proof.
  intros Hdom. apply (Sorted_unique Z.le); try apply sorted_keys_Sorted.
  apply NoDup_Permutation; try apply sorted_keys_NoDup.
  intros n. rewrite !elem_of_sorted_keys, <-!elem_of_dom. by rewrite Hdom.
Qed.

(** ** Percentile extraction *)

(** C4: on every record whose primaryMetric holds a scorePercentiles
    mapping, [extract_percentiles] returns a percentile set (it does not
    raise); each of p50, p95, p99 is the entry under "50.0", "95.0", "99.0",
    or 0 when that entry is absent; on the empty mapping the result is
    [{p50: 0, p95: 0, p99: 0}]. *)
Theorem extract_percentiles_total (b : Benchmark) (percentiles : gmap string num) :
  scorePercentiles (primaryMetric b) = Some percentiles ->
  exists ps, extract_percentiles b = Ok ps /\
    reads percentiles "50.0" (p50 ps) /\
    reads percentiles "95.0" (p95 ps) /\
    reads percentiles "99.0" (p99 ps) /\
    (percentiles = ∅ ->
     ps = {| p50 := PInt 0; p95 := PInt 0; p99 := PInt 0 |}).
Proof.
  intros Hsp. unfold extract_percentiles. rewrite Hsp.
  eexists; split; [reflexivity|]. unfold reads, get; simpl.
  repeat split; try (by destruct (percentiles !! _)).
  by intros ->.
Qed.

Lemma extract_percentiles_total_witness :
  exists ps,
    extract_percentiles (record "HolImpactBenchmark.run" [] None (Some [])) = Ok ps /\
    reads ∅ "50.0" (p50 ps) /\ reads ∅ "95.0" (p95 ps) /\
    reads ∅ "99.0" (p99 ps) /\
    ((∅ : gmap string num) = ∅ ->
     ps = {| p50 := PInt 0; p95 := PInt 0; p99 := PInt 0 |}).
Proof.
  apply (extract_percentiles_total
           (record "HolImpactBenchmark.run" [] None (Some [])) ∅).
  reflexivity.
Defined.

(** ** The HOL-Impact chart *)

Section HolImpact.

Variable py_int : string -> option Z.

Lemma hol_values_sorted_keys by_lane p :
  hol_values by_lane p (sorted_keys by_lane)
  = Ok (at_lane by_lane p <$> sorted_keys by_lane).
Proof.
  apply mapM_Ok_fmap, Forall_forall. intros lc Hlc.
  apply elem_of_sorted_keys in Hlc as [ps Hps].
  unfold subscript_int, at_lane. by rewrite Hps.
Qed.

(** Once the records are grouped, the run draws the chart, annotates
    it, and then writes the file. *)
Lemma plot_hol_impact_grouped benchmarks output_dir by_lane :
  select "HolImpactBenchmark" benchmarks <> [] ->
  hol_by_lane py_int (select "HolImpactBenchmark" benchmarks) = Ok by_lane ->
  plot_hol_impact py_int benchmarks output_dir
  = let lane_counts := sorted_keys by_lane in
    let a := hol_annotate lane_counts (at_lane by_lane p95 <$> lane_counts) in
    (hol_chart by_lane ++ a.1 ++
       (if is_ok a.2 then finish (Slash output_dir "hol_impact.png") else []),
     a.2).
Proof.
  intros Hne Hgroup. unfold plot_hol_impact.
  destruct (select "HolImpactBenchmark" benchmarks) as [|b0 data]; [done|].
  rewrite Hgroup, bind_lift_Ok. cbv zeta.
  rewrite !hol_values_sorted_keys, !bind_lift_Ok.
  rewrite !bind_emit. cbn [fst snd]. rewrite bind_trace.
  destruct (hol_annotate (sorted_keys by_lane) _) as [ta [[]|e]].
  all: simpl; by rewrite ?app_nil_r.
Qed.

Lemma hol_annotate_short lane_counts p95_values :
  (length lane_counts < 2)%nat ->
  hol_annotate lane_counts p95_values = ([], Ok tt).
Proof. intros Hlen. unfold hol_annotate. case_decide; [lia|done]. Qed.

Lemma hol_annotate_two lc0 lc1 lane_counts a b p95_values :
  hol_annotate (lc0 :: lc1 :: lane_counts) (a :: b :: p95_values)
  = match hol_improvement a b with
    | Raise e => ([], Raise e)
    | Ok v =>
        match d ← mul a (PFloat c_0_2); add b d with
        | Raise e => ([], Raise e)
        | Ok y => ([Annotate v (lc1, b) (lc1 + 1, y)], Ok tt)
        end
    end.
Proof.
  unfold hol_annotate. case_decide; [|simpl in *; lia].
  cbn [index lookup list_lookup]. rewrite !bind_lift_Ok.
  destruct (hol_improvement a b) as [v|e]; [|done].
  rewrite !bind_lift_Ok. cbn [mbind result_bind].
  destruct (mul a (PFloat c_0_2)) as [d|e]; [|done].
  destruct (add b d) as [y|e]; done.
Qed.

Lemma annotations_hol_chart by_lane : annotations (hol_chart by_lane) = [].
Proof. reflexivity. Qed.

Lemma annotations_finish p : annotations (finish p) = [].
Proof. reflexivity. Qed.

Lemma annotations_app t1 t2 :
  annotations (t1 ++ t2) = annotations t1 ++ annotations t2.
Proof. apply omap_app. Qed.

End HolImpact.

Lemma float_of_int_100 : float_of_int 100 = Ok 100%float.
Proof. vm_compute. reflexivity. Qed.

(** C1: with the HOL-Impact records grouped by lane count, the annotation
    is computed only when the grouping has at least two lane counts; its
    value is then (p95 of the smallest lane count - p95 of the second
    smallest) / p95 of the smallest * 100 in Python's arithmetic; a chart
    that is written with two or more lane counts carries exactly that one
    annotation, and it is written whenever the two p95 values are doubles
    and the first is not zero. *)
Theorem hol_improvement_annotation (py_int : string -> option Z)
    (benchmarks : list Benchmark) (output_dir : path)
    (by_lane : gmap Z PercentileSet) :
  hol_by_lane py_int (select "HolImpactBenchmark" benchmarks) = Ok by_lane ->
  let run := plot_hol_impact py_int benchmarks output_dir in
  ((size by_lane < 2)%nat -> annotations run.1 = []) /\
  (forall lc0 lc1 rest ps0 ps1,
     sorted_keys by_lane = lc0 :: lc1 :: rest ->
     by_lane !! lc0 = Some ps0 -> by_lane !! lc1 = Some ps1 ->
     (forall v, v ∈ annotations run.1 ->
        (d ← sub (p95 ps0) (p95 ps1); q ← truediv d (p95 ps0);
         mul q (PInt 100)) = Ok v) /\
     (run.2 = Ok tt -> exists v, annotations run.1 = [v]) /\
     (forall f0 f1, p95 ps0 = PFloat f0 -> p95 ps1 = PFloat f1 ->
        (f0 =? 0)%float = false ->
        run.2 = Ok tt /\
        annotations run.1 = [PFloat ((f0 - f1) / f0 * 100)])).
Proof.
  intros Hgroup run.
  destruct (select "HolImpactBenchmark" benchmarks) as [|b0 data] eqn:Hsel.
  { (* no record: nothing is drawn *)
    injection Hgroup as <-.
    assert (run = ([Print (NoResultsFound "HolImpactBenchmark")], Ok tt)) as ->.
    { subst run. unfold plot_hol_impact. by rewrite Hsel. }
    split; [done|]. intros lc0 lc1 rest ps0 ps1 Hkeys. done. }
  assert (run.1 = hol_chart by_lane ++
            (hol_annotate (sorted_keys by_lane)
               (at_lane by_lane p95 <$> sorted_keys by_lane)).1 ++
            (if is_ok (hol_annotate (sorted_keys by_lane)
                         (at_lane by_lane p95 <$> sorted_keys by_lane)).2
             then finish (Slash output_dir "hol_impact.png") else []) /\
          run.2 = (hol_annotate (sorted_keys by_lane)
                     (at_lane by_lane p95 <$> sorted_keys by_lane)).2)
    as [Ht Hr].
  { subst run. rewrite (plot_hol_impact_grouped _ _ _ by_lane); [done| |].
    - by rewrite Hsel.
    - by rewrite Hsel. }
  assert (annotations run.1 =
          annotations (hol_annotate (sorted_keys by_lane)
                         (at_lane by_lane p95 <$> sorted_keys by_lane)).1)
    as Hann.
  { rewrite Ht, !annotations_app, annotations_hol_chart.
    destruct (is_ok _); by rewrite ?annotations_finish, ?app_nil_r. }
  rewrite Hann, Hr. clear Ht Hr Hann. split.
  - intros Hsize. rewrite hol_annotate_short; [done|].
    by rewrite sorted_keys_length.
  - intros lc0 lc1 rest ps0 ps1 Hkeys H0 H1.
    assert (at_lane by_lane p95 <$> lc0 :: lc1 :: rest
            = p95 ps0 :: p95 ps1 :: (at_lane by_lane p95 <$> rest)) as Hvals.
    { cbn [fmap list_fmap]. unfold at_lane at 1 2. by rewrite H0, H1. }
    rewrite Hkeys, Hvals, hol_annotate_two. unfold hol_improvement.
    split; [|split].
    + intros v.
      destruct (d ← sub (p95 ps0) (p95 ps1); q ← truediv d (p95 ps0);
                mul q (PInt 100)) as [w|e]; [|by intros ?%elem_of_nil].
      destruct (d ← mul (p95 ps0) (PFloat c_0_2); add (p95 ps1) d)
        as [y|e]; [|by intros ?%elem_of_nil].
      by intros ->%list_elem_of_singleton.
    + destruct (d ← sub (p95 ps0) (p95 ps1); q ← truediv d (p95 ps0);
                mul q (PInt 100)) as [w|e]; [|done].
      destruct (d ← mul (p95 ps0) (PFloat c_0_2); add (p95 ps1) d)
        as [y|e]; [|done].
      intros _. by exists w.
    + intros f0 f1 -> -> Hnz. cbn [sub truediv mul add to_float mbind result_bind].
      rewrite Hnz. cbn [mbind result_bind mul to_float].
      rewrite float_of_int_100. done.
Qed.

Lemma hol_improvement_annotation_witness :
  annotations (plot_hol_impact int_decimal hol_example reports_dir).1
  = [PFloat 90].
Proof.
  set (ps0 := {| p50 := PInt 50; p95 := PInt 100; p99 := PInt 200 |}).
  set (ps1 := {| p50 := PInt 5; p95 := PInt 10; p99 := PInt 20 |}).
  assert (hol_by_lane int_decimal (select "HolImpactBenchmark" hol_example)
          = Ok (<[4 := ps1]> (<[1 := ps0]> ∅))) as Hgroup
    by (vm_compute; reflexivity).
  destruct (hol_improvement_annotation int_decimal hol_example reports_dir
              _ Hgroup) as [_ Htwo].
  destruct (Htwo 1 4 [] ps0 ps1) as (Hvalue & Hone & _);
    [vm_compute; reflexivity..|].
  destruct Hone as [v Hv]; [vm_compute; reflexivity|].
  rewrite Hv. specialize (Hvalue v). rewrite Hv in Hvalue.
  assert (Ok (PFloat 90) = Ok v) as [= <-]; [|reflexivity].
  rewrite <-Hvalue; [vm_compute; reflexivity|]. apply list_elem_of_here.
Defined.

Lemma float_of_int_0 : float_of_int 0 = Ok 0%float.
Proof. vm_compute. reflexivity. Qed.

(** A first p95 of zero, of either number type, makes the improvement
    raise as soon as the subtraction is defined. *)
Lemma hol_improvement_zero_baseline (a b d : num) :
  sub a b = Ok d ->
  a = PInt 0 \/ (exists f, a = PFloat f /\ (f =? 0)%float = true) ->
  hol_improvement a b = Raise ZeroDivisionError.
Proof.
  intros Hsub Hzero. unfold hol_improvement. rewrite Hsub.
  cbn [mbind result_bind]. destruct Hzero as [->|(f & -> & Hf)].
  - destruct d as [n|x]; [done|].
    cbn [truediv to_float mbind result_bind]. by rewrite float_of_int_0.
  - destruct b as [y|y]; cbn [sub to_float mbind result_bind] in Hsub.
    + destruct (float_of_int y); [|done]. injection Hsub as <-.
      cbn [truediv to_float mbind result_bind]. by rewrite Hf.
    + injection Hsub as <-.
      cbn [truediv to_float mbind result_bind]. by rewrite Hf.
Qed.

(** C2, at a first p95 of zero: the division of the annotation is not
    guarded.  With a p95 of 0.0 at the smallest of two lane counts, and
    likewise with the "95.0" entry absent there (read as 0), the run raises
    [ZeroDivisionError] after drawing the lines and writes no file. *)
Theorem hol_zero_baseline_raises :
  (plot_hol_impact int_decimal hol_zero_baseline reports_dir).2
    = Raise ZeroDivisionError /\
  artifacts (plot_hol_impact int_decimal hol_zero_baseline reports_dir).1 = [] /\
  (plot_hol_impact int_decimal hol_absent_baseline reports_dir).2
    = Raise ZeroDivisionError /\
  artifacts (plot_hol_impact int_decimal hol_absent_baseline reports_dir).1 = [].
Proof. vm_compute. done. Qed.

(** ** Grouping by lane count *)

Section Grouping.

Variable py_int : string -> option Z.

Lemma hol_step_Ok by_lane b by_lane' :
  hol_step py_int by_lane b = Ok by_lane' ->
  exists lc ps,
    hol_entry py_int b = Some (lc, ps) /\ by_lane' = <[lc := ps]> by_lane.
Proof.
  unfold hol_step, hol_entry, lane_of, subscript, int.
  destruct (params b !! "laneCount") as [s|]; [|done]. simpl.
  destruct (py_int s) as [lc|]; [|done]. simpl.
  destruct (extract_percentiles b) as [ps|]; [|done]. simpl.
  intros [= <-]. by exists lc, ps.
Qed.

Lemma hol_step_entry by_lane b lc ps :
  hol_entry py_int b = Some (lc, ps) ->
  hol_step py_int by_lane b = Ok (<[lc := ps]> by_lane).
Proof.
  unfold hol_step, hol_entry, lane_of, subscript, int.
  destruct (params b !! "laneCount") as [s|]; [|done]. simpl.
  destruct (py_int s) as [lc'|]; [|done]. simpl.
  destruct (extract_percentiles b) as [ps'|]; [|done]. simpl.
  by intros [= -> ->].
Qed.

Lemma hol_entry_lane b lc ps :
  hol_entry py_int b = Some (lc, ps) -> lane_of py_int b = Some lc.
Proof.
  unfold hol_entry. destruct (lane_of py_int b) as [lc'|]; [|done]. simpl.
  destruct (extract_percentiles b); [|done]. by intros [= -> _].
Qed.

(** The loop succeeds or fails whatever mapping it starts from. *)
Lemma hol_fold_start l by_lane by_lane' m :
  foldM (hol_step py_int) l by_lane = Ok m ->
  exists m', foldM (hol_step py_int) l by_lane' = Ok m'.
Proof.
  revert by_lane by_lane' m. induction l as [|b l IH]; intros m0 m1 m; simpl.
  { by exists m1. }
  intros (m0' & Hstep & Hrest)%result_bind_Ok_inv.
  apply hol_step_Ok in Hstep as (lc & ps & Hentry & ->).
  rewrite (hol_step_entry m1 b lc ps Hentry). simpl. eauto.
Qed.

(** Last seen wins: each group holds the percentiles of the last record
    of its lane count. *)
Lemma hol_fold_lookup l by_lane m lc :
  foldM (hol_step py_int) l by_lane = Ok m ->
  m !! lc = last_seen py_int lc l (by_lane !! lc).
Proof.
  revert by_lane. induction l as [|b l IH]; intros m0; simpl.
  { by intros [= ->]. }
  intros (m0' & Hstep & Hrest)%result_bind_Ok_inv.
  apply hol_step_Ok in Hstep as (lc' & ps & Hentry & ->).
  rewrite (IH _ Hrest), Hentry, lookup_insert.
  by destruct (decide (lc' = lc)).
Qed.

Lemma last_seen_cases lc l :
  (forall dflt, last_seen py_int lc l dflt = dflt) \/
  (exists ps, forall dflt, last_seen py_int lc l dflt = Some ps).
Proof.
  induction l as [|b l IH]; simpl; [by left|].
  destruct (hol_entry py_int b) as [[lc' ps]|]; [|done].
  destruct (decide (lc' = lc)); [|done].
  destruct IH as [IH|[ps' IH]]; right; [exists ps|exists ps'];
    intros dflt; by rewrite IH.
Qed.

Lemma last_seen_idemp lc l dflt :
  last_seen py_int lc l (last_seen py_int lc l dflt)
  = last_seen py_int lc l dflt.
Proof.
  destruct (last_seen_cases lc l) as [H|[ps H]]; by rewrite !H.
Qed.

(** Running the loop again over the same records changes nothing. *)
Lemma hol_fold_idemp l by_lane m :
  foldM (hol_step py_int) l by_lane = Ok m ->
  foldM (hol_step py_int) l m = Ok m.
Proof.
  intros Hm. destruct (hol_fold_start l by_lane m m Hm) as [m' Hm'].
  rewrite Hm'. f_equal. apply map_eq. intros lc.
  rewrite (hol_fold_lookup _ _ _ lc Hm'), (hol_fold_lookup _ _ _ lc Hm).
  apply last_seen_idemp.
Qed.

(** Records of distinct lane counts may be grouped in any order. *)
Lemma hol_fold_Permutation l l' :
  l ≡ₚ l' ->
  forall by_lane m,
    NoDup (lane_of py_int <$> l) ->
    foldM (hol_step py_int) l by_lane = Ok m ->
    foldM (hol_step py_int) l' by_lane = Ok m.
Proof.
  induction 1 as [|b l l' Hperm IH|b1 b2 l|l l' l'' Hperm IH Hperm' IH'];
    intros m0 m Hnodup; simpl.
  - done.
  - intros (m0' & Hstep & Hrest)%result_bind_Ok_inv. rewrite Hstep. simpl.
    apply IH; [|done]. by apply NoDup_cons in Hnodup as [_ ?].
  - intros (m1 & Hstep2 & (m2 & Hstep1 & Hrest)%result_bind_Ok_inv)
      %result_bind_Ok_inv.
    apply hol_step_Ok in Hstep2 as (lc2 & ps2 & Hentry2 & ->).
    apply hol_step_Ok in Hstep1 as (lc1 & ps1 & Hentry1 & ->).
    rewrite (hol_step_entry _ _ _ _ Hentry1). simpl.
    rewrite (hol_step_entry _ _ _ _ Hentry2). simpl.
    rewrite insert_insert_ne; [done|]. intros ->.
    simpl in Hnodup. apply NoDup_cons in Hnodup as [Hnotin _].
    apply Hnotin. rewrite (hol_entry_lane _ _ _ Hentry1).
    rewrite (hol_entry_lane _ _ _ Hentry2). apply list_elem_of_here.
  - intros Hm. apply IH'; [|by apply IH].
    by rewrite <-Hperm.
Qed.

End Grouping.

Lemma select_Permutation marker (l l' : list Benchmark) :
  l ≡ₚ l' -> select marker l ≡ₚ select marker l'.
Proof.
  unfold select.
  induction 1 as [|b l l' _ IH|b1 b2 l|l l' l'' _ IH _ IH']; simpl.
  - done.
  - destruct (contains marker (benchmark b)); by rewrite IH.
  - destruct (contains marker (benchmark b1)),
             (contains marker (benchmark b2)); try done. apply perm_swap.
  - by rewrite IH.
Qed.

(** C3, as the script has it: when the HOL-Impact records of the input
    have pairwise distinct lane counts, every permutation of the input
    yields the same grouped mapping; whatever the lane counts, each group
    holds the percentiles of the last record seen with its lane count, and
    running the grouping loop again over the same records leaves the
    mapping as it is. *)
Theorem hol_grouping_distinct_lanes (py_int : string -> option Z)
    (benchmarks : list Benchmark) (by_lane : gmap Z PercentileSet) :
  hol_by_lane py_int (select "HolImpactBenchmark" benchmarks) = Ok by_lane ->
  (forall benchmarks',
     benchmarks ≡ₚ benchmarks' ->
     NoDup (lane_of py_int <$> select "HolImpactBenchmark" benchmarks) ->
     hol_by_lane py_int (select "HolImpactBenchmark" benchmarks') = Ok by_lane) /\
  (forall lc,
     by_lane !! lc
     = last_seen py_int lc (select "HolImpactBenchmark" benchmarks) None) /\
  foldM (hol_step py_int) (select "HolImpactBenchmark" benchmarks) by_lane
  = Ok by_lane.
Proof.
  intros Hgroup. split; [|split].
  - intros benchmarks' Hperm Hnodup.
    by apply (hol_fold_Permutation py_int _ _
                (select_Permutation "HolImpactBenchmark" _ _ Hperm)).
  - intros lc. by rewrite (hol_fold_lookup py_int _ _ _ lc Hgroup).
  - by apply (hol_fold_idemp py_int _ ∅).
Qed.

Lemma hol_grouping_distinct_lanes_witness :
  hol_by_lane int_decimal (select "HolImpactBenchmark" (reverse hol_example))
  = hol_by_lane int_decimal (select "HolImpactBenchmark" hol_example).
Proof.
  set (ps0 := {| p50 := PInt 50; p95 := PInt 100; p99 := PInt 200 |}).
  set (ps1 := {| p50 := PInt 5; p95 := PInt 10; p99 := PInt 20 |}).
  assert (hol_by_lane int_decimal (select "HolImpactBenchmark" hol_example)
          = Ok (<[4 := ps1]> (<[1 := ps0]> ∅))) as Hgroup
    by (vm_compute; reflexivity).
  destruct (hol_grouping_distinct_lanes int_decimal hol_example _ Hgroup)
    as [Hperm _].
  rewrite Hgroup. apply Hperm.
  - symmetry. apply reverse_Permutation.
  - vm_compute. apply NoDup_cons. split; [|apply NoDup_singleton].
    intros Hin%list_elem_of_singleton. discriminate Hin.
Defined.

(** C3 as stated fails when a lane count is duplicated: the two orders of
    two records with lane count 1 and p95 values 100 and 10 group to
    different mappings (the last record seen wins). *)
Lemma hol_grouping_order_dependent :
  hol_duplicated ≡ₚ reverse hol_duplicated /\
  hol_by_lane int_decimal (select "HolImpactBenchmark" hol_duplicated)
  <> hol_by_lane int_decimal
       (select "HolImpactBenchmark" (reverse hol_duplicated)).
Proof.
  split; [symmetry; apply reverse_Permutation|].
  intros Heq.
  apply (f_equal (fun r => match r with
                           | Ok m => p95 <$> m !! 1
                           | Raise _ => None
                           end)) in Heq.
  vm_compute in Heq. discriminate Heq.
Qed.

(** ** The Strategy-Comparison chart *)

Lemma cell_strategy_put by_lane_strategy e lc strategy :
  cell (strategy_put by_lane_strategy e) lc strategy
  = cell_put lc strategy (cell by_lane_strategy lc strategy) e.
Proof.
  destruct e as [[lc' strategy'] ps]. unfold cell, cell_put, strategy_put.
  simpl. rewrite lookup_insert.
  destruct (decide (lc' = lc)) as [->|Hlc]; simpl.
  - rewrite lookup_insert.
    destruct (decide (strategy' = strategy)) as [->|Hs].
    + by rewrite decide_True.
    + rewrite decide_False by naive_solver.
      by destruct (by_lane_strategy !! lc).
  - by rewrite decide_False by naive_solver.
Qed.

Lemma cell_foldl_put es by_lane_strategy lc strategy :
  cell (foldl strategy_put by_lane_strategy es) lc strategy
  = foldl (cell_put lc strategy) (cell by_lane_strategy lc strategy) es.
Proof.
  revert by_lane_strategy. induction es as [|e es IH]; intros m; simpl;
    [done|]. by rewrite IH, cell_strategy_put.
Qed.

Lemma dom_strategy_put by_lane_strategy e :
  dom (strategy_put by_lane_strategy e) = {[e.1.1]} ∪ dom by_lane_strategy.
Proof. destruct e as [[lc s] ps]. apply dom_insert_L. Qed.

Lemma dom_foldl_put es by_lane_strategy :
  dom (foldl strategy_put by_lane_strategy es)
  = dom by_lane_strategy ∪ list_to_set es.*1.*1.
Proof.
  revert by_lane_strategy. induction es as [|e es IH]; intros m; simpl.
  - set_solver.
  - rewrite IH, dom_strategy_put. set_solver.
Qed.

Lemma strategy_bars_sorted_keys by_lane_strategy strategy :
  mapM (strategy_p95 by_lane_strategy strategy) (sorted_keys by_lane_strategy)
  = Ok (bar_height by_lane_strategy strategy <$> sorted_keys by_lane_strategy).
Proof.
  apply mapM_Ok_fmap, Forall_forall. intros lc Hlc.
  apply elem_of_sorted_keys in Hlc as [d Hd].
  unfold strategy_p95, subscript_int, bar_height, cell. by rewrite Hd.
Qed.

Lemma foldl_cell_put_skip lc strategy acc es :
  Forall (fun e => ~ (e.1.1 = lc /\ e.1.2 = strategy)) es ->
  foldl (cell_put lc strategy) acc es = acc.
Proof.
  intros Hes. revert acc. induction Hes as [|e es He _ IH]; intros acc;
    simpl; [done|].
  rewrite IH. unfold cell_put. by rewrite decide_False.
Qed.

(** The chart depends on the lane counts present and on the cells of the
    three strategies drawn, and on nothing else. *)
Lemma strategy_chart_ext (m1 m2 : gmap Z (gmap string PercentileSet)) :
  dom m1 = dom m2 ->
  (forall lc strategy, strategy ∈ strategies ->
     cell m1 lc strategy = cell m2 lc strategy) ->
  strategy_chart m1 = strategy_chart m2.
Proof.
  intros Hdom Hcell. unfold strategy_chart.
  rewrite (sorted_keys_dom m1 m2 Hdom).
  assert (forall strategy, strategy ∈ strategies ->
            bar_height m1 strategy <$> sorted_keys m2
            = bar_height m2 strategy <$> sorted_keys m2) as Hbars.
  { intros strategy Hs. apply list_fmap_ext. intros _ lc _.
    unfold bar_height. by rewrite Hcell. }
  rewrite !Hbars; [done|..]; unfold strategies; set_solver.
Qed.

(** An entry under a label that is not drawn can be replaced by another
    of the same lane count and label. *)
Lemma strategy_chart_replace es1 es2 lc u ps ps' :
  u ∉ strategies ->
  strategy_chart (foldl strategy_put ∅ (es1 ++ (lc, u, ps) :: es2))
  = strategy_chart (foldl strategy_put ∅ (es1 ++ (lc, u, ps') :: es2)).
Proof.
  intros Hu. apply strategy_chart_ext.
  - rewrite !dom_foldl_put, !fmap_app. done.
  - intros lc' strategy Hs. rewrite !cell_foldl_put, !foldl_app. simpl.
    f_equal. unfold cell_put. simpl.
    rewrite !decide_False; [done|..]; intros [_ ->]; done.
Qed.

(** It can be dropped when its lane count is stored by another entry. *)
Lemma strategy_chart_drop es1 es2 lc u ps :
  u ∉ strategies ->
  lc ∈ (es1 ++ es2).*1.*1 ->
  strategy_chart (foldl strategy_put ∅ (es1 ++ (lc, u, ps) :: es2))
  = strategy_chart (foldl strategy_put ∅ (es1 ++ es2)).
Proof.
  intros Hu Hlc. apply strategy_chart_ext.
  - rewrite !dom_foldl_put, !fmap_app. rewrite !fmap_app in Hlc.
    simpl. set_solver.
  - intros lc' strategy Hs. rewrite !cell_foldl_put, !foldl_app. simpl.
    f_equal. unfold cell_put. simpl.
    rewrite decide_False; [done|]. intros [_ ->]. done.
Qed.

Section StrategyComparison.

Variable py_int : string -> option Z.

(** One turn of the loop reads the record, then stores what it read. *)
Lemma strategy_step_read by_lane_strategy b :
  strategy_step py_int by_lane_strategy b
  = e ← strategy_read py_int b; Ok (strategy_put by_lane_strategy e).
Proof.
  unfold strategy_step, strategy_read.
  destruct (subscript (params b) "laneCount") as [s|]; [|done]. simpl.
  destruct (int py_int s) as [lc|]; [|done]. simpl.
  destruct (subscript (params b) "strategyName") as [strategy|]; [|done].
  simpl. destruct (extract_percentiles b) as [ps|]; [|done]. simpl.
  f_equal. apply map_eq. intros k.
  destruct (by_lane_strategy !! lc) as [d|] eqn:Hlc; simpl.
  - destruct (decide (lc = k)) as [<-|Hne].
    + by rewrite lookup_alter_eq, lookup_insert_eq, Hlc.
    + by rewrite lookup_alter_ne, lookup_insert_ne.
  - destruct (decide (lc = k)) as [<-|Hne].
    + by rewrite lookup_alter_eq, !lookup_insert_eq.
    + by rewrite lookup_alter_ne, !lookup_insert_ne.
Qed.

Lemma strategy_fold_read l by_lane_strategy :
  foldM (strategy_step py_int) l by_lane_strategy
  = es ← mapM (strategy_read py_int) l;
    Ok (foldl strategy_put by_lane_strategy es).
Proof.
  revert by_lane_strategy. induction l as [|b l IH]; intros m; simpl; [done|].
  rewrite strategy_step_read.
  destruct (strategy_read py_int b) as [e|]; [|done]. simpl.
  rewrite IH. by destruct (mapM (strategy_read py_int) l).
Qed.

(** The run of the builder: a soft skip without records, the exception
    of the first record that cannot be read, the chart and its file
    otherwise. *)
Lemma plot_strategy_comparison_run benchmarks output_dir :
  plot_strategy_comparison py_int benchmarks output_dir
  = match select "StrategyComparisonBenchmark" benchmarks with
    | [] => ([Print (NoResultsFound "StrategyComparisonBenchmark")], Ok tt)
    | _ :: _ =>
        match mapM (strategy_read py_int)
                (select "StrategyComparisonBenchmark" benchmarks) with
        | Raise e => ([], Raise e)
        | Ok es =>
            (strategy_chart (foldl strategy_put ∅ es) ++
             finish (Slash output_dir "strategy_comparison.png"), Ok tt)
        end
    end.
Proof.
  unfold plot_strategy_comparison, strategy_by_lane.
  destruct (select "StrategyComparisonBenchmark" benchmarks) as [|b0 data];
    [done|].
  rewrite strategy_fold_read.
  destruct (mapM (strategy_read py_int) (b0 :: data)) as [es|e]; [|done].
  cbn [mbind result_bind]. rewrite bind_lift_Ok. cbv zeta.
  change (imap pair (zip strategies strategy_labels))
    with [(0%nat, ("ROUND_ROBIN", "RoundRobin"));
          (1%nat, ("THREAD_AFFINITY", "ThreadAffinity"));
          (2%nat, ("LEAST_USED", "LeastUsed"))].
  cbn [forM_ strategy_bars].
  rewrite !strategy_bars_sorted_keys, !bind_lift_Ok.
  repeat (rewrite bind_emit; cbn [fst snd]).
  reflexivity.
Qed.

Lemma strategy_read_Ok b lc strategy ps :
  strategy_read py_int b = Ok (lc, strategy, ps) ->
  lane_of py_int b = Some lc /\
  params b !! "strategyName" = Some strategy /\
  extract_percentiles b = Ok ps.
Proof.
  unfold strategy_read, lane_of, subscript, int.
  destruct (params b !! "laneCount") as [s|]; [|done]. simpl.
  destruct (py_int s) as [lc'|]; [|done]. simpl.
  destruct (params b !! "strategyName") as [strategy'|]; [|done]. simpl.
  destruct (extract_percentiles b) as [ps'|]; [|done]. simpl.
  by intros [= -> -> ->].
Qed.

End StrategyComparison.

Lemma select_app marker (l1 l2 : list Benchmark) :
  select marker (l1 ++ l2) = select marker l1 ++ select marker l2.
Proof. apply List.filter_app. Qed.

Lemma select_cons_marked marker (b : Benchmark) (l : list Benchmark) :
  contains marker (benchmark b) = true ->
  select marker (b :: l) = b :: select marker l.
Proof. intros Hb. unfold select. simpl. by rewrite Hb. Qed.

Lemma series_labels_strategy_chart m p :
  series_labels (strategy_chart m ++ finish p) = strategy_labels.
Proof. reflexivity. Qed.

(** C10: in the Strategy-Comparison chart every record puts its lane count
    among the clusters of the x-axis, whatever its strategy label; and at
    a lane count none of whose records carries a recognized label, each of
    the three strategies is drawn with a bar of height 0. *)
Theorem strategy_unrecognized_lane_cluster (py_int : string -> option Z)
    (benchmarks : list Benchmark) (output_dir : path)
    (by_lane_strategy : gmap Z (gmap string PercentileSet)) :
  strategy_by_lane py_int (select "StrategyComparisonBenchmark" benchmarks)
  = Ok by_lane_strategy ->
  (forall b, b ∈ select "StrategyComparisonBenchmark" benchmarks ->
     exists lc, lane_of py_int b = Some lc /\
                lc ∈ sorted_keys by_lane_strategy) /\
  (forall lc,
     (forall b strategy,
        b ∈ select "StrategyComparisonBenchmark" benchmarks ->
        lane_of py_int b = Some lc -> strategy ∈ strategies ->
        params b !! "strategyName" <> Some strategy) ->
     forall strategy, strategy ∈ strategies ->
       bar_height by_lane_strategy strategy lc = PInt 0) /\
  (select "StrategyComparisonBenchmark" benchmarks <> [] ->
   plot_strategy_comparison py_int benchmarks output_dir
   = (strategy_chart by_lane_strategy ++
      finish (Slash output_dir "strategy_comparison.png"), Ok tt)).
Proof.
  unfold strategy_by_lane. rewrite strategy_fold_read.
  intros (es & Hes & [= <-])%result_bind_Ok_inv.
  pose proof (mapM_Ok_Forall2 _ _ _ Hes) as Hall.
  split; [|split].
  - intros b Hb. apply list_elem_of_lookup in Hb as [i Hi].
    destruct (Forall2_lookup_l _ _ _ _ _ Hall Hi) as ([[lc s] ps] & He & Hread).
    apply strategy_read_Ok in Hread as (Hlane & _ & _).
    exists lc. split; [done|].
    apply elem_of_sorted_keys, elem_of_dom. rewrite dom_foldl_put.
    apply elem_of_union_r, elem_of_list_to_set.
    apply list_elem_of_fmap. exists (lc, s). split; [done|].
    apply list_elem_of_fmap. exists (lc, s, ps). split; [done|].
    by apply list_elem_of_lookup_2 in He.
  - intros lc Hunknown strategy Hs. unfold bar_height.
    rewrite cell_foldl_put, foldl_cell_put_skip; [done|].
    apply Forall_forall. intros [[lc' s] ps] [i Hi]%list_elem_of_lookup.
    destruct (Forall2_lookup_r _ _ _ _ _ Hall Hi) as (b & Hb & Hread).
    apply strategy_read_Ok in Hread as (Hlane & Hname & _).
    simpl. intros [-> ->].
    by apply (Hunknown b strategy); [apply list_elem_of_lookup_2 in Hb|..].
  - intros Hne. rewrite plot_strategy_comparison_run, Hes.
    by destruct (select "StrategyComparisonBenchmark" benchmarks).
Qed.

Lemma strategy_unrecognized_lane_cluster_witness :
  8 ∈ sorted_keys strategy_example_groups /\
  bar_height strategy_example_groups "ROUND_ROBIN" 8 = PInt 0 /\
  bar_height strategy_example_groups "THREAD_AFFINITY" 8 = PInt 0 /\
  bar_height strategy_example_groups "LEAST_USED" 8 = PInt 0 /\
  plot_strategy_comparison int_decimal strategy_example reports_dir
  = (strategy_chart strategy_example_groups ++
     finish (Slash reports_dir "strategy_comparison.png"), Ok tt).
Proof.
  assert (strategy_by_lane int_decimal
            (select "StrategyComparisonBenchmark" strategy_example)
          = Ok strategy_example_groups) as Hgroup by (vm_compute; reflexivity).
  destruct (strategy_unrecognized_lane_cluster int_decimal strategy_example
              reports_dir _ Hgroup) as (Hkeys & Hzero & Hchart).
  assert (forall b strategy,
            b ∈ select "StrategyComparisonBenchmark" strategy_example ->
            lane_of int_decimal b = Some 8 -> strategy ∈ strategies ->
            params b !! "strategyName" <> Some strategy) as Hunknown.
  { intros b strategy Hb Hlane Hs.
    apply elem_of_cons in Hb as [->|Hb]; [discriminate Hlane|].
    apply list_elem_of_singleton in Hb as ->.
    repeat (apply elem_of_cons in Hs as [->|Hs]; [discriminate|]).
    by apply elem_of_nil in Hs. }
  split; [|split; [|split; [|split]]].
  - destruct (Hkeys (strategy_record "8" "UNKNOWN" [("95.0", PFloat 7)]))
      as (lc & [= <-] & Hlc); [|exact Hlc].
    apply list_elem_of_further, list_elem_of_here.
  - apply Hzero; [exact Hunknown|]. apply list_elem_of_here.
  - apply Hzero; [exact Hunknown|].
    apply list_elem_of_further, list_elem_of_here.
  - apply Hzero; [exact Hunknown|].
    do 2 apply list_elem_of_further. apply list_elem_of_here.
  - apply Hchart. discriminate.
Defined.

Section UnknownStrategy.

Variable py_int : string -> option Z.
Variables (pre post : list Benchmark) (b : Benchmark).
Variable output_dir : path.

Hypothesis marked :
  contains "StrategyComparisonBenchmark" (benchmark b) = true.

(** The run on an input that holds the record [b]. *)
Lemma plot_strategy_comparison_with :
  plot_strategy_comparison py_int (pre ++ b :: post) output_dir
  = strategy_outcome output_dir
      (k1 ← mapM (strategy_read py_int)
              (select "StrategyComparisonBenchmark" pre);
       e ← strategy_read py_int b;
       k2 ← mapM (strategy_read py_int)
              (select "StrategyComparisonBenchmark" post);
       Ok (k1 ++ e :: k2)).
Proof.
  rewrite plot_strategy_comparison_run, select_app, select_cons_marked
    by done.
  destruct (select "StrategyComparisonBenchmark" pre ++
            b :: select "StrategyComparisonBenchmark" post)
    as [|b0 data] eqn:Hdata.
  { by apply app_nil in Hdata as [_ [=]]. }
  rewrite <-Hdata, mapM_result_app. unfold strategy_outcome. simpl.
  destruct (mapM (strategy_read py_int)
              (select "StrategyComparisonBenchmark" pre)) as [k1|];
    simpl; [|done].
  destruct (strategy_read py_int b) as [e|]; simpl; [|done].
  by destruct (mapM (strategy_read py_int) _) as [k2|].
Qed.

(** The run on the same input without it. *)
Lemma plot_strategy_comparison_without :
  plot_strategy_comparison py_int (pre ++ post) output_dir
  = match select "StrategyComparisonBenchmark" (pre ++ post) with
    | [] => ([Print (NoResultsFound "StrategyComparisonBenchmark")], Ok tt)
    | _ :: _ =>
        strategy_outcome output_dir
          (k1 ← mapM (strategy_read py_int)
                  (select "StrategyComparisonBenchmark" pre);
           k2 ← mapM (strategy_read py_int)
                  (select "StrategyComparisonBenchmark" post);
           Ok (k1 ++ k2))
    end.
Proof.
  rewrite plot_strategy_comparison_run, select_app.
  destruct (select "StrategyComparisonBenchmark" pre ++
            select "StrategyComparisonBenchmark" post)
    as [|b0 data] eqn:Hdata; [done|].
  by rewrite <-Hdata, mapM_result_app.
Qed.

End UnknownStrategy.

Lemma strategy_read_params py_int (b b' : Benchmark) :
  params b' = params b ->
  (is_Some (scorePercentiles (primaryMetric b')) <->
   is_Some (scorePercentiles (primaryMetric b))) ->
  match strategy_read py_int b with
  | Raise e => strategy_read py_int b' = Raise e
  | Ok (lc, strategy, _) =>
      exists ps', strategy_read py_int b' = Ok (lc, strategy, ps')
  end.
Proof.
  intros Hparams Hsome. unfold strategy_read. rewrite Hparams.
  destruct (subscript (params b) "laneCount") as [s|]; [|done]. simpl.
  destruct (int py_int s) as [lc|]; [|done]. simpl.
  destruct (subscript (params b) "strategyName") as [strategy|]; [|done].
  simpl. unfold extract_percentiles.
  destruct (scorePercentiles (primaryMetric b)) as [sp|],
           (scorePercentiles (primaryMetric b')) as [sp'|]; simpl.
  - eauto.
  - by destruct Hsome as [_ [? ?]].
  - by destruct Hsome as [[? ?] _].
  - done.
Qed.

Lemma strategy_read_intro py_int (b : Benchmark) lc strategy :
  lane_of py_int b = Some lc ->
  params b !! "strategyName" = Some strategy ->
  is_Some (scorePercentiles (primaryMetric b)) ->
  exists ps, strategy_read py_int b = Ok (lc, strategy, ps).
Proof.
  unfold lane_of, strategy_read, subscript, int, extract_percentiles.
  destruct (params b !! "laneCount") as [s|]; [|done]. simpl.
  intros -> -> [sp ->]. simpl. eauto.
Qed.

Lemma strategy_entries_lane py_int (l : list Benchmark) k b lc :
  mapM (strategy_read py_int) l = Ok k ->
  b ∈ l -> lane_of py_int b = Some lc -> lc ∈ k.*1.*1.
Proof.
  intros Hall%mapM_Ok_Forall2 [i Hi]%list_elem_of_lookup Hlane.
  destruct (Forall2_lookup_l _ _ _ _ _ Hall Hi) as ([[lc' s] ps] & He & Hread).
  apply strategy_read_Ok in Hread as (Hlane' & _ & _).
  assert (lc' = lc) as -> by congruence.
  apply list_elem_of_fmap. exists (lc, s). split; [done|].
  apply list_elem_of_fmap. exists (lc, s, ps). split; [done|].
  by apply list_elem_of_lookup_2 in He.
Qed.

Lemma cell_empty lc strategy : cell ∅ lc strategy = None.
Proof. unfold cell. by rewrite lookup_empty. Qed.

Lemma foldl_cell_put_reads py_int lc strategy data es acc :
  Forall2 (fun b e => strategy_read py_int b = Ok e) data es ->
  foldl (cell_put lc strategy) acc es
  = foldl (fun acc b => match strategy_read py_int b with
                        | Ok e => cell_put lc strategy acc e
                        | Raise _ => acc
                        end) acc data.
Proof.
  intros Hall. revert acc.
  induction Hall as [|b e data es Hb _ IH]; intros acc; simpl; [done|].
  by rewrite Hb, IH.
Qed.

Lemma strategy_entries_lanes py_int data es lc :
  Forall2 (fun b e => strategy_read py_int b = Ok e) data es ->
  lc ∈ es.*1.*1 <-> exists b, b ∈ data /\ lane_of py_int b = Some lc.
Proof.
  intros Hall. split.
  - intros Hin. apply list_elem_of_fmap in Hin as [[lc' s] [-> Hin]].
    apply list_elem_of_fmap in Hin as [[[lc s'] ps] [Heq Hin]].
    simpl in Heq. injection Heq as -> ->. simpl.
    apply list_elem_of_lookup in Hin as [i Hi].
    destruct (Forall2_lookup_r _ _ _ _ _ Hall Hi) as (b & Hb & Hread).
    apply strategy_read_Ok in Hread as (Hlane & _ & _).
    exists b. split; [by apply list_elem_of_lookup_2 in Hb|done].
  - intros (b & Hin & Hlane). apply list_elem_of_lookup in Hin as [i Hi].
    destruct (Forall2_lookup_l _ _ _ _ _ Hall Hi) as ([[lc' s] ps] & He & Hread).
    apply strategy_read_Ok in Hread as (Hlane' & _ & _).
    assert (lc' = lc) as -> by congruence.
    apply list_elem_of_fmap. exists (lc, s). split; [done|].
    apply list_elem_of_fmap. exists (lc, s, ps). split; [done|].
    by apply list_elem_of_lookup_2 in He.
Qed.

Lemma strategy_last_seen_skip py_int lc strategy l1 b l2 u :
  params b !! "strategyName" = Some u -> u <> strategy ->
  strategy_last_seen py_int lc strategy (l1 ++ b :: l2)
  = strategy_last_seen py_int lc strategy (l1 ++ l2).
Proof.
  intros Hname Hne. unfold strategy_last_seen. rewrite !foldl_app. simpl.
  destruct (strategy_read py_int b) as [[[lc' s] ps]|e] eqn:Hread; [|done].
  apply strategy_read_Ok in Hread as (_ & Hs & _).
  assert (s = u) as -> by congruence.
  unfold cell_put at 2. simpl. rewrite decide_False; [done|].
  by intros [_ ?].
Qed.

(** The bar series of a run: its strategy, its lane counts and its
    heights, read from the records of the report. *)
Lemma strategy_bar_series py_int benchmarks output_dir i label heights :
  let run := plot_strategy_comparison py_int benchmarks output_dir in
  let strategy_data := select "StrategyComparisonBenchmark" benchmarks in
  BarSeries i label heights ∈ run.1 ->
  exists strategy lane_counts,
    zip strategies strategy_labels !! i = Some (strategy, label) /\
    Xticks lane_counts ∈ run.1 /\
    (forall lc, lc ∈ lane_counts <->
       exists b, b ∈ strategy_data /\ lane_of py_int b = Some lc) /\
    Forall2 (fun lc h =>
               h = match strategy_last_seen py_int lc strategy strategy_data with
                   | Some ps => p95 ps
                   | None => PInt 0
                   end) lane_counts heights.
Proof.
  intros run strategy_data. subst run.
  rewrite plot_strategy_comparison_run. fold strategy_data.
  destruct strategy_data as [|b0 data] eqn:Hdata.
  { by intros [=]%list_elem_of_singleton. }
  rewrite <-Hdata. clear Hdata b0 data.
  destruct (mapM (strategy_read py_int) strategy_data) as [es|] eqn:Hes;
    [|by intros ?%elem_of_nil].
  apply mapM_Ok_Forall2 in Hes. cbn [fst]. intros Hin.
  set (by_ls := foldl strategy_put ∅ es) in *.
  assert (exists strategy,
            zip strategies strategy_labels !! i = Some (strategy, label) /\
            heights = bar_height by_ls strategy <$> sorted_keys by_ls)
    as (strategy & Hi & ->).
  { apply elem_of_app in Hin as [Hin|Hin].
    - unfold strategy_chart in Hin.
      apply elem_of_cons in Hin as [[=]|Hin].
      apply elem_of_cons in Hin as [[= -> -> ->]|Hin]; [by eexists|].
      apply elem_of_cons in Hin as [[= -> -> ->]|Hin]; [by eexists|].
      apply elem_of_cons in Hin as [[= -> -> ->]|Hin]; [by eexists|].
      apply elem_of_cons in Hin as [[=]|Hin]. by apply elem_of_nil in Hin.
    - unfold finish in Hin.
      repeat (apply elem_of_cons in Hin as [[=]|Hin]).
      by apply elem_of_nil in Hin. }
  exists strategy, (sorted_keys by_ls). split; [done|]. split; [|split].
  - apply elem_of_app. left. unfold strategy_chart.
    do 4 apply list_elem_of_further. apply list_elem_of_here.
  - intros lc. rewrite elem_of_sorted_keys, <-elem_of_dom.
    unfold by_ls. rewrite dom_foldl_put, elem_of_union, elem_of_list_to_set.
    rewrite (strategy_entries_lanes py_int strategy_data es lc Hes).
    set_solver.
  - apply Forall2_fmap_r, Forall_Forall2_diag, Forall_forall.
    intros lc _. unfold compose, bar_height, strategy_last_seen, by_ls.
    by rewrite cell_foldl_put, cell_empty,
      (foldl_cell_put_reads py_int lc strategy strategy_data es None Hes).
Qed.

(** C6, as the script has it: a Strategy-Comparison record whose
    strategy label is not one of ROUND_ROBIN, THREAD_AFFINITY, LEAST_USED
    never decides the height of a bar.  The chart has the three fixed series
    only; the percentiles of the record never reach the chart (any others in
    their place give the same run); when the record has a lane count and a
    percentile mapping, the run ends as it does without the record, with
    the very same chart when another record of the report has its lane
    count; and in every case each bar of the chart shows the p95 of the last
    of the other records with its lane count and strategy, and 0 when there
    is none, the lane counts of the chart being those of the other records
    and that of the record itself. *)
Theorem strategy_unknown_label_excluded (py_int : string -> option Z)
    (pre post : list Benchmark) (b : Benchmark) (output_dir : path)
    (u : string) :
  contains "StrategyComparisonBenchmark" (benchmark b) = true ->
  params b !! "strategyName" = Some u ->
  u ∉ strategies ->
  let run := plot_strategy_comparison py_int (pre ++ b :: post) output_dir in
  let others := select "StrategyComparisonBenchmark" (pre ++ post) in
  (forall label, label ∈ series_labels run.1 -> label ∈ strategy_labels) /\
  (forall b',
     benchmark b' = benchmark b -> params b' = params b ->
     (is_Some (scorePercentiles (primaryMetric b')) <->
      is_Some (scorePercentiles (primaryMetric b))) ->
     plot_strategy_comparison py_int (pre ++ b' :: post) output_dir = run) /\
  (is_Some (lane_of py_int b) ->
   is_Some (scorePercentiles (primaryMetric b)) ->
   run.2 = (plot_strategy_comparison py_int (pre ++ post) output_dir).2 /\
   (forall b2,
      b2 ∈ others ->
      lane_of py_int b2 = lane_of py_int b ->
      run = plot_strategy_comparison py_int (pre ++ post) output_dir)) /\
  (forall i label heights,
     BarSeries i label heights ∈ run.1 ->
     exists strategy lane_counts,
       zip strategies strategy_labels !! i = Some (strategy, label) /\
       Xticks lane_counts ∈ run.1 /\
       (forall lc, lc ∈ lane_counts <->
          lane_of py_int b = Some lc \/
          exists b2, b2 ∈ others /\ lane_of py_int b2 = Some lc) /\
       Forall2 (fun lc h =>
                  h = match strategy_last_seen py_int lc strategy others with
                      | Some ps => p95 ps
                      | None => PInt 0
                      end) lane_counts heights).
Proof.
  intros Hmarked Hname Hu run others.
  assert (forall i label heights,
     BarSeries i label heights ∈ run.1 ->
     exists strategy lane_counts,
       zip strategies strategy_labels !! i = Some (strategy, label) /\
       Xticks lane_counts ∈ run.1 /\
       (forall lc, lc ∈ lane_counts <->
          lane_of py_int b = Some lc \/
          exists b2, b2 ∈ others /\ lane_of py_int b2 = Some lc) /\
       Forall2 (fun lc h =>
                  h = match strategy_last_seen py_int lc strategy others with
                      | Some ps => p95 ps
                      | None => PInt 0
                      end) lane_counts heights) as Hbars.
  { intros i label heights Hin.
    destruct (strategy_bar_series _ _ _ _ _ _ Hin)
      as (strategy & lane_counts & Hi & Hticks & Hlanes & Hheights).
    exists strategy, lane_counts. split; [done|]. split; [done|].
    subst others. rewrite select_app in Hlanes, Hheights |- *.
    rewrite select_cons_marked in Hlanes, Hheights by done.
    split.
    - intros lc. rewrite Hlanes. split.
      + intros (b2 & [Hb2|[->|Hb2]%elem_of_cons]%elem_of_app & Hlc).
        * right. exists b2. split; [|done]. apply elem_of_app. by left.
        * by left.
        * right. exists b2. split; [|done]. apply elem_of_app. by right.
      + intros [Hlc|(b2 & [Hb2|Hb2]%elem_of_app & Hlc)].
        * exists b. split; [|done]. apply elem_of_app. right.
          apply list_elem_of_here.
        * exists b2. split; [|done]. apply elem_of_app. by left.
        * exists b2. split; [|done]. apply elem_of_app. right.
          by apply list_elem_of_further.
    - eapply Forall2_impl; [exact Hheights|]. intros lc h ->. cbv beta.
      rewrite (strategy_last_seen_skip py_int lc strategy _ b _ u);
        [done|done|].
      intros ->. apply Hu.
      destruct i as [|[|[|i]]]; simpl in Hi; try done;
        injection Hi as <- _; repeat constructor. }
  split; [|split; [|split; [|exact Hbars]]]; clear Hbars;
    subst run others; rewrite plot_strategy_comparison_with by done;
    unfold strategy_outcome.
  - intros label.
    destruct (_ ≫= _) as [es|e]; cbn [fst]; [|by intros ?%elem_of_nil].
    by rewrite series_labels_strategy_chart.
  - intros b' Hbench Hparams Hsome.
    rewrite plot_strategy_comparison_with by (by rewrite Hbench).
    unfold strategy_outcome.
    pose proof (strategy_read_params py_int b b' Hparams Hsome) as Hread'.
    destruct (mapM (strategy_read py_int)
                (select "StrategyComparisonBenchmark" pre)) as [k1|];
      cbn [mbind result_bind]; [|done].
    destruct (strategy_read py_int b) as [[[lc s] ps]|e] eqn:Hread.
    + destruct Hread' as [ps' ->]. cbn [mbind result_bind].
      destruct (mapM (strategy_read py_int)
                  (select "StrategyComparisonBenchmark" post)) as [k2|];
        cbn [mbind result_bind]; [|done].
      apply strategy_read_Ok in Hread as (_ & Hs & _).
      assert (s = u) as -> by congruence.
      by rewrite (strategy_chart_replace k1 k2 lc u ps' ps).
    + by rewrite Hread'.
  - intros [lc Hlane] Hsome.
    destruct (strategy_read_intro py_int b lc u Hlane Hname Hsome)
      as [ps Hread].
    rewrite plot_strategy_comparison_without, Hread, select_app.
    unfold strategy_outcome.
    split.
    + destruct (select "StrategyComparisonBenchmark" pre ++
                select "StrategyComparisonBenchmark" post)
        as [|b0 data] eqn:Hdata.
      { apply app_nil in Hdata as [-> ->]. reflexivity. }
      destruct (mapM (strategy_read py_int)
                  (select "StrategyComparisonBenchmark" pre)) as [k1|];
        cbn [mbind result_bind]; [|done].
      by destruct (mapM (strategy_read py_int)
                     (select "StrategyComparisonBenchmark" post)).
    + intros b2 Hb2 Hlane2.
      destruct (select "StrategyComparisonBenchmark" pre ++
                select "StrategyComparisonBenchmark" post)
        as [|b0 data] eqn:Hdata; [by apply elem_of_nil in Hb2|].
      rewrite <-Hdata in Hb2. clear Hdata.
      destruct (mapM (strategy_read py_int)
                  (select "StrategyComparisonBenchmark" pre)) as [k1|] eqn:Hk1;
        cbn [mbind result_bind]; [|done].
      destruct (mapM (strategy_read py_int)
                  (select "StrategyComparisonBenchmark" post)) as [k2|] eqn:Hk2;
        cbn [mbind result_bind]; [|done].
      rewrite (strategy_chart_drop k1 k2 lc u ps); [done..|].
      rewrite Hlane in Hlane2. rewrite !fmap_app.
      apply elem_of_app in Hb2 as [Hb2|Hb2]; apply elem_of_app; [left|right];
        by eapply strategy_entries_lane.
Qed.

Lemma strategy_unknown_label_excluded_witness :
  plot_strategy_comparison int_decimal ([round_robin_4] ++ unknown_4 :: [])
    reports_dir
  = plot_strategy_comparison int_decimal ([round_robin_4] ++ []) reports_dir.
Proof.
  assert ("UNKNOWN" ∉ strategies) as Hu.
  { intros H. repeat (apply elem_of_cons in H as [[=]|H]).
    by apply elem_of_nil in H. }
  destruct (strategy_unknown_label_excluded int_decimal [round_robin_4] []
              unknown_4 reports_dir "UNKNOWN" eq_refl eq_refl Hu)
    as (_ & _ & Hsame & _).
  destruct Hsame as [_ Hsame]; [by eexists..|].
  apply (Hsame round_robin_4); [apply list_elem_of_here|reflexivity].
Defined.

(** C6 as stated fails when no other record has the lane count of the
    record: the record with the label "UNKNOWN" at lane count 8 adds to the
    chart of the round-robin record at lane count 4 a cluster of three bars
    of height 0, and alone it gets a chart written. *)
Lemma unknown_label_adds_cluster :
  strategy_example = [round_robin_4; unknown_8] /\
  params unknown_8 !! "strategyName" = Some "UNKNOWN" /\
  strategy_chart_of int_decimal [round_robin_4]
  = [BarSeries 0 "RoundRobin" [PFloat 5];
     BarSeries 1 "ThreadAffinity" [PInt 0];
     BarSeries 2 "LeastUsed" [PInt 0];
     Xticks [4]] /\
  strategy_chart_of int_decimal [round_robin_4; unknown_8]
  = [BarSeries 0 "RoundRobin" [PFloat 5; PInt 0];
     BarSeries 1 "ThreadAffinity" [PInt 0; PInt 0];
     BarSeries 2 "LeastUsed" [PInt 0; PInt 0];
     Xticks [4; 8]] /\
  artifacts (plot_strategy_comparison int_decimal [] reports_dir).1 = [] /\
  artifacts (plot_strategy_comparison int_decimal [unknown_8] reports_dir).1
  = [Slash reports_dir "strategy_comparison.png"].
Proof. vm_compute. repeat split. Qed.

(** ** The Selection-Overhead chart *)

Lemma float_of_int_1000 : float_of_int 1000 = Ok 1000%float.
Proof. vm_compute. reflexivity. Qed.

Lemma mul_1000 (s : num) : mul s (PInt 1000) = Ok (score_us s).
Proof.
  destruct s as [n|f]; [done|].
  cbn [mul to_float mbind result_bind]. by rewrite float_of_int_1000.
Qed.

Lemma split_last sep s : is_Some (last (split sep s)).
Proof.
  induction s as [|c s [w Hw]]; simpl; [by eexists|].
  destruct (Ascii.eqb c sep).
  - destruct (split sep s); [done|]. by exists w.
  - destruct (split sep s) as [|w' [|w'' ws]]; [done|by eexists|].
    by exists w.
Qed.

Lemma index_last_split (b : Benchmark) :
  index_last (split "." (benchmark b)) = Ok (method_of b).
Proof.
  unfold index_last, method_of.
  by destruct (split_last "." (benchmark b)) as [w ->].
Qed.

(** One turn of the loop: the score is read, converted, and stored under
    the bucket of the method name, if it has one. *)
Lemma overhead_step_read overheads b :
  overhead_step overheads b
  = match score (primaryMetric b) with
    | None => Raise (KeyError (KStr "score"))
    | Some s =>
        Ok match bucket_of (method_of b) with
           | Some label => setitem label (score_us s) overheads
           | None => overheads
           end
    end.
Proof.
  unfold overhead_step. rewrite index_last_split. cbn [mbind result_bind].
  destruct (score (primaryMetric b)) as [s|]; [|done].
  cbn [mbind result_bind]. rewrite mul_1000. cbn [mbind result_bind].
  unfold bucket_of. by repeat destruct (contains _ _).
Qed.

(** *** The ordered dict *)

Lemma elem_of_setitem {A} k (v : A) d k' v' :
  (k', v') ∈ setitem k v d -> (k', v') = (k, v) \/ (k', v') ∈ d.
Proof.
  induction d as [|[k0 v0] d IH]; simpl.
  { intros ->%list_elem_of_singleton. by left. }
  destruct (String.eqb k0 k).
  - intros [->|?]%elem_of_cons; [by left|]. right. by apply list_elem_of_further.
  - intros [->|[?|?]%IH]%elem_of_cons.
    + right. apply list_elem_of_here.
    + by left.
    + right. by apply list_elem_of_further.
Qed.

Lemma setitem_elem {A} k (v : A) d : (k, v) ∈ setitem k v d.
Proof.
  induction d as [|[k0 v0] d IH]; simpl; [apply list_elem_of_here|].
  destruct (String.eqb k0 k); [apply list_elem_of_here|].
  by apply list_elem_of_further.
Qed.

Lemma setitem_other {A} k (v : A) d k' v' :
  k' <> k -> (k', v') ∈ d -> (k', v') ∈ setitem k v d.
Proof.
  intros Hne. induction d as [|[k0 v0] d IH]; simpl.
  { by intros ?%elem_of_nil. }
  destruct (String.eqb k0 k) eqn:Hk.
  - apply String.eqb_eq in Hk as ->.
    intros [[= -> ->]|?]%elem_of_cons; [done|]. by apply list_elem_of_further.
  - intros [->|?]%elem_of_cons; [apply list_elem_of_here|].
    by apply list_elem_of_further, IH.
Qed.

Lemma get_item_elem {A} (d : list (string * A)) k dflt :
  get_item d k dflt = dflt \/ (k, get_item d k dflt) ∈ d.
Proof.
  induction d as [|[k0 v0] d IH]; simpl; [by left|].
  destruct (String.eqb k0 k) eqn:Hk.
  - apply String.eqb_eq in Hk as ->. right. apply list_elem_of_here.
  - destruct IH as [->|?]; [by left|]. right. by apply list_elem_of_further.
Qed.

(** *** The buckets *)

(** Every value stored by the loop is the converted score of a record of
    the bucket it is stored under. *)
Lemma overhead_fold_elem l overheads0 overheads label v :
  foldM overhead_step l overheads0 = Ok overheads ->
  (label, v) ∈ overheads ->
  (label, v) ∈ overheads0 \/
  exists b s, b ∈ l /\ bucket_of (method_of b) = Some label /\
              score (primaryMetric b) = Some s /\ v = score_us s.
Proof.
  revert overheads0. induction l as [|b l IH]; intros d0; simpl.
  { intros [= ->]. by left. }
  intros (d1 & Hstep & Hrest)%result_bind_Ok_inv Hin.
  rewrite overhead_step_read in Hstep.
  destruct (score (primaryMetric b)) as [s|] eqn:Hscore; [|done].
  injection Hstep as <-.
  destruct (IH _ Hrest Hin) as [Hin1|(b' & s' & Hb' & ?)].
  - destruct (bucket_of (method_of b)) as [label'|] eqn:Hbucket; [|by left].
    apply elem_of_setitem in Hin1 as [[= -> ->]|?]; [|by left].
    right. exists b, s. split; [apply list_elem_of_here|done].
  - right. exists b', s'. split; [by apply list_elem_of_further|done].
Qed.

(** The last record of a bucket is the one displayed. *)
Lemma overhead_fold_last l1 b l2 overheads0 overheads label s :
  foldM overhead_step (l1 ++ b :: l2) overheads0 = Ok overheads ->
  bucket_of (method_of b) = Some label ->
  score (primaryMetric b) = Some s ->
  Forall (fun b' => bucket_of (method_of b') <> Some label) l2 ->
  (label, score_us s) ∈ overheads.
Proof.
  rewrite foldM_app. intros (d1 & _ & Hrest)%result_bind_Ok_inv.
  simpl in Hrest. apply result_bind_Ok_inv in Hrest as (d2 & Hstep & Hrest).
  intros Hbucket Hscore Hl2.
  rewrite overhead_step_read, Hscore, Hbucket in Hstep. injection Hstep as <-.
  assert ((label, score_us s) ∈ setitem label (score_us s) d1) as Hin
    by apply setitem_elem.
  revert Hrest Hin. generalize (setitem label (score_us s) d1). clear d1.
  induction Hl2 as [|b' l2 Hb' _ IH]; intros d; simpl.
  { by intros [= ->]. }
  intros (d' & Hstep & Hrest)%result_bind_Ok_inv Hin.
  apply (IH d'); [done|].
  rewrite overhead_step_read in Hstep.
  destruct (score (primaryMetric b')); [|done]. injection Hstep as <-.
  destruct (bucket_of (method_of b')) as [label'|]; [|done].
  apply setitem_other; [|done]. by intros ->.
Qed.

(** *** The run of the builder *)

Lemma overhead_bar_text_run values height :
  overhead_bar_text values height
  = match m ← max values; d ← mul m (PFloat c_0_02); add height d with
    | Ok y => ([BarText height y], Ok tt)
    | Raise e => ([], Raise e)
    end.
Proof.
  unfold overhead_bar_text.
  destruct (m ← max values; d ← mul m (PFloat c_0_02); add height d)
    as [y|e]; [by rewrite bind_lift_Ok|done].
Qed.

(** The loop over the bars only puts value labels, one per bar when it
    completes. *)
Lemma bar_text_loop_events values l e :
  e ∈ (forM_ (overhead_bar_text values) l).1 -> exists h y, e = BarText h y.
Proof.
  induction l as [|h l IH]; simpl; [by intros ?%elem_of_nil|].
  rewrite bind_trace, overhead_bar_text_run.
  destruct (m ← max values; d ← mul m (PFloat c_0_02); add h d)
    as [y|err]; simpl; [|by intros ?%elem_of_nil].
  intros [->|?]%elem_of_cons; eauto.
Qed.

Lemma bar_text_loop_Ok values l :
  (forM_ (overhead_bar_text values) l).2 = Ok tt ->
  bar_texts (forM_ (overhead_bar_text values) l).1 = l.
Proof.
  induction l as [|h l IH]; simpl; [done|].
  rewrite bind_trace, overhead_bar_text_run.
  destruct (m ← max values; d ← mul m (PFloat c_0_02); add h d)
    as [y|err]; simpl; [|done].
  intros Hok. by rewrite (IH Hok).
Qed.

(** The annotation block: what it puts on the chart, and when. *)
Lemma overhead_annotate_events overheads values e :
  e ∈ (overhead_annotate overheads values).1 ->
  exists overhead overhead_pct y max_strategy,
    e = OverheadText overhead overhead_pct y /\
    (2 <= length values)%nat /\
    gt (get_item overheads "Baseline" (PInt 0)) (PInt 0) = true /\
    max_strategy_of overheads = Ok max_strategy /\
    sub max_strategy (get_item overheads "Baseline" (PInt 0)) = Ok overhead /\
    (q ← truediv overhead max_strategy; mul q (PInt 100)) = Ok overhead_pct.
Proof.
  unfold overhead_annotate. case_decide; [|by intros ?%elem_of_nil].
  destruct (max_strategy_of overheads) as [max_strategy|];
    [|by intros ?%elem_of_nil].
  rewrite bind_lift_Ok.
  destruct (gt _ _) eqn:Hgt; [|by intros ?%elem_of_nil].
  destruct (sub max_strategy _) as [overhead|] eqn:Hsub;
    [|by intros ?%elem_of_nil].
  rewrite bind_lift_Ok.
  destruct (q ← truediv overhead max_strategy; mul q (PInt 100))
    as [overhead_pct|] eqn:Hpct; [|by intros ?%elem_of_nil].
  rewrite bind_lift_Ok.
  destruct (m ← max values; mul m (PFloat c_0_85)) as [y|];
    [|by intros ?%elem_of_nil].
  rewrite bind_lift_Ok. intros ->%list_elem_of_singleton.
  by exists overhead, overhead_pct, y, max_strategy.
Qed.

Lemma overhead_annotate_Ok overheads values :
  (overhead_annotate overheads values).2 = Ok tt ->
  (2 <= length values)%nat ->
  gt (get_item overheads "Baseline" (PInt 0)) (PInt 0) = true ->
  exists overhead overhead_pct y,
    (overhead_annotate overheads values).1
    = [OverheadText overhead overhead_pct y].
Proof.
  unfold overhead_annotate. intros Hok Hlen Hgt. revert Hok.
  rewrite decide_True by done.
  destruct (max_strategy_of overheads) as [max_strategy|]; [|done].
  rewrite bind_lift_Ok, Hgt.
  destruct (sub max_strategy _) as [overhead|]; [|done].
  rewrite bind_lift_Ok.
  destruct (q ← truediv overhead max_strategy; mul q (PInt 100))
    as [overhead_pct|]; [|done].
  rewrite bind_lift_Ok.
  destruct (m ← max values; mul m (PFloat c_0_85)) as [y|]; [|done].
  rewrite bind_lift_Ok. intros _. by exists overhead, overhead_pct, y.
Qed.

(** The run once the buckets are filled: the bars, their value labels,
    the annotation, the file. *)
Lemma plot_selection_overhead_run benchmarks output_dir overheads :
  select "SelectionOverheadBenchmark" benchmarks <> [] ->
  overhead_buckets (select "SelectionOverheadBenchmark" benchmarks)
  = Ok overheads ->
  overheads <> [] ->
  plot_selection_overhead benchmarks output_dir
  = let values := overheads.*2 in
    let texts := forM_ (overhead_bar_text values) values in
    let a := overhead_annotate overheads values in
    (Subplots :: Bars overheads.*1 values :: texts.1 ++
       (if is_ok texts.2
        then a.1 ++ (if is_ok a.2
                     then finish (Slash output_dir "selection_overhead.png")
                     else [])
        else []),
     match texts.2 with
     | Ok _ => a.2
     | Raise e => Raise e
     end).
Proof.
  intros Hne Hbuckets Hne'. unfold plot_selection_overhead.
  destruct (select "SelectionOverheadBenchmark" benchmarks) as [|b0 data];
    [done|].
  rewrite Hbuckets, bind_lift_Ok.
  destruct overheads as [|kv overheads]; [done|].
  rewrite !bind_emit. cbn [fst snd]. cbv zeta.
  rewrite bind_trace.
  destruct (forM_ _ _) as [tb [[]|e]]; cbn [fst snd is_ok];
    [|by rewrite app_nil_r].
  rewrite bind_trace.
  destruct (overhead_annotate _ _) as [ta [[]|e]]; cbn [fst snd is_ok].
  - reflexivity.
  - by rewrite app_nil_r.
Qed.

(** The calls of a run, by kind. *)
Lemma plot_selection_overhead_events benchmarks output_dir overheads e :
  overhead_buckets (select "SelectionOverheadBenchmark" benchmarks)
  = Ok overheads ->
  e ∈ (plot_selection_overhead benchmarks output_dir).1 ->
  (exists m, e = Print m) \/ e = Subplots \/
  e = Bars overheads.*1 overheads.*2 \/
  (exists h y, e = BarText h y) \/
  e ∈ (overhead_annotate overheads overheads.*2).1 \/
  e ∈ finish (Slash output_dir "selection_overhead.png").
Proof.
  intros Hbuckets.
  destruct (select "SelectionOverheadBenchmark" benchmarks) as [|b0 data]
    eqn:Hsel.
  { unfold plot_selection_overhead. rewrite Hsel.
    intros ->%list_elem_of_singleton. left. by eexists. }
  destruct overheads as [|kv overheads].
  { unfold plot_selection_overhead. rewrite Hsel, Hbuckets, bind_lift_Ok.
    intros ->%list_elem_of_singleton. left. by eexists. }
  rewrite (plot_selection_overhead_run _ _ (kv :: overheads));
    [|by rewrite Hsel..|done].
  cbv zeta. cbn [fst].
  intros [->|[->|[He|He]%elem_of_app]%elem_of_cons]%elem_of_cons.
  - by right; left.
  - by right; right; left.
  - right; right; right; left. by eapply bar_text_loop_events.
  - destruct (is_ok (forM_ _ _).2); [|by apply elem_of_nil in He].
    apply elem_of_app in He as [He|He]; [by right; right; right; right; left|].
    destruct (is_ok (overhead_annotate _ _).2); [|by apply elem_of_nil in He].
    by right; right; right; right; right.
Qed.

(** C5: in the Selection-Overhead chart every bar shows the score of a
    record of its bucket multiplied by 1000, and the last record of a bucket
    is the one shown; the overhead annotation is put only when a Baseline
    bucket exists whose value is greater than zero, and it shows the maximum
    of the other buckets minus the Baseline value, and that difference
    divided by the maximum, times 100; a chart written with two or more
    buckets and a Baseline value greater than zero carries the annotation. *)
Theorem selection_overhead_values (benchmarks : list Benchmark)
    (output_dir : path) (overheads : list (string * num)) :
  overhead_buckets (select "SelectionOverheadBenchmark" benchmarks)
  = Ok overheads ->
  let run := plot_selection_overhead benchmarks output_dir in
  (forall labels values, Bars labels values ∈ run.1 ->
     labels = overheads.*1 /\ values = overheads.*2) /\
  (forall label v, (label, v) ∈ overheads ->
     exists b s,
       b ∈ select "SelectionOverheadBenchmark" benchmarks /\
       bucket_of (method_of b) = Some label /\
       score (primaryMetric b) = Some s /\
       mul s (PInt 1000) = Ok v) /\
  (forall l1 b l2 label s,
     select "SelectionOverheadBenchmark" benchmarks = l1 ++ b :: l2 ->
     bucket_of (method_of b) = Some label ->
     score (primaryMetric b) = Some s ->
     Forall (fun b' => bucket_of (method_of b') <> Some label) l2 ->
     exists v, mul s (PInt 1000) = Ok v /\ (label, v) ∈ overheads /\
               Bars overheads.*1 overheads.*2 ∈ run.1) /\
  (forall overhead overhead_pct y,
     OverheadText overhead overhead_pct y ∈ run.1 ->
     exists baseline max_strategy,
       ("Baseline", baseline) ∈ overheads /\
       gt baseline (PInt 0) = true /\
       max (List.filter (fun kv => negb (String.eqb kv.1 "Baseline"))
              overheads).*2 = Ok max_strategy /\
       sub max_strategy baseline = Ok overhead /\
       (q ← truediv overhead max_strategy; mul q (PInt 100))
       = Ok overhead_pct) /\
  (run.2 = Ok tt ->
   (2 <= length overheads)%nat ->
   gt (get_item overheads "Baseline" (PInt 0)) (PInt 0) = true ->
   exists overhead overhead_pct y,
     OverheadText overhead overhead_pct y ∈ run.1).
Proof.
  intros Hbuckets run. split; [|split; [|split; [|split]]].
  - intros labels values Hin.
    destruct (plot_selection_overhead_events _ _ _ _ Hbuckets Hin)
      as [[? [=]]|[[=]|[[= -> ->]|[(?&?&[=])|[He|He]]]]]; [done|..].
    + by apply overhead_annotate_events in He as (?&?&?&?&[=]&_).
    + unfold finish in He.
      repeat (apply elem_of_cons in He as [[=]|He]). by apply elem_of_nil in He.
  - intros label v Hin.
    destruct (overhead_fold_elem _ _ _ _ _ Hbuckets Hin)
      as [?%elem_of_nil|(b & s & Hb & Hbucket & Hscore & ->)]; [done|].
    exists b, s. by rewrite mul_1000.
  - intros l1 b l2 label s Hsel Hbucket Hscore Hl2.
    exists (score_us s). rewrite mul_1000. split; [done|].
    assert ((label, score_us s) ∈ overheads) as Hin.
    { unfold overhead_buckets in Hbuckets. rewrite Hsel in Hbuckets.
      by eapply overhead_fold_last. }
    split; [done|]. subst run.
    rewrite (plot_selection_overhead_run _ _ overheads).
    + cbv zeta. cbn [fst]. apply list_elem_of_further, list_elem_of_here.
    + rewrite Hsel. by destruct l1.
    + done.
    + intros ->. by apply elem_of_nil in Hin.
  - intros overhead overhead_pct y Hin.
    destruct (plot_selection_overhead_events _ _ _ _ Hbuckets Hin)
      as [[? [=]]|[[=]|[[=]|[(?&?&[=])|[He|He]]]]].
    + apply overhead_annotate_events in He
        as (ov & pct & y' & max_strategy & [= -> -> ->] & _ & Hgt & Hmax
            & Hsub & Hpct).
      exists (get_item overheads "Baseline" (PInt 0)), max_strategy.
      split; [|done].
      by destruct (get_item_elem overheads "Baseline" (PInt 0)) as [Heq|?];
        [rewrite Heq in Hgt|].
    + unfold finish in He.
      repeat (apply elem_of_cons in He as [[=]|He]). by apply elem_of_nil in He.
  - intros Hok Hlen Hgt. subst run.
    assert (overheads <> []) as Hne by (intros ->; simpl in Hlen; lia).
    assert (select "SelectionOverheadBenchmark" benchmarks <> []) as Hsel.
    { intros Hsel. rewrite Hsel in Hbuckets. by injection Hbuckets as <-. }
    revert Hok. rewrite (plot_selection_overhead_run _ _ overheads) by done.
    cbv zeta. cbn [fst snd].
    destruct (forM_ _ _).2 as [[]|]; [|done]. cbn [is_ok]. intros Hok.
    destruct (overhead_annotate_Ok _ _ Hok) as (ov & pct & y & Heq);
      [by rewrite length_fmap|done|].
    exists ov, pct, y. rewrite Heq.
    do 2 apply list_elem_of_further. apply elem_of_app. right.
    apply list_elem_of_here.
Qed.

Lemma selection_overhead_values_witness :
  exists y,
    OverheadText (PFloat 45) (PFloat (45 / 95 * 100)) y
    ∈ (plot_selection_overhead overhead_example reports_dir).1.
Proof.
  assert (overhead_buckets
            (select "SelectionOverheadBenchmark" overhead_example)
          = Ok overhead_example_buckets) as Hbuckets
    by (vm_compute; reflexivity).
  destruct (selection_overhead_values overhead_example reports_dir _ Hbuckets)
    as (_ & _ & _ & Hvalue & Hput).
  destruct Hput as (overhead & pct & y & Hin);
    [vm_compute; reflexivity|simpl; lia|vm_compute; reflexivity|].
  destruct (Hvalue _ _ _ Hin) as (baseline & max_strategy & Hbaseline & _ &
                                  Hmax & Hsub & Hpct).
  vm_compute in Hmax. injection Hmax as <-.
  apply elem_of_cons in Hbaseline as [[= ->]|Hbaseline].
  - vm_compute in Hsub. injection Hsub as <-.
    vm_compute in Hpct. injection Hpct as <-.
    exists y. exact Hin.
  - repeat (apply elem_of_cons in Hbaseline as [[=]|Hbaseline]).
    by apply elem_of_nil in Hbaseline.
Defined.

Lemma setitem_key {A} k (v : A) d k' :
  k' = k \/ k' ∈ d.*1 -> k' ∈ (setitem k v d).*1.
Proof.
  intros [->|Hin].
  - apply list_elem_of_fmap. exists (k, v). split; [done|apply setitem_elem].
  - apply list_elem_of_fmap in Hin as [[k0 v0] [-> Hin]]. simpl.
    destruct (decide (k0 = k)) as [->|Hne].
    + apply list_elem_of_fmap. exists (k, v). split; [done|apply setitem_elem].
    + apply list_elem_of_fmap. exists (k0, v0). split; [done|].
      by apply setitem_other.
Qed.

(** Every record that falls in a bucket gets its bucket a bar. *)
Lemma overhead_fold_keys l overheads0 overheads label :
  foldM overhead_step l overheads0 = Ok overheads ->
  label ∈ overheads0.*1 \/
  (exists b, b ∈ l /\ bucket_of (method_of b) = Some label) ->
  label ∈ overheads.*1.
Proof.
  revert overheads0. induction l as [|b l IH]; intros d0; simpl.
  { intros [= ->] [?|(b & ?%elem_of_nil & _)]; done. }
  intros (d1 & Hstep & Hrest)%result_bind_Ok_inv Hlabel.
  apply (IH _ Hrest).
  rewrite overhead_step_read in Hstep.
  destruct (score (primaryMetric b)) as [s|]; [|done]. injection Hstep as <-.
  destruct Hlabel as [Hin|(b' & [->|Hb']%elem_of_cons & Hbucket)].
  - left. destruct (bucket_of (method_of b)); [|done].
    apply setitem_key. by right.
  - left. rewrite Hbucket. apply setitem_key. by left.
  - right. by exists b'.
Qed.

(** ** What the three builders write *)

Lemma omap_all_None {A B} (f : A -> option B) (l : list A) :
  Forall (fun x => f x = None) l -> omap f l = [].
Proof. induction 1 as [|x l Hx _ IH]; simpl; [done|]. by rewrite Hx. Qed.

Lemma artifacts_app t1 t2 : artifacts (t1 ++ t2) = artifacts t1 ++ artifacts t2.
Proof. apply omap_app. Qed.

Lemma artifacts_cons_other e t :
  (forall p, e <> Savefig p) -> artifacts (e :: t) = artifacts t.
Proof. intros He. destruct e; try done. by destruct (He p). Qed.

(** The annotation block of the HOL-Impact chart puts at most one
    annotation and nothing else. *)
Lemma hol_annotate_trace lane_counts p95_values :
  (hol_annotate lane_counts p95_values).1 = [] \/
  exists v xy xytext,
    (hol_annotate lane_counts p95_values).1 = [Annotate v xy xytext].
Proof.
  destruct lane_counts as [|lc0 [|lc1 lane_counts]]; [by left..|].
  destruct p95_values as [|a [|b p95_values]]; [by left..|].
  rewrite hol_annotate_two.
  destruct (hol_improvement a b) as [v|]; [|by left].
  destruct (d ← mul a (PFloat c_0_2); add b d) as [y|]; [|by left].
  right. by eexists _, _, _.
Qed.

Lemma artifacts_hol_annotate lane_counts p95_values :
  artifacts (hol_annotate lane_counts p95_values).1 = [].
Proof.
  by destruct (hol_annotate_trace lane_counts p95_values)
    as [->|(v & xy & xytext & ->)].
Qed.

Section Builders.

Variable py_int : string -> option Z.
Variable benchmarks : list Benchmark.
Variable output_dir : path.

(** A report without records of its experiment is skipped. *)
Lemma plot_hol_impact_skip :
  select "HolImpactBenchmark" benchmarks = [] ->
  plot_hol_impact py_int benchmarks output_dir
  = ([Print (NoResultsFound "HolImpactBenchmark")], Ok tt).
Proof. intros Hsel. unfold plot_hol_impact. by rewrite Hsel. Qed.

Lemma plot_strategy_comparison_skip :
  select "StrategyComparisonBenchmark" benchmarks = [] ->
  plot_strategy_comparison py_int benchmarks output_dir
  = ([Print (NoResultsFound "StrategyComparisonBenchmark")], Ok tt).
Proof. intros Hsel. unfold plot_strategy_comparison. by rewrite Hsel. Qed.

Lemma plot_selection_overhead_skip :
  select "SelectionOverheadBenchmark" benchmarks = [] ->
  plot_selection_overhead benchmarks output_dir
  = ([Print (NoResultsFound "SelectionOverheadBenchmark")], Ok tt).
Proof. intros Hsel. unfold plot_selection_overhead. by rewrite Hsel. Qed.

(** The HOL-Impact builder writes its file exactly when it has records
    and ends without raising. *)
Lemma artifacts_plot_hol_impact :
  artifacts (plot_hol_impact py_int benchmarks output_dir).1
  = match select "HolImpactBenchmark" benchmarks,
          (plot_hol_impact py_int benchmarks output_dir).2 with
    | _ :: _, Ok _ => [Slash output_dir "hol_impact.png"]
    | _, _ => []
    end.
Proof.
  destruct (select "HolImpactBenchmark" benchmarks) as [|b0 data] eqn:Hsel.
  { by rewrite plot_hol_impact_skip. }
  destruct (hol_by_lane py_int (b0 :: data)) as [by_lane|e] eqn:Hgroup.
  - rewrite (plot_hol_impact_grouped py_int _ _ by_lane)
      by (by rewrite Hsel).
    cbv zeta. cbn [fst snd].
    rewrite !artifacts_app, artifacts_hol_annotate.
    by destruct (hol_annotate _ _).2.
  - unfold plot_hol_impact. by rewrite Hsel, Hgroup.
Qed.

Lemma artifacts_plot_strategy_comparison :
  artifacts (plot_strategy_comparison py_int benchmarks output_dir).1
  = match select "StrategyComparisonBenchmark" benchmarks,
          (plot_strategy_comparison py_int benchmarks output_dir).2 with
    | _ :: _, Ok _ => [Slash output_dir "strategy_comparison.png"]
    | _, _ => []
    end.
Proof.
  rewrite plot_strategy_comparison_run.
  destruct (select "StrategyComparisonBenchmark" benchmarks); [done|].
  by destruct (mapM _ _).
Qed.

End Builders.

Lemma artifacts_bar_text_loop values l :
  artifacts (forM_ (overhead_bar_text values) l).1 = [].
Proof.
  apply omap_all_None, Forall_forall. intros e He.
  by apply bar_text_loop_events in He as (h & y & ->).
Qed.

Lemma artifacts_overhead_annotate overheads values :
  artifacts (overhead_annotate overheads values).1 = [].
Proof.
  apply omap_all_None, Forall_forall. intros e He.
  by apply overhead_annotate_events in He as (?&?&?&?& -> & _).
Qed.

(** The Selection-Overhead builder writes its file exactly when it has
    records, at least one of them falls in a bucket, and it ends without
    raising. *)
Lemma artifacts_plot_selection_overhead benchmarks output_dir :
  artifacts (plot_selection_overhead benchmarks output_dir).1
  = match select "SelectionOverheadBenchmark" benchmarks,
          overhead_buckets (select "SelectionOverheadBenchmark" benchmarks),
          (plot_selection_overhead benchmarks output_dir).2 with
    | _ :: _, Ok (_ :: _), Ok _ => [Slash output_dir "selection_overhead.png"]
    | _, _, _ => []
    end.
Proof.
  destruct (select "SelectionOverheadBenchmark" benchmarks) as [|b0 data]
    eqn:Hsel.
  { by rewrite plot_selection_overhead_skip. }
  destruct (overhead_buckets (b0 :: data)) as [[|kv overheads]|e] eqn:Hbuckets.
  - unfold plot_selection_overhead. by rewrite Hsel, Hbuckets.
  - rewrite (plot_selection_overhead_run _ _ (kv :: overheads));
      [|by rewrite Hsel..|done].
    cbv zeta. cbn [fst snd].
    rewrite !artifacts_cons_other by done.
    rewrite artifacts_app, artifacts_bar_text_loop.
    destruct (forM_ _ _).2 as [[]|]; cbn [is_ok]; [|done].
    rewrite artifacts_app, artifacts_overhead_annotate.
    by destruct (overhead_annotate _ _).2.
  - unfold plot_selection_overhead. by rewrite Hsel, Hbuckets.
Qed.

(** ** [main] *)

Section Main.

Variable py_int : string -> option Z.
Variable fs : FileSystem.

Lemma main_usage argv :
  length argv <> 2%nat ->
  main py_int fs argv = ([Print Usage], Raise (SystemExit 1)).
Proof. intros Hlen. unfold main. by rewrite decide_True. Qed.

Lemma main_missing script arg :
  exists_ fs (PathOf arg) = false ->
  main py_int fs [script; arg]
  = ([Print (FileNotFound (PathOf arg))], Raise (SystemExit 1)).
Proof.
  intros Hmissing. unfold main. rewrite decide_False by (simpl; lia).
  cbn [index lookup list_lookup]. rewrite bind_lift_Ok, Hmissing. done.
Qed.

(** Once the file is loaded, the three reports run in turn; each one
    that ends without raising is followed by the next. *)
Lemma main_loaded script arg benchmarks :
  exists_ fs (PathOf arg) = true ->
  json_load fs (PathOf arg) = Ok benchmarks ->
  main py_int fs [script; arg]
  = let output_dir := ParentOf (PathOf arg) in
    let h := plot_hol_impact py_int benchmarks output_dir in
    let s := plot_strategy_comparison py_int benchmarks output_dir in
    let o := plot_selection_overhead benchmarks output_dir in
    (main_header (PathOf arg) (length benchmarks) ++ h.1 ++
       (if is_ok h.2 then
          s.1 ++ (if is_ok s.2 then
                    o.1 ++ (if is_ok o.2 then main_footer output_dir else [])
                  else [])
        else []),
     _ ← h.2; _ ← s.2; o.2).
Proof.
  intros Hexists Hload. unfold main. rewrite decide_False by (simpl; lia).
  cbn [index lookup list_lookup]. rewrite bind_lift_Ok, Hexists.
  cbn [negb]. cbv zeta. unfold print, load_results.
  rewrite bind_emit. cbn [fst snd].
  rewrite (bind_trace (emit _ ≫= _)), bind_emit, Hload. cbn [fst snd lift].
  rewrite !bind_emit. cbn [fst snd].
  rewrite (bind_trace (plot_hol_impact _ _ _)).
  destruct (plot_hol_impact _ _ _) as [th [[]|e]]; cbn [fst snd is_ok];
    [|by rewrite app_nil_r].
  rewrite (bind_trace (plot_strategy_comparison _ _ _)).
  destruct (plot_strategy_comparison _ _ _) as [ts [[]|e]];
    cbn [fst snd is_ok mbind result_bind]; [|by rewrite app_nil_r].
  rewrite (bind_trace (plot_selection_overhead _ _)).
  destruct (plot_selection_overhead _ _) as [to [[]|e]];
    cbn [fst snd is_ok mbind result_bind]; [|by rewrite app_nil_r].
  reflexivity.
Qed.

End Main.

(** C8, as the script has it: with an argument count other than one, and
    with a missing input file, the process prints one message, exits with
    code 1, writes no file and opens none; on a loaded input the exit code
    is 0 whenever none of the three builders raises, and in particular when
    all three reports are skipped and no file is written. *)
Theorem main_exit_code (py_int : string -> option Z) (fs : FileSystem)
    (argv : list string) :
  let run := main py_int fs argv in
  (length argv <> 2%nat ->
   exit_code run.2 = 1 /\ artifacts run.1 = [] /\
   forall p, OpenFile p ∉ run.1) /\
  (forall script arg,
     argv = [script; arg] -> exists_ fs (PathOf arg) = false ->
     exit_code run.2 = 1 /\ artifacts run.1 = [] /\
     forall p, OpenFile p ∉ run.1) /\
  (forall script arg benchmarks,
     argv = [script; arg] -> exists_ fs (PathOf arg) = true ->
     json_load fs (PathOf arg) = Ok benchmarks ->
     let output_dir := ParentOf (PathOf arg) in
     (is_ok (plot_hol_impact py_int benchmarks output_dir).2 = true ->
      is_ok (plot_strategy_comparison py_int benchmarks output_dir).2 = true ->
      is_ok (plot_selection_overhead benchmarks output_dir).2 = true ->
      exit_code run.2 = 0) /\
     (select "HolImpactBenchmark" benchmarks = [] ->
      select "StrategyComparisonBenchmark" benchmarks = [] ->
      select "SelectionOverheadBenchmark" benchmarks = [] ->
      exit_code run.2 = 0 /\ artifacts run.1 = [])).
Proof.
  intros run. subst run. split; [|split].
  - intros Hlen. rewrite main_usage by done. repeat split.
    intros p Hp. apply list_elem_of_singleton in Hp. discriminate Hp.
  - intros script arg -> Hmissing. rewrite main_missing by done. repeat split.
    intros p Hp. apply list_elem_of_singleton in Hp. discriminate Hp.
  - intros script arg benchmarks -> Hexists Hload output_dir.
    rewrite (main_loaded _ _ _ _ benchmarks) by done. cbv zeta. split.
    + fold output_dir.
      destruct (plot_hol_impact _ _ _).2 as [[]|]; [|done].
      destruct (plot_strategy_comparison _ _ _).2 as [[]|]; [|done].
      by destruct (plot_selection_overhead _ _).2 as [[]|].
    + intros Hh Hs Ho.
      by rewrite plot_hol_impact_skip, plot_strategy_comparison_skip,
        plot_selection_overhead_skip.
Qed.

Lemma main_exit_code_witness :
  exit_code (main int_decimal (loaded_fs []) argv_example).2 = 0 /\
  artifacts (main int_decimal (loaded_fs []) argv_example).1 = [].
Proof.
  destruct (main_exit_code int_decimal (loaded_fs []) argv_example)
    as (_ & _ & Hloaded).
  by destruct (Hloaded "visualize.py" "results.json" [] eq_refl eq_refl eq_refl)
    as [_ Hskip]; apply Hskip.
Defined.

(** C8 as stated fails on a loaded input: a HOL-Impact record without its
    "laneCount" parameter is loaded, its builder raises [KeyError], and the
    process exits with code 1. *)
Lemma loaded_input_exit_code_1 :
  exists_ (loaded_fs [hol_no_lane_count]) (PathOf "results.json") = true /\
  json_load (loaded_fs [hol_no_lane_count]) (PathOf "results.json")
  = Ok [hol_no_lane_count] /\
  (main int_decimal (loaded_fs [hol_no_lane_count]) argv_example).2
  = Raise (KeyError (KStr "laneCount")) /\
  exit_code (main int_decimal (loaded_fs [hol_no_lane_count]) argv_example).2
  = 1.
Proof. vm_compute. done. Qed.

Lemma artifacts_main_header p n : artifacts (main_header p n) = [].
Proof. reflexivity. Qed.

Lemma artifacts_main_footer dir : artifacts (main_footer dir) = [].
Proof. reflexivity. Qed.

Lemma artifacts_print m : artifacts [Print m] = [].
Proof. reflexivity. Qed.

Lemma artifacts_main_loaded py_int fs script arg benchmarks :
  exists_ fs (PathOf arg) = true ->
  json_load fs (PathOf arg) = Ok benchmarks ->
  let output_dir := ParentOf (PathOf arg) in
  let h := plot_hol_impact py_int benchmarks output_dir in
  let s := plot_strategy_comparison py_int benchmarks output_dir in
  let o := plot_selection_overhead benchmarks output_dir in
  artifacts (main py_int fs [script; arg]).1
  = artifacts h.1 ++
    (if is_ok h.2 then
       artifacts s.1 ++ (if is_ok s.2 then artifacts o.1 else [])
     else []).
Proof.
  intros Hexists Hload. rewrite (main_loaded _ _ _ _ benchmarks) by done.
  cbv zeta. cbn [fst]. rewrite !artifacts_app, artifacts_main_header.
  cbn [app]. f_equal.
  destruct (is_ok (plot_hol_impact _ _ _).2); [|done].
  rewrite artifacts_app. f_equal.
  destruct (is_ok (plot_strategy_comparison _ _ _).2); [|done].
  rewrite artifacts_app.
  destruct (is_ok (plot_selection_overhead _ _).2);
    by rewrite ?artifacts_main_footer, app_nil_r.
Qed.

(** C7, as the script has it: a report whose filter yields no record
    prints its notice, writes no file and does not raise, and [main] goes on
    with the next report after every report that ends without raising; on an
    input with records of one experiment only the other two reports are
    skipped and at most one file is written, the file of that experiment's
    report, which is written when its builder ends without raising and, for
    Selection-Overhead, some method name falls in a bucket. *)
Theorem soft_skip_independent (py_int : string -> option Z) (fs : FileSystem)
    (script arg : string) (benchmarks : list Benchmark) :
  exists_ fs (PathOf arg) = true ->
  json_load fs (PathOf arg) = Ok benchmarks ->
  let output_dir := ParentOf (PathOf arg) in
  let h := plot_hol_impact py_int benchmarks output_dir in
  let s := plot_strategy_comparison py_int benchmarks output_dir in
  let o := plot_selection_overhead benchmarks output_dir in
  let run := main py_int fs [script; arg] in
  (select "HolImpactBenchmark" benchmarks = [] ->
   h = ([Print (NoResultsFound "HolImpactBenchmark")], Ok tt)) /\
  (select "StrategyComparisonBenchmark" benchmarks = [] ->
   s = ([Print (NoResultsFound "StrategyComparisonBenchmark")], Ok tt)) /\
  (select "SelectionOverheadBenchmark" benchmarks = [] ->
   o = ([Print (NoResultsFound "SelectionOverheadBenchmark")], Ok tt)) /\
  run.1 = main_header (PathOf arg) (length benchmarks) ++ h.1 ++
          (if is_ok h.2 then
             s.1 ++ (if is_ok s.2 then
                       o.1 ++ (if is_ok o.2 then main_footer output_dir
                               else [])
                     else [])
           else []) /\
  (select "StrategyComparisonBenchmark" benchmarks = [] ->
   select "SelectionOverheadBenchmark" benchmarks = [] ->
   run.2 = h.2 /\ artifacts run.1 = artifacts h.1 /\
   (length (artifacts run.1) <= 1)%nat /\
   (select "HolImpactBenchmark" benchmarks <> [] -> h.2 = Ok tt ->
    artifacts run.1 = [Slash output_dir "hol_impact.png"])) /\
  (select "HolImpactBenchmark" benchmarks = [] ->
   select "SelectionOverheadBenchmark" benchmarks = [] ->
   run.2 = s.2 /\ artifacts run.1 = artifacts s.1 /\
   (length (artifacts run.1) <= 1)%nat /\
   (select "StrategyComparisonBenchmark" benchmarks <> [] -> s.2 = Ok tt ->
    artifacts run.1 = [Slash output_dir "strategy_comparison.png"])) /\
  (select "HolImpactBenchmark" benchmarks = [] ->
   select "StrategyComparisonBenchmark" benchmarks = [] ->
   run.2 = o.2 /\ artifacts run.1 = artifacts o.1 /\
   (length (artifacts run.1) <= 1)%nat /\
   (o.2 = Ok tt ->
    (exists b, b ∈ select "SelectionOverheadBenchmark" benchmarks /\
               is_Some (bucket_of (method_of b))) ->
    artifacts run.1 = [Slash output_dir "selection_overhead.png"])).
Proof.
  intros Hexists Hload output_dir h s o run.
  pose proof (main_loaded py_int fs script arg benchmarks Hexists Hload)
    as Hrun.
  pose proof (artifacts_main_loaded py_int fs script arg benchmarks
                Hexists Hload) as Hart.
  cbv zeta in Hrun, Hart. fold output_dir in Hrun, Hart.
  fold h s o in Hrun, Hart. fold run in Hrun, Hart.
  split; [apply plot_hol_impact_skip|].
  split; [apply plot_strategy_comparison_skip|].
  split; [apply plot_selection_overhead_skip|].
  split; [by rewrite Hrun|].
  split; [|split].
  - intros Hs Ho.
    assert (s = ([Print (NoResultsFound "StrategyComparisonBenchmark")], Ok tt))
      as Hs' by by apply plot_strategy_comparison_skip.
    assert (o = ([Print (NoResultsFound "SelectionOverheadBenchmark")], Ok tt))
      as Ho' by by apply plot_selection_overhead_skip.
    rewrite Hart, Hs', Ho', Hrun, Hs', Ho'. cbn [fst snd is_ok].
    rewrite !artifacts_print. cbn [app mbind result_bind].
    assert (artifacts h.1 ++ (if is_ok h.2 then [] else []) = artifacts h.1)
      as -> by (destruct (is_ok h.2); apply app_nil_r).
    split; [by destruct h.2 as [[]|]|]. split; [done|].
    subst h. rewrite artifacts_plot_hol_impact.
    destruct (select "HolImpactBenchmark" benchmarks); [by split; [simpl; lia|]|].
    destruct (plot_hol_impact _ _ _).2; (split; [simpl; lia|done]).
  - intros Hh Ho.
    assert (h = ([Print (NoResultsFound "HolImpactBenchmark")], Ok tt))
      as Hh' by by apply plot_hol_impact_skip.
    assert (o = ([Print (NoResultsFound "SelectionOverheadBenchmark")], Ok tt))
      as Ho' by by apply plot_selection_overhead_skip.
    rewrite Hart, Hh', Ho', Hrun, Hh', Ho'. cbn [fst snd is_ok].
    rewrite !artifacts_print. cbn [app mbind result_bind].
    assert (artifacts s.1 ++ (if is_ok s.2 then [] else []) = artifacts s.1)
      as -> by (destruct (is_ok s.2); apply app_nil_r).
    split; [by destruct s.2 as [[]|]|]. split; [done|].
    subst s. rewrite artifacts_plot_strategy_comparison.
    destruct (select "StrategyComparisonBenchmark" benchmarks);
      [by split; [simpl; lia|]|].
    destruct (plot_strategy_comparison _ _ _).2; (split; [simpl; lia|done]).
  - intros Hh Hs.
    assert (h = ([Print (NoResultsFound "HolImpactBenchmark")], Ok tt))
      as Hh' by by apply plot_hol_impact_skip.
    assert (s = ([Print (NoResultsFound "StrategyComparisonBenchmark")], Ok tt))
      as Hs' by by apply plot_strategy_comparison_skip.
    rewrite Hart, Hh', Hs', Hrun, Hh', Hs'. cbn [fst snd is_ok].
    rewrite !artifacts_print. cbn [app mbind result_bind].
    split; [done|]. split; [done|].
    subst o. rewrite artifacts_plot_selection_overhead.
    destruct (select "SelectionOverheadBenchmark" benchmarks) as [|b0 data]
      eqn:Hsel.
    { split; [simpl; lia|]. by intros _ (b & ?%elem_of_nil & _). }
    destruct (overhead_buckets (b0 :: data)) as [overheads|e] eqn:Hbuckets.
    + destruct overheads as [|kv overheads].
      * split; [simpl; lia|]. intros _ (b & Hb & [label Hlabel]).
        assert (label ∈ (@nil (string * num)).*1) as Hin
          by (eapply overhead_fold_keys; [exact Hbuckets|right; eauto]).
        by apply elem_of_nil in Hin.
      * destruct (plot_selection_overhead _ _).2; (split; [simpl; lia|done]).
    + split; [simpl; lia|].
      unfold plot_selection_overhead. by rewrite Hsel, Hbuckets.
Qed.

Lemma soft_skip_independent_witness :
  artifacts (main int_decimal (loaded_fs hol_example) argv_example).1
  = [Slash reports_dir "hol_impact.png"].
Proof.
  destruct (soft_skip_independent int_decimal (loaded_fs hol_example)
              "visualize.py" "results.json" hol_example eq_refl eq_refl)
    as (_ & _ & _ & _ & Hhol & _).
  destruct Hhol as (_ & _ & _ & Hone); [reflexivity..|].
  apply Hone; [discriminate|vm_compute; reflexivity].
Defined.

(** C7 as stated fails on an input with records of one experiment only:
    a single Selection-Overhead record whose method name is in no bucket is
    selected by its report alone, the run ends normally, and no file is
    written. *)
Lemma one_marker_no_artifact :
  select "HolImpactBenchmark" [overhead_unclassified] = [] /\
  select "StrategyComparisonBenchmark" [overhead_unclassified] = [] /\
  select "SelectionOverheadBenchmark" [overhead_unclassified]
  = [overhead_unclassified] /\
  (main int_decimal (loaded_fs [overhead_unclassified]) argv_example).2
  = Ok tt /\
  artifacts (main int_decimal (loaded_fs [overhead_unclassified])
               argv_example).1 = [].
Proof. vm_compute. done. Qed.

(** ** The annotations of the three charts *)

Lemma hol_annotate_Ok lane_counts p95_values :
  (hol_annotate lane_counts p95_values).2 = Ok tt ->
  (2 <= length lane_counts)%nat ->
  length p95_values = length lane_counts ->
  exists v xy xytext,
    (hol_annotate lane_counts p95_values).1 = [Annotate v xy xytext].
Proof.
  destruct lane_counts as [|lc0 [|lc1 lane_counts]]; simpl; [lia..|].
  destruct p95_values as [|a [|b p95_values]]; simpl; [lia..|].
  rewrite hol_annotate_two. intros Hok _ _. revert Hok.
  destruct (hol_improvement a b) as [v|]; [|done].
  destruct (d ← mul a (PFloat c_0_2); add b d) as [y|]; [|done].
  intros _. by eexists _, _, _.
Qed.

Lemma overhead_annotate_none overheads values :
  ~ ((2 <= length values)%nat /\
     gt (get_item overheads "Baseline" (PInt 0)) (PInt 0) = true) ->
  (overhead_annotate overheads values).1 = [].
Proof.
  intros Hnot.
  destruct (overhead_annotate overheads values).1 as [|e t] eqn:Ht; [done|].
  assert (e ∈ (overhead_annotate overheads values).1) as He
    by (rewrite Ht; apply list_elem_of_here).
  apply overhead_annotate_events in He as (?&?&?&?&_&?&?&_). by destruct Hnot.
Qed.

Lemma bar_texts_overhead_annotate overheads values :
  bar_texts (overhead_annotate overheads values).1 = [].
Proof.
  apply omap_all_None, Forall_forall. intros e He.
  by apply overhead_annotate_events in He as (?&?&?&?& -> & _).
Qed.

Lemma overhead_texts_bar_text_loop values l :
  overhead_texts (forM_ (overhead_bar_text values) l).1 = [].
Proof.
  apply omap_all_None, Forall_forall. intros e He.
  by apply bar_text_loop_events in He as (h & y & ->).
Qed.

(** C9, as the script has it: the HOL-Impact builder, when it writes its
    chart, puts the improvement annotation on it if the chart has two or
    more lane counts, and no annotation otherwise; the Strategy-Comparison
    builder never puts an annotation; the Selection-Overhead builder, when
    it writes its chart, puts a value label above every bar, and the
    overhead annotation exactly when there are two or more buckets and a
    Baseline value greater than zero. *)
Theorem builders_annotations (py_int : string -> option Z)
    (benchmarks : list Benchmark) (output_dir : path) :
  let h := plot_hol_impact py_int benchmarks output_dir in
  let s := plot_strategy_comparison py_int benchmarks output_dir in
  let o := plot_selection_overhead benchmarks output_dir in
  (artifacts h.1 <> [] ->
   exists by_lane,
     hol_by_lane py_int (select "HolImpactBenchmark" benchmarks) = Ok by_lane /\
     ((2 <= size by_lane)%nat -> exists v, annotations h.1 = [v]) /\
     ((size by_lane < 2)%nat -> List.filter is_annotation h.1 = [])) /\
  List.filter is_annotation s.1 = [] /\
  (artifacts o.1 <> [] ->
   exists overheads,
     overhead_buckets (select "SelectionOverheadBenchmark" benchmarks)
     = Ok overheads /\
     overheads <> [] /\
     bar_texts o.1 = overheads.*2 /\
     ((2 <= length overheads)%nat ->
      gt (get_item overheads "Baseline" (PInt 0)) (PInt 0) = true ->
      exists overhead overhead_pct,
        overhead_texts o.1 = [(overhead, overhead_pct)]) /\
     (~ ((2 <= length overheads)%nat /\
         gt (get_item overheads "Baseline" (PInt 0)) (PInt 0) = true) ->
      overhead_texts o.1 = [])).
Proof.
  intros h s o. split; [|split].
  - subst h. rewrite artifacts_plot_hol_impact.
    destruct (select "HolImpactBenchmark" benchmarks) as [|b0 data] eqn:Hsel;
      [done|].
    destruct (hol_by_lane py_int (b0 :: data)) as [by_lane|e] eqn:Hgroup.
    2: { unfold plot_hol_impact. by rewrite Hsel, Hgroup. }
    rewrite (plot_hol_impact_grouped py_int _ _ by_lane) by (by rewrite Hsel).
    cbv zeta. cbn [fst snd].
    destruct (hol_annotate _ _).2 as [[]|] eqn:Hok; [|done]. intros _.
    exists by_lane. split; [done|]. cbn [is_ok]. split.
    + intros Hsize.
      destruct (hol_annotate_Ok _ _ Hok) as (v & xy & xytext & ->).
      * by rewrite sorted_keys_length.
      * by rewrite length_fmap.
      * by exists v.
    + intros Hsize. rewrite hol_annotate_short; [done|].
      by rewrite sorted_keys_length.
  - subst s. rewrite plot_strategy_comparison_run.
    destruct (select "StrategyComparisonBenchmark" benchmarks); [done|].
    by destruct (mapM _ _).
  - subst o. rewrite artifacts_plot_selection_overhead.
    destruct (select "SelectionOverheadBenchmark" benchmarks) as [|b0 data]
      eqn:Hsel; [done|].
    destruct (overhead_buckets (b0 :: data)) as [[|kv overheads]|e]
      eqn:Hbuckets; [done| |done].
    rewrite (plot_selection_overhead_run _ _ (kv :: overheads));
      [|by rewrite Hsel..|done].
    cbv zeta. cbn [fst snd].
    destruct (forM_ _ _).2 as [[]|] eqn:Htexts; [|done].
    destruct (overhead_annotate _ _).2 as [[]|] eqn:Hok; [|done]. intros _.
    exists (kv :: overheads). split; [done|]. split; [done|].
    cbn [is_ok]. unfold bar_texts, overhead_texts.
    cbn [omap list_omap]. rewrite !omap_app.
    fold (bar_texts (forM_ (overhead_bar_text (kv :: overheads).*2)
                       (kv :: overheads).*2).1).
    fold (bar_texts (overhead_annotate (kv :: overheads)
                       (kv :: overheads).*2).1).
    fold (overhead_texts (forM_ (overhead_bar_text (kv :: overheads).*2)
                            (kv :: overheads).*2).1).
    rewrite bar_text_loop_Ok, bar_texts_overhead_annotate,
      overhead_texts_bar_text_loop by done.
    split; [by rewrite !app_nil_r|]. cbn [app]. split.
    + intros Hlen Hgt.
      destruct (overhead_annotate_Ok _ _ Hok) as (ov & pct & y & ->);
        [by rewrite length_fmap|done|].
      by exists ov, pct.
    + intros Hnot. rewrite overhead_annotate_none; [done|].
      by rewrite length_fmap.
Qed.

Lemma builders_annotations_witness :
  exists v,
    annotations (plot_hol_impact int_decimal hol_example reports_dir).1 = [v].
Proof.
  destruct (builders_annotations int_decimal hol_example reports_dir)
    as (Hhol & _ & _).
  destruct Hhol as (by_lane & Hgroup & Htwo & _).
  { vm_compute. discriminate. }
  apply Htwo. vm_compute in Hgroup. injection Hgroup as <-.
  vm_compute. lia.
Defined.

(** C9 as stated fails for the Strategy-Comparison builder: on two records
    it writes its chart, and the chart carries no annotation of any kind. *)
Lemma strategy_chart_without_annotation :
  artifacts (plot_strategy_comparison int_decimal strategy_example
               reports_dir).1
  = [Slash reports_dir "strategy_comparison.png"] /\
  List.filter is_annotation
    (plot_strategy_comparison int_decimal strategy_example reports_dir).1 = [].
Proof. vm_compute. done. Qed.

(** * Further properties of the script *)

(** ** The series of the HOL-Impact chart *)

Lemma StronglySorted_le_lt (l : list Z) :
  StronglySorted Z.le l -> NoDup l -> StronglySorted Z.lt l.
Proof.
  induction 1 as [|x l Hl IH Hx]; intros Hnodup; constructor.
  - apply IH. by apply NoDup_cons in Hnodup as [_ ?].
  - apply NoDup_cons in Hnodup as [Hnotin _].
    apply Forall_forall. intros y Hy.
    pose proof (proj1 (Forall_forall _ _) Hx y Hy) as Hle.
    assert (x <> y) by (intros ->; done). lia.
Qed.

Lemma sorted_keys_increasing {A} (d : gmap Z A) :
  StronglySorted Z.lt (sorted_keys d).
Proof.
  apply StronglySorted_le_lt; [|apply sorted_keys_NoDup].
  apply Sorted_StronglySorted; [|apply sorted_keys_Sorted].
  intros x y z. apply Z.le_trans.
Qed.

Section HolSeries.

Variable py_int : string -> option Z.

(** A grouping loop that ends has read every record. *)
Lemma hol_fold_readable l by_lane m :
  foldM (hol_step py_int) l by_lane = Ok m ->
  Forall (hol_readable py_int) l.
Proof.
  revert by_lane. induction l as [|b l IH]; intros m0; simpl; [done|].
  intros (m1 & Hstep & Hrest)%result_bind_Ok_inv.
  apply hol_step_Ok in Hstep as (lc & ps & Hentry & ->).
  constructor; [by eexists|by eapply IH].
Qed.

(** And a loop over records it can read ends. *)
Lemma hol_fold_Ok l by_lane :
  Forall (hol_readable py_int) l ->
  exists m, foldM (hol_step py_int) l by_lane = Ok m.
Proof.
  intros Hl. revert by_lane.
  induction Hl as [|b l [[lc ps] Hb] _ IH]; intros m0; simpl; [by eexists|].
  rewrite (hol_step_entry py_int m0 b lc ps Hb). simpl. apply IH.
Qed.

Lemma last_seen_is_Some lc l dflt :
  is_Some (last_seen py_int lc l dflt) <->
  is_Some dflt \/ exists b ps, b ∈ l /\ hol_entry py_int b = Some (lc, ps).
Proof.
  revert dflt. induction l as [|b l IH]; intros dflt; simpl.
  { split; [by left|]. by intros [?|(b & ps & ?%elem_of_nil & _)]. }
  rewrite IH. split.
  - intros [Hd|(b' & ps & Hb' & Hentry)].
    + destruct (hol_entry py_int b) as [[lc' ps]|] eqn:Hentry; [|by left].
      destruct (decide (lc' = lc)) as [->|]; [|by left].
      right. exists b, ps. split; [apply list_elem_of_here|done].
    + right. exists b', ps. split; [by apply list_elem_of_further|done].
  - intros [Hd|(b' & ps & [->|Hb']%elem_of_cons & Hentry)].
    + left. destruct (hol_entry py_int b) as [[lc' ps]|]; [|done].
      by destruct (decide (lc' = lc)).
    + left. rewrite Hentry. by rewrite decide_True.
    + right. by exists b', ps.
Qed.

Lemma hol_readable_lane b lc :
  hol_readable py_int b -> lane_of py_int b = Some lc ->
  exists ps, hol_entry py_int b = Some (lc, ps).
Proof.
  intros [[lc' ps] Hentry] Hlane.
  pose proof (hol_entry_lane py_int b lc' ps Hentry) as Hlane'.
  exists ps. congruence.
Qed.

End HolSeries.

(** The calls of a run of the HOL-Impact builder, by kind. *)
Lemma plot_hol_impact_events py_int benchmarks output_dir e :
  e ∈ (plot_hol_impact py_int benchmarks output_dir).1 ->
  e = Print (NoResultsFound "HolImpactBenchmark") \/
  exists by_lane,
    hol_by_lane py_int (select "HolImpactBenchmark" benchmarks) = Ok by_lane /\
    (e ∈ hol_chart by_lane \/
     e ∈ (hol_annotate (sorted_keys by_lane)
            (at_lane by_lane p95 <$> sorted_keys by_lane)).1 \/
     e ∈ finish (Slash output_dir "hol_impact.png")).
Proof.
  destruct (select "HolImpactBenchmark" benchmarks) as [|b0 data] eqn:Hsel.
  { rewrite plot_hol_impact_skip by done.
    intros ->%list_elem_of_singleton. by left. }
  destruct (hol_by_lane py_int (b0 :: data)) as [by_lane|err] eqn:Hgroup.
  - rewrite (plot_hol_impact_grouped py_int _ _ by_lane)
      by (by rewrite Hsel).
    cbv zeta. cbn [fst]. intros [He|[He|He]%elem_of_app]%elem_of_app;
      right; exists by_lane; split; try done; [by left|by right; left|].
    destruct (is_ok _); [by right; right|by apply elem_of_nil in He].
  - unfold plot_hol_impact. rewrite Hsel, Hgroup. by intros ?%elem_of_nil.
Qed.

(** X1: every line of the HOL-Impact chart is drawn over the lane counts
    of the HOL-Impact records, each once and in increasing order, and shows
    at each lane count the percentile of its series in the last record
    with that lane count. *)
Theorem hol_series_sorted_last_seen (py_int : string -> option Z)
    (benchmarks : list Benchmark) (output_dir : path)
    (xs : list Z) (ys : list num) (label : string) :
  Plot xs ys label ∈ (plot_hol_impact py_int benchmarks output_dir).1 ->
  let hol_data := select "HolImpactBenchmark" benchmarks in
  StronglySorted Z.lt xs /\
  (forall lc, lc ∈ xs <->
     exists b, b ∈ hol_data /\ lane_of py_int b = Some lc) /\
  exists p,
    (label, p) ∈ hol_series /\
    Forall2 (fun lc y => p <$> last_seen py_int lc hol_data None = Some y)
      xs ys.
Proof.
  intros Hin hol_data.
  destruct (plot_hol_impact_events _ _ _ _ Hin)
    as [[=]|(by_lane & Hgroup & Hcases)].
  assert (Plot xs ys label ∈ hol_chart by_lane) as Hchart.
  { destruct Hcases as [?|[He|He]]; [done|..].
    - by destruct (hol_annotate_trace (sorted_keys by_lane)
                     (at_lane by_lane p95 <$> sorted_keys by_lane))
        as [Heq|(v & xy & xytext & Heq)]; rewrite Heq in He;
        [apply elem_of_nil in He|apply list_elem_of_singleton in He].
    - unfold finish in He.
      repeat (apply elem_of_cons in He as [[=]|He]). by apply elem_of_nil in He. }
  clear Hin Hcases. fold hol_data in Hgroup.
  pose proof (hol_fold_readable py_int _ _ _ Hgroup) as Hreadable.
  assert (forall lc, by_lane !! lc = last_seen py_int lc hol_data None) as Hlast.
  { intros lc. by rewrite (hol_fold_lookup py_int _ _ _ lc Hgroup). }
  assert (exists p, (label, p) ∈ hol_series /\
                    xs = sorted_keys by_lane /\
                    ys = at_lane by_lane p <$> sorted_keys by_lane)
    as (p & Hp & -> & ->).
  { unfold hol_chart in Hchart.
    apply elem_of_cons in Hchart as [[=]|Hchart].
    apply elem_of_cons in Hchart as [[= -> -> ->]|Hchart].
    { exists p50. split; [apply list_elem_of_here|done]. }
    apply elem_of_cons in Hchart as [[= -> -> ->]|Hchart].
    { exists p95. split; [apply list_elem_of_further, list_elem_of_here|done]. }
    apply elem_of_cons in Hchart as [[= -> -> ->]|Hchart].
    { exists p99. split; [|done].
      do 2 apply list_elem_of_further. apply list_elem_of_here. }
    apply elem_of_cons in Hchart as [[=]|Hchart]. by apply elem_of_nil in Hchart. }
  split; [apply sorted_keys_increasing|]. split.
  - intros lc. rewrite elem_of_sorted_keys, Hlast, last_seen_is_Some. split.
    + intros [[? [=]]|(b & ps & Hb & Hentry)].
      exists b. split; [done|]. by eapply hol_entry_lane.
    + intros (b & Hb & Hlane). right.
      destruct (hol_readable_lane py_int b lc) as [ps Hentry]; [|done|by eauto].
      by apply (proj1 (Forall_forall _ _) Hreadable).
  - exists p. split; [done|].
    apply Forall2_fmap_r, Forall_Forall2_diag, Forall_forall.
    intros lc [ps Hps]%elem_of_sorted_keys.
    unfold compose, at_lane. by rewrite <-Hlast, Hps.
Qed.

Lemma hol_series_sorted_last_seen_witness :
  StronglySorted Z.lt [1; 4] /\
  (forall lc, lc ∈ [1; 4] <->
     exists b, b ∈ select "HolImpactBenchmark" hol_example /\
               lane_of int_decimal b = Some lc) /\
  exists p,
    ("p95", p) ∈ hol_series /\
    Forall2 (fun lc y =>
               p <$> last_seen int_decimal lc
                       (select "HolImpactBenchmark" hol_example) None = Some y)
      [1; 4] [PInt 100; PInt 10].
Proof.
  apply (hol_series_sorted_last_seen int_decimal hol_example reports_dir).
  vm_compute. repeat constructor.
Defined.

(** X2: the HOL-Impact builder reads every record before it draws.  At
    the first record that it cannot read it raises, having made no call:
    [KeyError] for an absent "laneCount", [ValueError] for a lane count that
    [int] refuses, [KeyError] for an absent "scorePercentiles". *)
Theorem hol_first_unreadable_record (py_int : string -> option Z)
    (benchmarks : list Benchmark) (output_dir : path)
    (l1 l2 : list Benchmark) (b : Benchmark) :
  select "HolImpactBenchmark" benchmarks = l1 ++ b :: l2 ->
  Forall (hol_readable py_int) l1 ->
  let run := plot_hol_impact py_int benchmarks output_dir in
  (params b !! "laneCount" = None ->
   run = ([], Raise (KeyError (KStr "laneCount")))) /\
  (forall s, params b !! "laneCount" = Some s -> py_int s = None ->
   run = ([], Raise ValueError)) /\
  (is_Some (lane_of py_int b) ->
   scorePercentiles (primaryMetric b) = None ->
   run = ([], Raise (KeyError (KStr "scorePercentiles")))).
Proof.
  intros Hsel Hl1 run.
  assert (forall e, (forall m, hol_step py_int m b = Raise e) ->
                    run = ([], Raise e)) as Hraise.
  { intros e Hstep. subst run. unfold plot_hol_impact, hol_by_lane.
    rewrite Hsel, foldM_app.
    destruct (hol_fold_Ok py_int l1 ∅ Hl1) as [m ->].
    cbn [mbind result_bind foldM]. rewrite Hstep. by destruct l1. }
  split; [|split].
  - intros Hlane. apply Hraise. intros m.
    unfold hol_step, subscript. by rewrite Hlane.
  - intros s Hlane Hint. apply Hraise. intros m.
    unfold hol_step, subscript, int. rewrite Hlane. simpl. by rewrite Hint.
  - intros [lc Hlane] Hsp. apply Hraise. intros m.
    unfold lane_of in Hlane. unfold hol_step, subscript, int.
    destruct (params b !! "laneCount") as [s|]; [|done]. simpl in Hlane |- *.
    rewrite Hlane. simpl. unfold extract_percentiles. by rewrite Hsp.
Qed.

Lemma hol_first_unreadable_record_witness :
  plot_hol_impact int_decimal [hol_no_lane_count] reports_dir
  = ([], Raise (KeyError (KStr "laneCount"))).
Proof.
  by apply (hol_first_unreadable_record int_decimal [hol_no_lane_count]
              reports_dir [] [] hol_no_lane_count eq_refl (Forall_nil_2 _)).
Defined.

(** X3: the annotation of the HOL-Impact chart points at the second point
    of the p95 line; its text is placed one lane count to the right of it
    and above it by 0.2 times the first p95. *)
Theorem hol_annotation_place (py_int : string -> option Z)
    (benchmarks : list Benchmark) (output_dir : path)
    (v : num) (xy xytext : Z * num) :
  Annotate v xy xytext ∈ (plot_hol_impact py_int benchmarks output_dir).1 ->
  exists by_lane lc0 lc1 rest ps0 ps1,
    hol_by_lane py_int (select "HolImpactBenchmark" benchmarks) = Ok by_lane /\
    sorted_keys by_lane = lc0 :: lc1 :: rest /\
    by_lane !! lc0 = Some ps0 /\ by_lane !! lc1 = Some ps1 /\
    xy = (lc1, p95 ps1) /\
    xytext.1 = lc1 + 1 /\
    (d ← mul (p95 ps0) (PFloat c_0_2); add (p95 ps1) d) = Ok xytext.2.
Proof.
  intros Hin.
  destruct (plot_hol_impact_events _ _ _ _ Hin)
    as [[=]|(by_lane & Hgroup & [He|[He|He]])].
  - unfold hol_chart in He.
    repeat (apply elem_of_cons in He as [[=]|He]). by apply elem_of_nil in He.
  - exists by_lane.
    destruct (sorted_keys by_lane) as [|lc0 [|lc1 rest]] eqn:Hkeys;
      [by apply elem_of_nil in He..|].
    assert (is_Some (by_lane !! lc0)) as [ps0 H0].
    { apply elem_of_sorted_keys. rewrite Hkeys. apply list_elem_of_here. }
    assert (is_Some (by_lane !! lc1)) as [ps1 H1].
    { apply elem_of_sorted_keys. rewrite Hkeys.
      apply list_elem_of_further, list_elem_of_here. }
    exists lc0, lc1, rest, ps0, ps1. revert He.
    cbn [fmap list_fmap]. unfold at_lane at 1 2. rewrite H0, H1.
    rewrite hol_annotate_two.
    destruct (hol_improvement _ _) as [w|]; [|by intros ?%elem_of_nil].
    destruct (d ← mul (p95 ps0) (PFloat c_0_2); add (p95 ps1) d) as [y|];
      [|by intros ?%elem_of_nil].
    by intros [= -> -> ->]%list_elem_of_singleton.
  - unfold finish in He.
    repeat (apply elem_of_cons in He as [[=]|He]). by apply elem_of_nil in He.
Qed.

Lemma hol_annotation_place_witness :
  exists by_lane lc0 lc1 rest ps0 ps1,
    hol_by_lane int_decimal (select "HolImpactBenchmark" hol_example)
    = Ok by_lane /\
    sorted_keys by_lane = lc0 :: lc1 :: rest /\
    by_lane !! lc0 = Some ps0 /\ by_lane !! lc1 = Some ps1 /\
    (4, PInt 10) = (lc1, p95 ps1) /\
    (5, PFloat 30).1 = lc1 + 1 /\
    (d ← mul (p95 ps0) (PFloat c_0_2); add (p95 ps1) d) = Ok (5, PFloat 30).2.
Proof.
  apply (hol_annotation_place int_decimal hol_example reports_dir (PFloat 90)).
  vm_compute. repeat constructor.
Defined.

(** *** Percentiles that are floats *)





(** ** The bars of the Strategy-Comparison chart *)

(** X5: every bar series of the Strategy-Comparison chart belongs to one
    of the three strategies, in their fixed order, and has one bar for each
    lane count of the report's records, the lane counts taken once each in
    increasing order; the bar at a lane count shows the p95 of the last
    record with that lane count and that strategy, and 0 when there is
    none. *)
Theorem strategy_bars_last_seen (py_int : string -> option Z)
    (benchmarks : list Benchmark) (output_dir : path)
    (i : nat) (label : string) (heights : list num) :
  let run := plot_strategy_comparison py_int benchmarks output_dir in
  let strategy_data := select "StrategyComparisonBenchmark" benchmarks in
  BarSeries i label heights ∈ run.1 ->
  exists strategy lane_counts,
    zip strategies strategy_labels !! i = Some (strategy, label) /\
    Xticks lane_counts ∈ run.1 /\
    StronglySorted Z.lt lane_counts /\
    (forall lc, lc ∈ lane_counts <->
       exists b, b ∈ strategy_data /\ lane_of py_int b = Some lc) /\
    Forall2 (fun lc h =>
               h = match strategy_last_seen py_int lc strategy strategy_data with
                   | Some ps => p95 ps
                   | None => PInt 0
                   end) lane_counts heights.
Proof.
  intros run strategy_data. subst run.
  rewrite plot_strategy_comparison_run. fold strategy_data.
  destruct strategy_data as [|b0 data] eqn:Hdata.
  { by intros [=]%list_elem_of_singleton. }
  rewrite <-Hdata. clear Hdata b0 data.
  destruct (mapM (strategy_read py_int) strategy_data) as [es|] eqn:Hes;
    [|by intros ?%elem_of_nil].
  apply mapM_Ok_Forall2 in Hes. cbn [fst]. intros Hin.
  set (by_ls := foldl strategy_put ∅ es) in *.
  assert (exists strategy,
            zip strategies strategy_labels !! i = Some (strategy, label) /\
            heights = bar_height by_ls strategy <$> sorted_keys by_ls)
    as (strategy & Hi & ->).
  { apply elem_of_app in Hin as [Hin|Hin].
    - unfold strategy_chart in Hin.
      apply elem_of_cons in Hin as [[=]|Hin].
      apply elem_of_cons in Hin as [[= -> -> ->]|Hin]; [by eexists|].
      apply elem_of_cons in Hin as [[= -> -> ->]|Hin]; [by eexists|].
      apply elem_of_cons in Hin as [[= -> -> ->]|Hin]; [by eexists|].
      apply elem_of_cons in Hin as [[=]|Hin]. by apply elem_of_nil in Hin.
    - unfold finish in Hin.
      repeat (apply elem_of_cons in Hin as [[=]|Hin]).
      by apply elem_of_nil in Hin. }
  exists strategy, (sorted_keys by_ls). split; [done|].
  split; [|split; [apply sorted_keys_increasing|split]].
  - apply elem_of_app. left. unfold strategy_chart.
    do 4 apply list_elem_of_further. apply list_elem_of_here.
  - intros lc. rewrite elem_of_sorted_keys, <-elem_of_dom.
    unfold by_ls. rewrite dom_foldl_put, elem_of_union, elem_of_list_to_set.
    rewrite (strategy_entries_lanes py_int strategy_data es lc Hes).
    set_solver.
  - apply Forall2_fmap_r, Forall_Forall2_diag, Forall_forall.
    intros lc _. unfold compose, bar_height, strategy_last_seen, by_ls.
    by rewrite cell_foldl_put, cell_empty,
      (foldl_cell_put_reads py_int lc strategy strategy_data es None Hes).
Qed.

Lemma strategy_bars_last_seen_witness :
  exists strategy lane_counts,
    zip strategies strategy_labels !! 0%nat = Some (strategy, "RoundRobin") /\
    Xticks lane_counts
    ∈ (plot_strategy_comparison int_decimal strategy_example reports_dir).1 /\
    StronglySorted Z.lt lane_counts /\
    (forall lc, lc ∈ lane_counts <->
       exists b, b ∈ select "StrategyComparisonBenchmark" strategy_example /\
                 lane_of int_decimal b = Some lc) /\
    Forall2 (fun lc h =>
               h = match strategy_last_seen int_decimal lc strategy
                           (select "StrategyComparisonBenchmark"
                              strategy_example) with
                   | Some ps => p95 ps
                   | None => PInt 0
                   end) lane_counts [PFloat 5; PInt 0].
Proof.
  apply (strategy_bars_last_seen int_decimal strategy_example reports_dir).
  vm_compute. repeat constructor.
Defined.

Lemma mapM_readable py_int (l : list Benchmark) :
  Forall (strategy_readable py_int) l ->
  exists es, mapM (strategy_read py_int) l = Ok es.
Proof.
  induction 1 as [|b l [e Hb] _ [es IH]]; simpl; [by eexists|].
  rewrite Hb, IH. by eexists.
Qed.

(** X6: the Strategy-Comparison builder reads every record of the report
    before it draws.  At the first record that it cannot read it raises
    with nothing drawn or printed: KeyError for a missing laneCount,
    ValueError for a lane count that is no integer, KeyError for a missing
    strategyName and KeyError for missing scorePercentiles, looked up in
    this order. *)
Theorem strategy_first_unreadable_record (py_int : string -> option Z)
    (benchmarks : list Benchmark) (output_dir : path)
    (l1 l2 : list Benchmark) (b : Benchmark) :
  select "StrategyComparisonBenchmark" benchmarks = l1 ++ b :: l2 ->
  Forall (strategy_readable py_int) l1 ->
  let run := plot_strategy_comparison py_int benchmarks output_dir in
  (params b !! "laneCount" = None ->
   run = ([], Raise (KeyError (KStr "laneCount")))) /\
  (forall s, params b !! "laneCount" = Some s -> py_int s = None ->
   run = ([], Raise ValueError)) /\
  (is_Some (lane_of py_int b) -> params b !! "strategyName" = None ->
   run = ([], Raise (KeyError (KStr "strategyName")))) /\
  (is_Some (lane_of py_int b) -> is_Some (params b !! "strategyName") ->
   scorePercentiles (primaryMetric b) = None ->
   run = ([], Raise (KeyError (KStr "scorePercentiles")))).
Proof.
  intros Hsel Hl1 run.
  assert (forall e, strategy_read py_int b = Raise e -> run = ([], Raise e))
    as Hraise.
  { intros e Hb. subst run. rewrite plot_strategy_comparison_run, Hsel.
    destruct (l1 ++ b :: l2) as [|b0 data] eqn:Hdata.
    { by apply app_nil in Hdata as [_ [=]]. }
    rewrite <-Hdata, mapM_result_app.
    destruct (mapM_readable py_int l1 Hl1) as [es ->].
    cbn [mbind result_bind mapM]. by rewrite Hb. }
  split; [|split; [|split]].
  - intros Hlane. apply Hraise.
    unfold strategy_read, subscript. by rewrite Hlane.
  - intros s Hlane Hs. apply Hraise.
    unfold strategy_read, subscript, int. rewrite Hlane. simpl. by rewrite Hs.
  - intros [lc Hlc] Hname. apply Hraise. revert Hlc.
    unfold strategy_read, lane_of, subscript, int.
    destruct (params b !! "laneCount") as [s|]; [|done]. simpl.
    intros ->. simpl. by rewrite Hname.
  - intros [lc Hlc] [u Hname] Hpcts. apply Hraise. revert Hlc.
    unfold strategy_read, lane_of, subscript, int, extract_percentiles.
    destruct (params b !! "laneCount") as [s|]; [|done]. simpl.
    intros ->. simpl. rewrite Hname. simpl. by rewrite Hpcts.
Qed.

Lemma strategy_first_unreadable_record_witness :
  plot_strategy_comparison int_decimal
    [strategy_record "4" "ROUND_ROBIN" [("95.0", PInt 5)];
     record "StrategyComparisonBenchmark.run" [("laneCount", "8")] None None]
    reports_dir
  = ([], Raise (KeyError (KStr "strategyName"))).
Proof.
  destruct (strategy_first_unreadable_record int_decimal
              [strategy_record "4" "ROUND_ROBIN" [("95.0", PInt 5)];
               record "StrategyComparisonBenchmark.run" [("laneCount", "8")]
                 None None]
              reports_dir
              [strategy_record "4" "ROUND_ROBIN" [("95.0", PInt 5)]] []
              (record "StrategyComparisonBenchmark.run" [("laneCount", "8")]
                 None None))
    as (_ & _ & Hname & _).
  - reflexivity.
  - constructor; [by eexists|constructor].
  - apply Hname; [by eexists|reflexivity].
Defined.

(** ** The bars of the Selection-Overhead chart *)

(** The keys of the ordered dict after an assignment: a present key keeps
    its place, an absent one goes last. *)
Lemma setitem_keys {A} k (v : A) d :
  (setitem k v d).*1 = if decide (k ∈ d.*1) then d.*1 else d.*1 ++ [k].
Proof.
  induction d as [|[k0 v0] d IH].
  { destruct (decide (k ∈ ([] : list (string * A)).*1)) as [Hin|_]; [|done].
    by apply elem_of_nil in Hin. }
  cbn [setitem]. destruct (String.eqb k0 k) eqn:Hk.
  - apply String.eqb_eq in Hk as ->.
    destruct (decide (k ∈ ((k, v0) :: d).*1)) as [_|Hnot]; [done|].
    destruct Hnot. apply list_elem_of_here.
  - apply String.eqb_neq in Hk. rewrite !fmap_cons, IH. cbn [fst].
    destruct (decide (k ∈ d.*1)) as [Hin|Hin];
      destruct (decide (k ∈ k0 :: d.*1)) as [Hin'|Hin']; try done.
    + destruct Hin'. by apply list_elem_of_further.
    + apply elem_of_cons in Hin' as [->|?]; done.
Qed.

Lemma bucket_of_labels method label :
  bucket_of method = Some label ->
  label ∈ ["Baseline"; "RoundRobin"; "ThreadAffinity"; "LeastUsed"].
Proof.
  unfold bucket_of. repeat destruct (contains _ _); intros [= <-];
    repeat constructor.
Qed.

(** The keys that the loop adds to the dict, in the order of the first
    record of each. *)
Lemma overhead_fold_order l overheads0 overheads :
  foldM overhead_step l overheads0 = Ok overheads ->
  exists ext,
    overheads.*1 = overheads0.*1 ++ ext /\
    NoDup ext /\
    (forall k, k ∈ ext ->
       (k ∉ overheads0.*1) /\
       exists b, b ∈ l /\ bucket_of (method_of b) = Some k) /\
    (forall i j k1 k2, (i < j)%nat ->
       ext !! i = Some k1 -> ext !! j = Some k2 ->
       exists l1 b l2,
         l = l1 ++ b :: l2 /\ bucket_of (method_of b) = Some k1 /\
         Forall (fun b' => bucket_of (method_of b') <> Some k2) l1).
Proof.
  revert overheads0. induction l as [|b l IH]; intros d0; simpl.
  { intros [= ->]. exists []. rewrite app_nil_r.
    split; [done|]. split; [constructor|].
    split; [by intros k ?%elem_of_nil|]. by intros i j k1 k2 _ ?. }
  intros (d1 & Hstep & Hrest)%result_bind_Ok_inv.
  rewrite overhead_step_read in Hstep.
  destruct (score (primaryMetric b)) as [s|]; [|done]. injection Hstep as <-.
  destruct (IH _ Hrest) as (ext & Hkeys & Hnodup & Hext & Horder).
  clear IH Hrest.
  assert (forall i j k1 k2 k, (i < j)%nat ->
            ext !! i = Some k1 -> ext !! j = Some k2 ->
            bucket_of (method_of b) = k -> k <> Some k2 ->
            exists l1 b0 l2,
              b :: l = l1 ++ b0 :: l2 /\
              bucket_of (method_of b0) = Some k1 /\
              Forall (fun b' => bucket_of (method_of b') <> Some k2) l1)
    as Hlater.
  { intros i j k1 k2 k Hij Hi Hj Hb Hne.
    destruct (Horder i j k1 k2 Hij Hi Hj) as (l1 & b0 & l2 & -> & Hb0 & Hl1).
    exists (b :: l1), b0, l2. split; [done|]. split; [done|].
    constructor; [by rewrite Hb|done]. }
  destruct (bucket_of (method_of b)) as [label|] eqn:Hbucket.
  - rewrite setitem_keys in Hkeys, Hext.
    destruct (decide (label ∈ d0.*1)) as [Hin|Hin].
    + exists ext. split; [done|]. split; [done|]. split.
      * intros k Hk. destruct (Hext k Hk) as (Hnot & b' & Hb' & Hbk).
        split; [done|]. exists b'. split; [by apply list_elem_of_further|done].
      * intros i j k1 k2 Hij Hi Hj. apply (Hlater i j k1 k2 _ Hij Hi Hj eq_refl).
        intros [= ->]. apply list_elem_of_lookup_2 in Hj.
        by destruct (Hext k2 Hj).
    + exists (label :: ext). split; [by rewrite Hkeys, <-app_assoc|].
      split; [|split].
      * constructor; [|done]. intros Hl. destruct (Hext label Hl) as [Hnot _].
        apply Hnot, elem_of_app. right. apply list_elem_of_here.
      * intros k [->|Hk]%elem_of_cons.
        { split; [done|]. exists b. split; [apply list_elem_of_here|done]. }
        destruct (Hext k Hk) as (Hnot & b' & Hb' & Hbk). split.
        { intros Hk0. apply Hnot, elem_of_app. by left. }
        exists b'. split; [by apply list_elem_of_further|done].
      * intros [|i] [|j] k1 k2 Hij Hi Hj; [lia| |lia|]; simpl in Hi, Hj.
        { injection Hi as ->. exists [], b, l. by split; [|split]. }
        apply (Hlater i j k1 k2 _ ltac:(lia) Hi Hj eq_refl).
        intros [= ->]. apply list_elem_of_lookup_2 in Hj.
        destruct (Hext k2 Hj) as [Hnot _].
        apply Hnot, elem_of_app. right. apply list_elem_of_here.
  - exists ext. split; [done|]. split; [done|]. split.
    + intros k Hk. destruct (Hext k Hk) as (Hnot & b' & Hb' & Hbk).
      split; [done|]. exists b'. split; [by apply list_elem_of_further|done].
    + intros i j k1 k2 Hij Hi Hj.
      by apply (Hlater i j k1 k2 _ Hij Hi Hj eq_refl).
Qed.

(** The bars of a run are those of the buckets that the loop has filled. *)
Lemma plot_selection_overhead_bars benchmarks output_dir labels values :
  Bars labels values ∈ (plot_selection_overhead benchmarks output_dir).1 ->
  exists overheads,
    overhead_buckets (select "SelectionOverheadBenchmark" benchmarks)
    = Ok overheads /\
    labels = overheads.*1 /\ values = overheads.*2.
Proof.
  destruct (overhead_buckets
              (select "SelectionOverheadBenchmark" benchmarks))
    as [overheads|e] eqn:Hbuckets.
  - intros Hin. exists overheads. split; [done|].
    apply (plot_selection_overhead_events _ _ _ _ Hbuckets) in Hin
      as [[m [=]]|[[=]|[[= -> ->]|[(h & y & [=])|[Hin|Hin]]]]]; [done| |].
    + apply overhead_annotate_events in Hin as (? & ? & ? & ? & [=] & _).
    + unfold finish in Hin. repeat (apply elem_of_cons in Hin as [[=]|Hin]).
      by apply elem_of_nil in Hin.
  - unfold plot_selection_overhead.
    destruct (select "SelectionOverheadBenchmark" benchmarks) as [|b0 data].
    + by intros [=]%list_elem_of_singleton.
    + rewrite Hbuckets. by intros ?%elem_of_nil.
Qed.

(** X7: the Selection-Overhead chart has one bar for each bucket that a
    record of the report falls in, so at most four, the number of colours;
    the bars stand in the order in which the buckets first occur among the
    records, and every bar has a value. *)
Theorem selection_overhead_bar_order (benchmarks : list Benchmark)
    (output_dir : path) (labels : list string) (values : list num) :
  let overhead_data := select "SelectionOverheadBenchmark" benchmarks in
  Bars labels values ∈ (plot_selection_overhead benchmarks output_dir).1 ->
  NoDup labels /\
  length values = length labels /\ (length labels <= 4)%nat /\
  (forall label, label ∈ labels <->
     exists b, b ∈ overhead_data /\ bucket_of (method_of b) = Some label) /\
  (forall i j k1 k2, (i < j)%nat ->
     labels !! i = Some k1 -> labels !! j = Some k2 ->
     exists l1 b l2,
       overhead_data = l1 ++ b :: l2 /\ bucket_of (method_of b) = Some k1 /\
       Forall (fun b' => bucket_of (method_of b') <> Some k2) l1).
Proof.
  intros overhead_data
    (overheads & Hbuckets & -> & ->)%plot_selection_overhead_bars.
  fold overhead_data in Hbuckets. unfold overhead_buckets in Hbuckets.
  destruct (overhead_fold_order _ _ _ Hbuckets)
    as (ext & Hkeys & Hnodup & Hext & Horder).
  simpl in Hkeys. rewrite Hkeys.
  split; [done|]. split; [by rewrite <-Hkeys, !length_fmap|]. split; [|split].
  - change 4%nat
      with (length ["Baseline"; "RoundRobin"; "ThreadAffinity"; "LeastUsed"]).
    apply submseteq_length, NoDup_submseteq; [done|].
    intros k (_ & b & _ & Hb)%Hext. by eapply bucket_of_labels.
  - intros label. split.
    + by intros (_ & b & Hb)%Hext; exists b.
    + intros Hb. rewrite <-Hkeys.
      apply (overhead_fold_keys _ _ _ _ Hbuckets). by right.
  - done.
Qed.

Lemma selection_overhead_bar_order_witness :
  NoDup ["RoundRobin"; "Baseline"] /\
  length [PFloat 80; PFloat 50] = length ["RoundRobin"; "Baseline"] /\
  (length ["RoundRobin"; "Baseline"] <= 4)%nat /\
  (forall label, label ∈ ["RoundRobin"; "Baseline"] <->
     exists b,
       b ∈ select "SelectionOverheadBenchmark"
             [overhead_record "roundRobinOverhead" (PFloat 90);
              overhead_record "baselineOverhead" (PFloat 0x1.999999999999ap-5);
              overhead_record "roundRobinOverhead" (PFloat 0x1.47ae147ae147bp-4)]
       /\ bucket_of (method_of b) = Some label) /\
  (forall i j k1 k2, (i < j)%nat ->
     ["RoundRobin"; "Baseline"] !! i = Some k1 ->
     ["RoundRobin"; "Baseline"] !! j = Some k2 ->
     exists l1 b l2,
       select "SelectionOverheadBenchmark"
         [overhead_record "roundRobinOverhead" (PFloat 90);
          overhead_record "baselineOverhead" (PFloat 0x1.999999999999ap-5);
          overhead_record "roundRobinOverhead" (PFloat 0x1.47ae147ae147bp-4)]
       = l1 ++ b :: l2 /\ bucket_of (method_of b) = Some k1 /\
       Forall (fun b' => bucket_of (method_of b') <> Some k2) l1).
Proof.
  apply (selection_overhead_bar_order _ reports_dir).
  vm_compute. repeat constructor.
Defined.

Lemma max_cons x l : max (x :: l) = Ok (max_from x l).
Proof. done. Qed.

(** *** The guards of the builder *)

(** With two bars or more, one is not the Baseline bar. *)
Lemma max_strategy_of_Ok (overheads : list (string * num)) :
  NoDup overheads.*1 -> (2 <= length overheads)%nat ->
  exists label m, max_strategy_of overheads = Ok m /\
                  (label, m) ∈ overheads /\ label <> "Baseline".
Proof.
  intros Hnodup Hlen. unfold max_strategy_of.
  set (others := List.filter _ overheads).
  assert (forall kv, kv ∈ others -> kv ∈ overheads /\ kv.1 <> "Baseline")
    as Hothers.
  { intros kv [Hin Hkv]%list_elem_of_In%filter_In. split.
    - by apply list_elem_of_In.
    - apply negb_true_iff, String.eqb_neq in Hkv. done. }
  assert (forall v (l : list num), max_from v l ∈ v :: l) as Hmax.
  { intros v l. revert v. induction l as [|x l IH]; intros v; simpl.
    - apply list_elem_of_here.
    - specialize (IH (if gt x v then x else v)).
      apply elem_of_cons in IH as [->|?].
      + destruct (gt x v); [apply list_elem_of_further|]; apply list_elem_of_here.
      + by do 2 apply list_elem_of_further. }
  destruct others as [|kv others'] eqn:Hfilter.
  - exfalso. destruct overheads as [|[k1 v1] [|[k2 v2] rest]];
      simpl in Hlen; [lia..|].
    subst others. simpl in Hfilter.
    destruct (String.eqb k1 "Baseline") eqn:Hk1; [|done].
    destruct (String.eqb k2 "Baseline") eqn:Hk2; [|done].
    apply String.eqb_eq in Hk1 as ->. apply String.eqb_eq in Hk2 as ->.
    apply NoDup_cons in Hnodup as [Hnot _]. apply Hnot, list_elem_of_here.
  - rewrite fmap_cons, max_cons.
    specialize (Hmax kv.2 others'.*2).
    change (kv.2 :: others'.*2) with ((kv :: others').*2) in Hmax.
    apply list_elem_of_fmap in Hmax as ([label m] & Hm & Hin).
    simpl in Hm. exists label, m. split; [by rewrite Hm|].
    by apply Hothers in Hin as [? ?].
Qed.

Lemma overhead_fold_scored l overheads0 :
  Forall (fun b => is_Some (score (primaryMetric b))) l ->
  exists overheads, foldM overhead_step l overheads0 = Ok overheads.
Proof.
  intros Hl. revert overheads0.
  induction Hl as [|b l [s Hb] _ IH]; intros d0; simpl; [by eexists|].
  rewrite overhead_step_read, Hb. cbn [mbind result_bind]. apply IH.
Qed.

(** X8: in the Selection-Overhead report, the first record without a
    score, after records that have one, makes the builder raise KeyError
    for score with nothing drawn or printed.  When the buckets are filled
    and the chart has two bars or more, one of them is not the Baseline
    bar, so the maximum over the bars other than Baseline is taken of a
    sequence that is not empty, and it is the value of one of these
    bars. *)
Theorem selection_overhead_guards (benchmarks : list Benchmark)
    (output_dir : path) :
  let run := plot_selection_overhead benchmarks output_dir in
  let overhead_data := select "SelectionOverheadBenchmark" benchmarks in
  (forall l1 b l2,
     overhead_data = l1 ++ b :: l2 ->
     Forall (fun b' => is_Some (score (primaryMetric b'))) l1 ->
     score (primaryMetric b) = None ->
     run = ([], Raise (KeyError (KStr "score")))) /\
  (forall overheads,
     overhead_buckets overhead_data = Ok overheads ->
     (2 <= length overheads)%nat ->
     exists label m,
       max_strategy_of overheads = Ok m /\
       (label, m) ∈ overheads /\ label <> "Baseline").
Proof.
  intros run overhead_data. subst run overhead_data. split.
  - intros l1 b l2 Hsel Hl1 Hb. unfold plot_selection_overhead.
    rewrite Hsel. destruct (l1 ++ b :: l2) as [|b0 data] eqn:Hdata.
    { by apply app_nil in Hdata as [_ [=]]. }
    rewrite <-Hdata. unfold overhead_buckets. rewrite foldM_app.
    destruct (overhead_fold_scored l1 [] Hl1) as [d ->].
    cbn [mbind result_bind foldM]. by rewrite overhead_step_read, Hb.
  - intros overheads Hbuckets Hlen. apply max_strategy_of_Ok; [|done].
    destruct (overhead_fold_order _ _ _ Hbuckets) as (ext & Hkeys & Hnodup & _).
    by rewrite Hkeys.
Qed.

Lemma selection_overhead_guards_witness :
  plot_selection_overhead
    [overhead_record "baselineOverhead" (PFloat 1);
     record "bench.SelectionOverheadBenchmark.roundRobinOverhead" [] None None]
    reports_dir
  = ([], Raise (KeyError (KStr "score"))) /\
  exists label m,
    max_strategy_of overhead_example_buckets = Ok m /\
    (label, m) ∈ overhead_example_buckets /\ label <> "Baseline".
Proof.
  split.
  - destruct (selection_overhead_guards
                [overhead_record "baselineOverhead" (PFloat 1);
                 record "bench.SelectionOverheadBenchmark.roundRobinOverhead"
                   [] None None] reports_dir) as [Hscore _].
    apply (Hscore [overhead_record "baselineOverhead" (PFloat 1)]
             (record "bench.SelectionOverheadBenchmark.roundRobinOverhead"
                [] None None) []).
    + reflexivity.
    + constructor; [by eexists|constructor].
    + reflexivity.
  - destruct (selection_overhead_guards overhead_example reports_dir)
      as [_ Hmax].
    apply Hmax; [vm_compute; reflexivity|simpl; lia].
Defined.

(** *** Scores that are floats *)

Lemma get_item_NoDup {A} (d : list (string * A)) k v dflt :
  NoDup d.*1 -> (k, v) ∈ d -> get_item d k dflt = v.
Proof.
  induction d as [|[k0 v0] d IH]; simpl; [by intros _ ?%elem_of_nil|].
  intros [Hnot Hnodup]%NoDup_cons [[= -> ->]|Hin]%elem_of_cons.
  - by rewrite String.eqb_refl.
  - destruct (String.eqb k0 k) eqn:Hk; [|by apply IH].
    apply String.eqb_eq in Hk as ->. destruct Hnot.
    apply list_elem_of_fmap. by exists (k, v).
Qed.

Lemma max_from_elem v l : max_from v l ∈ v :: l.
Proof.
  revert v. induction l as [|x l IH]; intros v; simpl.
  - apply list_elem_of_here.
  - specialize (IH (if gt x v then x else v)).
    apply elem_of_cons in IH as [->|?].
    + destruct (gt x v); [apply list_elem_of_further|]; apply list_elem_of_here.
    + by do 2 apply list_elem_of_further.
Qed.

Lemma overhead_fold_float l overheads0 :
  Forall float_scored l ->
  Forall (fun kv => is_float kv.2) overheads0 ->
  exists overheads,
    foldM overhead_step l overheads0 = Ok overheads /\
    Forall (fun kv => is_float kv.2) overheads.
Proof.
  intros Hl. revert overheads0.
  induction Hl as [|b l [f Hb] _ IH]; intros d0 Hd0; simpl; [by exists d0|].
  rewrite overhead_step_read, Hb. cbn [mbind result_bind]. apply IH.
  destruct (bucket_of (method_of b)) as [label|]; [|done].
  apply Forall_forall. intros [k v] [[= -> ->]|Hin]%elem_of_setitem; [done|].
  by apply (proj1 (Forall_forall _ _) Hd0 (k, v)).
Qed.

Lemma bar_text_loop_float values l :
  values <> [] -> Forall is_float values -> Forall is_float l ->
  (forM_ (overhead_bar_text values) l).2 = Ok tt.
Proof.
  intros Hne Hvalues Hl. induction Hl as [|h l Hh _ IH]; simpl; [done|].
  rewrite bind_trace, overhead_bar_text_run.
  destruct values as [|v values]; [done|]. rewrite max_cons.
  pose proof (proj1 (Forall_forall _ _) Hvalues _ (max_from_elem v values))
    as Hmax.
  destruct (max_from v values) as [|m]; [done|].
  destruct h as [|h]; [done|]. cbn [mbind result_bind mul add to_float fst snd].
  exact IH.
Qed.

(** The outcome of the annotation block on buckets of floats. *)
Lemma overhead_annotate_float overheads :
  NoDup overheads.*1 ->
  Forall (fun kv => is_float kv.2) overheads ->
  let a := overhead_annotate overheads overheads.*2 in
  (a.2 = Ok tt \/ a.2 = Raise ZeroDivisionError) /\
  (a.2 = Raise ZeroDivisionError <->
   exists baseline m,
     ("Baseline", baseline) ∈ overheads /\ gt baseline (PInt 0) = true /\
     max_strategy_of overheads = Ok (PFloat m) /\ (m =? 0)%float = true).
Proof.
  intros Hnodup Hfloat a. subst a. unfold overhead_annotate.
  case_decide as Hlen.
  - rewrite length_fmap in Hlen.
    destruct (max_strategy_of_Ok overheads Hnodup Hlen)
      as (label & m & Hmax & Hin & Hlabel).
    rewrite Hmax, bind_lift_Ok.
    pose proof (proj1 (Forall_forall _ _) Hfloat _ Hin) as Hm. simpl in Hm.
    destruct m as [|m]; [done|].
    destruct (gt (get_item overheads "Baseline" (PInt 0)) (PInt 0)) eqn:Hgt.
    + destruct (get_item_elem overheads "Baseline" (PInt 0)) as [Heq|Hbase];
        [by rewrite Heq in Hgt|].
      pose proof (proj1 (Forall_forall _ _) Hfloat _ Hbase) as Hb.
      simpl in Hb.
      destruct (get_item overheads "Baseline" (PInt 0)) as [|bf] eqn:Hget;
        [done|].
      cbn [sub to_float mbind result_bind]. rewrite bind_lift_Ok.
      cbn [truediv to_float mbind result_bind].
      destruct (m =? 0)%float eqn:Hzero.
      * cbn [mbind result_bind]. cbn [lift mbind M_bind fst snd].
        split; [by right|]. split; [|done]. intros _.
        by exists (PFloat bf), m.
      * cbn [mul to_float mbind result_bind]. rewrite float_of_int_100.
        cbn [mbind result_bind]. rewrite bind_lift_Ok.
        destruct overheads as [|kv overheads]; [simpl in Hlen; lia|].
        rewrite fmap_cons, max_cons.
        pose proof (proj1 (Forall_forall _ _)
                      (proj2 (Forall_fmap _ _ _) Hfloat) _
                      (max_from_elem kv.2 overheads.*2)) as Hmx.
        destruct (max_from kv.2 overheads.*2) as [|mx]; [done|].
        cbn [mul to_float mbind result_bind]. rewrite bind_lift_Ok.
        cbn [emit snd]. split; [by left|]. split; [done|].
        intros (baseline & m' & _ & _ & [= ->] & Hz). congruence.
    + cbn [mret M_ret snd]. split; [by left|]. split; [done|].
      intros (baseline & m' & Hbase & Hgt' & _).
      rewrite (get_item_NoDup _ _ _ _ Hnodup Hbase) in Hgt. congruence.
  - cbn [mret M_ret snd]. split; [by left|]. split; [done|].
    intros (baseline & m & Hbase & _ & Hmax & _).
    destruct Hlen. rewrite length_fmap.
    destruct overheads as [|kv1 [|kv2 overheads]]; simpl; [|  |lia].
    + by apply elem_of_nil in Hbase.
    + apply list_elem_of_singleton in Hbase as <-. done.
Qed.

(** X9: when every score of the Selection-Overhead records is a float, the
    report either completes or raises ZeroDivisionError; it raises exactly
    when the Baseline bar is greater than zero and the greatest of the
    other bars is zero, and then no file is written. *)
Theorem selection_overhead_float_scores (benchmarks : list Benchmark)
    (output_dir : path) :
  let run := plot_selection_overhead benchmarks output_dir in
  let overhead_data := select "SelectionOverheadBenchmark" benchmarks in
  Forall float_scored overhead_data ->
  (run.2 = Ok tt \/ run.2 = Raise ZeroDivisionError /\ artifacts run.1 = []) /\
  (run.2 = Raise ZeroDivisionError <->
   exists overheads baseline m,
     overhead_buckets overhead_data = Ok overheads /\
     ("Baseline", baseline) ∈ overheads /\ gt baseline (PInt 0) = true /\
     max_strategy_of overheads = Ok (PFloat m) /\ (m =? 0)%float = true).
Proof.
  intros run overhead_data Hscores.
  assert (run.2 = Raise ZeroDivisionError -> artifacts run.1 = []) as Hart.
  { intros Hraise. subst run.
    rewrite artifacts_plot_selection_overhead, Hraise.
    destruct (select _ _); [done|]. by destruct (overhead_buckets _) as [[|]|]. }
  destruct (overhead_fold_float overhead_data [] Hscores)
    as (overheads & Hbuckets & Hfloat); [constructor|].
  fold (overhead_buckets overhead_data) in Hbuckets.
  destruct (overhead_fold_order _ _ _ Hbuckets) as (ext & Hkeys & Hnodup & _).
  simpl in Hkeys. rewrite <-Hkeys in Hnodup. clear ext Hkeys.
  assert (run.2 = match overheads with
                  | [] => Ok tt
                  | _ :: _ => (overhead_annotate overheads overheads.*2).2
                  end) as Hrun.
  { subst run overhead_data.
    destruct (select "SelectionOverheadBenchmark" benchmarks) as [|b0 data]
      eqn:Hdata.
    { unfold plot_selection_overhead. rewrite Hdata.
      injection Hbuckets as <-. done. }
    destruct overheads as [|kv overheads].
    { unfold plot_selection_overhead. by rewrite Hdata, Hbuckets. }
    rewrite (plot_selection_overhead_run _ _ (kv :: overheads));
      [|by rewrite Hdata..|done].
    cbv zeta. cbn [snd].
    rewrite bar_text_loop_float; [done|done|..];
      by apply Forall_fmap. }
  destruct (overhead_annotate_float overheads Hnodup Hfloat) as [Hcases Hiff].
  cbv zeta in Hcases, Hiff.
  split.
  - destruct overheads as [|kv overheads]; [by left|].
    rewrite Hrun in Hart |- *.
    destruct Hcases as [?|Hraise]; [by left|]. right. split; [done|].
    by apply Hart.
  - rewrite Hrun. destruct overheads as [|kv overheads].
    + split; [done|]. intros (d & baseline & m & Hd & Hin & _).
      rewrite Hbuckets in Hd. injection Hd as <-.
      by apply elem_of_nil in Hin.
    + rewrite Hiff. split.
      * intros (baseline & m & ?). by exists (kv :: overheads), baseline, m.
      * intros (d & baseline & m & Hd & ?).
        rewrite Hbuckets in Hd. injection Hd as <-. by exists baseline, m.
Qed.

Lemma selection_overhead_float_scores_witness :
  ((plot_selection_overhead overhead_example reports_dir).2 = Ok tt \/
   (plot_selection_overhead overhead_example reports_dir).2
   = Raise ZeroDivisionError /\
   artifacts (plot_selection_overhead overhead_example reports_dir).1 = []) /\
  ((plot_selection_overhead overhead_example reports_dir).2
   = Raise ZeroDivisionError <->
   exists overheads baseline m,
     overhead_buckets (select "SelectionOverheadBenchmark" overhead_example)
     = Ok overheads /\
     ("Baseline", baseline) ∈ overheads /\ gt baseline (PInt 0) = true /\
     max_strategy_of overheads = Ok (PFloat m) /\ (m =? 0)%float = true).
Proof.
  apply (selection_overhead_float_scores overhead_example reports_dir).
  vm_compute. repeat constructor; by eexists.
Defined.

(** *** The places of the texts *)

Lemma bar_text_loop_place values l h y :
  BarText h y ∈ (forM_ (overhead_bar_text values) l).1 ->
  h ∈ l /\ (m ← max values; d ← mul m (PFloat c_0_02); add h d) = Ok y.
Proof.
  induction l as [|h0 l IH]; simpl; [by intros ?%elem_of_nil|].
  rewrite bind_trace, overhead_bar_text_run.
  destruct (m ← max values; d ← mul m (PFloat c_0_02); add h0 d)
    as [y0|err] eqn:Hy0; cbn [fst snd]; [|by intros ?%elem_of_nil].
  intros [[= -> ->]|Hin]%elem_of_cons.
  - split; [apply list_elem_of_here|done].
  - destruct (IH Hin) as [Hl Hy]. split; [by apply list_elem_of_further|done].
Qed.

Lemma overhead_annotate_place overheads values overhead overhead_pct y :
  OverheadText overhead overhead_pct y ∈ (overhead_annotate overheads values).1 ->
  (m ← max values; mul m (PFloat c_0_85)) = Ok y.
Proof.
  unfold overhead_annotate. case_decide; [|by intros ?%elem_of_nil].
  destruct (max_strategy_of overheads) as [max_strategy|];
    [|by intros ?%elem_of_nil].
  rewrite bind_lift_Ok.
  destruct (gt _ _); [|by intros ?%elem_of_nil].
  destruct (sub max_strategy _) as [ov|]; [|by intros ?%elem_of_nil].
  rewrite bind_lift_Ok.
  destruct (q ← truediv ov max_strategy; mul q (PInt 100)) as [pct|];
    [|by intros ?%elem_of_nil].
  rewrite bind_lift_Ok.
  destruct (m ← max values; mul m (PFloat c_0_85)) as [y0|];
    [|by intros ?%elem_of_nil].
  rewrite bind_lift_Ok. by intros [= _ _ ->]%list_elem_of_singleton.
Qed.

(** The texts of a run are those of the loop over the bars and of the
    annotation block. *)
Lemma plot_selection_overhead_texts benchmarks output_dir e :
  e ∈ (plot_selection_overhead benchmarks output_dir).1 ->
  (exists h y, e = BarText h y) \/ (exists ov pct y, e = OverheadText ov pct y) ->
  exists overheads,
    overhead_buckets (select "SelectionOverheadBenchmark" benchmarks)
    = Ok overheads /\
    overheads <> [] /\
    (e ∈ (forM_ (overhead_bar_text overheads.*2) overheads.*2).1 \/
     e ∈ (overhead_annotate overheads overheads.*2).1).
Proof.
  intros Hin Hkind.
  destruct (select "SelectionOverheadBenchmark" benchmarks) as [|b0 data]
    eqn:Hsel.
  { rewrite plot_selection_overhead_skip in Hin by done.
    apply list_elem_of_singleton in Hin as ->.
    by destruct Hkind as [(?&?&[=])|(?&?&?&[=])]. }
  destruct (overhead_buckets (b0 :: data)) as [[|kv overheads]|err] eqn:Hbuckets.
  - unfold plot_selection_overhead in Hin. rewrite Hsel, Hbuckets in Hin.
    apply list_elem_of_singleton in Hin as ->.
    by destruct Hkind as [(?&?&[=])|(?&?&?&[=])].
  - exists (kv :: overheads). split; [done|]. split; [done|].
    rewrite (plot_selection_overhead_run _ _ (kv :: overheads)) in Hin;
      [|by rewrite Hsel..|done].
    cbv zeta in Hin. cbn [fst] in Hin.
    apply elem_of_cons in Hin as [->|Hin];
      [by destruct Hkind as [(?&?&[=])|(?&?&?&[=])]|].
    apply elem_of_cons in Hin as [->|Hin];
      [by destruct Hkind as [(?&?&[=])|(?&?&?&[=])]|].
    apply elem_of_app in Hin as [Hin|Hin]; [by left|].
    destruct (is_ok (forM_ _ _).2); [|by apply elem_of_nil in Hin].
    apply elem_of_app in Hin as [Hin|Hin]; [by right|].
    destruct (is_ok (overhead_annotate _ _).2); [|by apply elem_of_nil in Hin].
    unfold finish in Hin.
    repeat (apply elem_of_cons in Hin as [->|Hin];
            [by destruct Hkind as [(?&?&[=])|(?&?&?&[=])]|]).
    by apply elem_of_nil in Hin.
  - unfold plot_selection_overhead in Hin. rewrite Hsel, Hbuckets in Hin.
    by apply elem_of_nil in Hin.
Qed.

(** X10: in the Selection-Overhead chart every value label belongs to a
    bar and is put above it at the height of the bar plus 0.02 times the
    greatest bar, which is one of the bars; the overhead annotation is put
    at 0.85 times the greatest bar. *)
Theorem selection_overhead_text_places (benchmarks : list Benchmark)
    (output_dir : path) (e : event) :
  let run := plot_selection_overhead benchmarks output_dir in
  e ∈ run.1 ->
  (forall h y, e = BarText h y ->
     exists overheads m,
       overhead_buckets (select "SelectionOverheadBenchmark" benchmarks)
       = Ok overheads /\
       h ∈ overheads.*2 /\ max overheads.*2 = Ok m /\ m ∈ overheads.*2 /\
       (d ← mul m (PFloat c_0_02); add h d) = Ok y) /\
  (forall overhead overhead_pct y, e = OverheadText overhead overhead_pct y ->
     exists overheads m,
       overhead_buckets (select "SelectionOverheadBenchmark" benchmarks)
       = Ok overheads /\
       max overheads.*2 = Ok m /\ m ∈ overheads.*2 /\
       mul m (PFloat c_0_85) = Ok y).
Proof.
  intros run Hin. subst run.
  assert (forall overheads : list (string * num),
            overheads <> [] ->
            exists m, max overheads.*2 = Ok m /\ m ∈ overheads.*2) as Hmax.
  { intros [|kv overheads] Hne; [done|]. rewrite fmap_cons.
    exists (max_from kv.2 overheads.*2). split; [done|apply max_from_elem]. }
  split.
  - intros h y ->.
    destruct (plot_selection_overhead_texts _ _ _ Hin)
      as (overheads & Hbuckets & Hne & [Hloop|Hblock]); [left; by eexists _, _| |].
    + destruct (Hmax overheads Hne) as (m & Hm & Hmin).
      apply bar_text_loop_place in Hloop as [Hh Hy].
      exists overheads, m. rewrite Hm in Hy. done.
    + by apply overhead_annotate_events in Hblock as (?&?&?&?& [=] & _).
  - intros overhead overhead_pct y ->.
    destruct (plot_selection_overhead_texts _ _ _ Hin)
      as (overheads & Hbuckets & Hne & [Hloop|Hblock]);
      [right; by eexists _, _, _| |].
    + by apply bar_text_loop_events in Hloop as (?&?& [=]).
    + destruct (Hmax overheads Hne) as (m & Hm & Hmin).
      apply overhead_annotate_place in Hblock.
      exists overheads, m. rewrite Hm in Hblock. done.
Qed.

Lemma selection_overhead_text_places_witness :
  (forall h y, BarText (PFloat 90) (PFloat 0x1.6f9999999999ap+6) = BarText h y ->
     exists overheads m,
       overhead_buckets (select "SelectionOverheadBenchmark" overhead_example)
       = Ok overheads /\
       h ∈ overheads.*2 /\ max overheads.*2 = Ok m /\ m ∈ overheads.*2 /\
       (d ← mul m (PFloat c_0_02); add h d) = Ok y) /\
  (forall overhead overhead_pct y,
     BarText (PFloat 90) (PFloat 0x1.6f9999999999ap+6)
     = OverheadText overhead overhead_pct y ->
     exists overheads m,
       overhead_buckets (select "SelectionOverheadBenchmark" overhead_example)
       = Ok overheads /\
       max overheads.*2 = Ok m /\ m ∈ overheads.*2 /\
       mul m (PFloat c_0_85) = Ok y).
Proof.
  apply (selection_overhead_text_places overhead_example reports_dir).
  vm_compute. repeat constructor.
Defined.

(** ** The run of [main] *)

Lemma main_load_failed py_int fs script arg e :
  exists_ fs (PathOf arg) = true ->
  json_load fs (PathOf arg) = Raise e ->
  main py_int fs [script; arg]
  = ([Print (Loading (PathOf arg)); OpenFile (PathOf arg)], Raise e).
Proof.
  intros Hexists Hload. unfold main. rewrite decide_False by (simpl; lia).
  cbn [index lookup list_lookup]. rewrite bind_lift_Ok, Hexists.
  cbn [negb]. cbv zeta. unfold print, load_results.
  rewrite bind_emit. cbn [fst snd].
  by rewrite (bind_trace (emit _ ≫= _)), bind_emit, Hload.
Qed.

(** The runs of [main], by its command line and its input file. *)
Lemma main_cases py_int fs argv :
  main py_int fs argv = ([Print Usage], Raise (SystemExit 1)) \/
  exists script arg,
    argv = [script; arg] /\
    (main py_int fs argv
     = ([Print (FileNotFound (PathOf arg))], Raise (SystemExit 1)) \/
     exists_ fs (PathOf arg) = true /\
     ((exists e,
         main py_int fs argv
         = ([Print (Loading (PathOf arg)); OpenFile (PathOf arg)], Raise e)) \/
      exists benchmarks, json_load fs (PathOf arg) = Ok benchmarks)).
Proof.
  destruct (decide (length argv = 2%nat)) as [Hlen|Hlen];
    [|left; by apply main_usage].
  destruct argv as [|script [|arg [|]]]; try done.
  right. exists script, arg. split; [done|].
  destruct (exists_ fs (PathOf arg)) eqn:Hexists;
    [|left; by apply main_missing].
  right. split; [done|].
  destruct (json_load fs (PathOf arg)) as [benchmarks|e] eqn:Hload.
  - right. by exists benchmarks.
  - left. exists e. by apply main_load_failed.
Qed.

(** The reports make no call of [main]: they open no file and print
    none of its messages. *)
Lemma plot_hol_impact_report py_int benchmarks output_dir e :
  e ∈ (plot_hol_impact py_int benchmarks output_dir).1 ->
  is_report_event e = true.
Proof.
  intros [->|(by_lane & _ & [Hin|[Hin|Hin]])]%plot_hol_impact_events; [done|..].
  - unfold hol_chart in Hin. repeat (apply elem_of_cons in Hin as [->|Hin]);
      try done. by apply elem_of_nil in Hin.
  - destruct (hol_annotate_trace (sorted_keys by_lane)
                (at_lane by_lane p95 <$> sorted_keys by_lane))
      as [Heq|(v & xy & xytext & Heq)]; rewrite Heq in Hin.
    + by apply elem_of_nil in Hin.
    + by apply list_elem_of_singleton in Hin as ->.
  - unfold finish in Hin. repeat (apply elem_of_cons in Hin as [->|Hin]);
      try done. by apply elem_of_nil in Hin.
Qed.

Lemma plot_strategy_comparison_report py_int benchmarks output_dir e :
  e ∈ (plot_strategy_comparison py_int benchmarks output_dir).1 ->
  is_report_event e = true.
Proof.
  rewrite plot_strategy_comparison_run.
  destruct (select "StrategyComparisonBenchmark" benchmarks).
  { by intros ->%list_elem_of_singleton. }
  destruct (mapM _ _); [|by intros ?%elem_of_nil].
  cbn [fst]. unfold strategy_chart, finish. intros Hin. simpl in Hin.
  repeat (apply elem_of_cons in Hin as [->|Hin]); try done.
  by apply elem_of_nil in Hin.
Qed.

Lemma plot_selection_overhead_report benchmarks output_dir e :
  e ∈ (plot_selection_overhead benchmarks output_dir).1 ->
  is_report_event e = true.
Proof.
  destruct (select "SelectionOverheadBenchmark" benchmarks) as [|b0 data]
    eqn:Hsel.
  { rewrite plot_selection_overhead_skip by done.
    by intros ->%list_elem_of_singleton. }
  destruct (overhead_buckets (b0 :: data)) as [[|kv overheads]|err] eqn:Hbuckets.
  - unfold plot_selection_overhead. rewrite Hsel, Hbuckets.
    by intros ->%list_elem_of_singleton.
  - rewrite (plot_selection_overhead_run _ _ (kv :: overheads));
      [|by rewrite Hsel..|done].
    cbv zeta. cbn [fst].
    intros [->|[->|[Hin|Hin]%elem_of_app]%elem_of_cons]%elem_of_cons;
      [done|done| |].
    + by apply bar_text_loop_events in Hin as (h & y & ->).
    + destruct (is_ok (forM_ _ _).2); [|by apply elem_of_nil in Hin].
      apply elem_of_app in Hin as [Hin|Hin].
      { by apply overhead_annotate_events in Hin as (?&?&?&?& -> & _). }
      destruct (is_ok (overhead_annotate _ _).2);
        [|by apply elem_of_nil in Hin].
      unfold finish in Hin. repeat (apply elem_of_cons in Hin as [->|Hin]);
        try done. by apply elem_of_nil in Hin.
  - unfold plot_selection_overhead. rewrite Hsel, Hbuckets.
    by intros ?%elem_of_nil.
Qed.

(** X11: for every command line and input file, [main] prints its closing
    message, that all charts are generated, exactly when it ends without
    raising, whatever the number of charts written; the directory it names
    is the directory of the input file. *)
Theorem main_all_generated_iff (py_int : string -> option Z) (fs : FileSystem)
    (argv : list string) (d : path) :
  let run := main py_int fs argv in
  Print (AllGenerated d) ∈ run.1 <->
  run.2 = Ok tt /\ exists script arg, argv = [script; arg] /\
                                       d = ParentOf (PathOf arg).
Proof.
  intros run. subst run.
  destruct (main_cases py_int fs argv)
    as [Heq|(script & arg & -> & [Heq|[Hexists [[e Heq]|[benchmarks Hload]]]])];
    try (rewrite Heq; cbn [fst snd]; split; [|by intros [[=] _]];
         intros Hin; repeat (apply elem_of_cons in Hin as [[=]|Hin]);
         by apply elem_of_nil in Hin).
  rewrite (main_loaded _ _ _ _ benchmarks) by done. cbv zeta. cbn [fst snd].
  unfold main_header. split.
  - intros Hin.
    repeat (apply elem_of_cons in Hin as [[=]|Hin]). simpl in Hin.
    apply elem_of_app in Hin as [Hin|Hin];
      [by apply plot_hol_impact_report in Hin|].
    destruct (plot_hol_impact _ _ _).2 as [[]|]; cbn [is_ok] in Hin;
      [|by apply elem_of_nil in Hin].
    apply elem_of_app in Hin as [Hin|Hin];
      [by apply plot_strategy_comparison_report in Hin|].
    destruct (plot_strategy_comparison _ _ _).2 as [[]|]; cbn [is_ok] in Hin;
      [|by apply elem_of_nil in Hin].
    apply elem_of_app in Hin as [Hin|Hin];
      [by apply plot_selection_overhead_report in Hin|].
    destruct (plot_selection_overhead _ _).2 as [[]|]; cbn [is_ok] in Hin;
      [|by apply elem_of_nil in Hin].
    unfold main_footer in Hin.
    apply elem_of_cons in Hin as [[= ->]|Hin];
      [split; [done|by exists script, arg]|].
    apply elem_of_cons in Hin as [[=]|Hin]. by apply elem_of_nil in Hin.
  - intros [Hok (script' & arg' & [= <- <-] & ->)].
    destruct (plot_hol_impact _ _ _).2 as [[]|]; [|done].
    destruct (plot_strategy_comparison _ _ _).2 as [[]|]; [|done].
    destruct (plot_selection_overhead _ _).2 as [[]|]; [|done].
    cbn [is_ok]. do 4 apply list_elem_of_further.
    apply elem_of_app. right. apply elem_of_app. right.
    apply elem_of_app. right. apply list_elem_of_here.
Qed.

(** X12: whatever the command line and the input file, [main] writes
    files only after the input file was found and loaded, and only files
    among hol_impact.png, strategy_comparison.png and selection_overhead.png
    in the directory of the input file, each at most once and in this
    order. *)
Theorem main_artifacts_sublist (py_int : string -> option Z) (fs : FileSystem)
    (argv : list string) :
  let run := main py_int fs argv in
  artifacts run.1 = [] \/
  exists script arg benchmarks,
    argv = [script; arg] /\ exists_ fs (PathOf arg) = true /\
    json_load fs (PathOf arg) = Ok benchmarks /\
    sublist (artifacts run.1)
            (Slash (ParentOf (PathOf arg)) <$> chart_names).
Proof.
  intros run. subst run.
  destruct (main_cases py_int fs argv)
    as [Heq|(script & arg & -> & [Heq|[Hexists [[e Heq]|[benchmarks Hload]]]])];
    try (left; by rewrite Heq).
  right. exists script, arg, benchmarks. do 3 (split; [done|]).
  rewrite (artifacts_main_loaded _ _ _ _ benchmarks) by done. cbv zeta.
  rewrite artifacts_plot_hol_impact, artifacts_plot_strategy_comparison,
    artifacts_plot_selection_overhead.
  generalize (plot_hol_impact py_int benchmarks (ParentOf (PathOf arg))).2.
  generalize
    (plot_strategy_comparison py_int benchmarks (ParentOf (PathOf arg))).2.
  generalize (plot_selection_overhead benchmarks (ParentOf (PathOf arg))).2.
  generalize
    (overhead_buckets (select "SelectionOverheadBenchmark" benchmarks)).
  generalize (select "HolImpactBenchmark" benchmarks).
  generalize (select "StrategyComparisonBenchmark" benchmarks).
  generalize (select "SelectionOverheadBenchmark" benchmarks).
  intros [|? ?] [|? ?] [|? ?] [[|? ?]|?] [[]|?] [[]|?] [[]|?];
    cbn [is_ok app fmap list_fmap chart_names]; repeat constructor.
Qed.

Lemma opened_app t1 t2 : opened (t1 ++ t2) = opened t1 ++ opened t2.
Proof. apply omap_app. Qed.

Lemma opened_report t :
  (forall e, e ∈ t -> is_report_event e = true) -> opened t = [].
Proof.
  intros Ht. apply omap_all_None, Forall_forall. intros e He.
  apply Ht in He. by destruct e.
Qed.

(** X13: [main] opens a file only when its command line has one
    argument and the path it names exists; it opens that path, once, and
    no other file; when loading it raises, [main] ends with that exception
    before any report runs. *)
Theorem main_opens_input_only (py_int : string -> option Z) (fs : FileSystem)
    (argv : list string) (p : path) :
  let run := main py_int fs argv in
  OpenFile p ∈ run.1 ->
  exists script arg,
    argv = [script; arg] /\ p = PathOf arg /\ exists_ fs p = true /\
    opened run.1 = [p] /\
    (forall e, json_load fs p = Raise e ->
       run = ([Print (Loading p); OpenFile p], Raise e)).
Proof.
  intros run. subst run.
  destruct (main_cases py_int fs argv)
    as [Heq|(script & arg & -> & [Heq|[Hexists [[e Heq]|[benchmarks Hload]]]])].
  - rewrite Heq. by intros [=]%list_elem_of_singleton.
  - rewrite Heq. by intros [=]%list_elem_of_singleton.
  - rewrite Heq. cbn [fst]. intros Hin.
    apply elem_of_cons in Hin as [[=]|Hin].
    apply list_elem_of_singleton in Hin as [= ->].
    exists script, arg. do 4 (split; [done|]).
    intros e' Hload. rewrite (main_load_failed _ _ _ _ e') in Heq by done.
    by injection Heq as ->.
  - intros Hin.
    assert (opened (main py_int fs [script; arg]).1 = [PathOf arg]) as Hopened.
    { rewrite (main_loaded _ _ _ _ benchmarks) by done. cbv zeta. cbn [fst].
      rewrite !opened_app.
      rewrite (opened_report (plot_hol_impact _ _ _).1)
        by apply plot_hol_impact_report.
      destruct (is_ok (plot_hol_impact _ _ _).2); [|done].
      rewrite !opened_app.
      rewrite (opened_report (plot_strategy_comparison _ _ _).1)
        by apply plot_strategy_comparison_report.
      destruct (is_ok (plot_strategy_comparison _ _ _).2); [|done].
      rewrite !opened_app.
      rewrite (opened_report (plot_selection_overhead _ _).1)
        by apply plot_selection_overhead_report.
      by destruct (is_ok (plot_selection_overhead _ _).2). }
    assert (p ∈ opened (main py_int fs [script; arg]).1) as Hp.
    { apply list_elem_of_omap. by exists (OpenFile p). }
    rewrite Hopened in Hp. apply list_elem_of_singleton in Hp as ->.
    exists script, arg. do 4 (split; [done|]).
    intros e' He'. congruence.
Qed.

Lemma main_opens_input_only_witness :
  exists script arg,
    argv_example = [script; arg] /\
    PathOf "results.json" = PathOf arg /\
    exists_ (loaded_fs overhead_example) (PathOf "results.json") = true /\
    opened (main int_decimal (loaded_fs overhead_example) argv_example).1
    = [PathOf "results.json"] /\
    (forall e,
       json_load (loaded_fs overhead_example) (PathOf "results.json")
       = Raise e ->
       main int_decimal (loaded_fs overhead_example) argv_example
       = ([Print (Loading (PathOf "results.json"));
           OpenFile (PathOf "results.json")], Raise e)).
Proof.
  apply (main_opens_input_only int_decimal (loaded_fs overhead_example)
           argv_example (PathOf "results.json")).
  vm_compute. repeat constructor.
Defined.

(** ** Benchmark names: the filters and the method name *)

Lemma prefix_append (s1 s2 : string) :
  String.prefix s1 s2 = true <-> exists post, s2 = String.append s1 post.
Proof.
  revert s2. induction s1 as [|a s1 IH]; intros s2.
  { split; [by exists s2|by destruct s2]. }
  destruct s2 as [|b s2]; cbn [String.prefix String.append].
  { split; [done|]. by intros [post [=]]. }
  destruct (ascii_dec a b) as [->|Hne].
  - rewrite IH. split.
    + intros [post ->]. by exists post.
    + intros [post [= ->]]. by exists post.
  - split; [done|]. intros [post [= -> _]]. done.
Qed.

Lemma contains_unfold (needle hay : string) :
  contains needle hay
  = String.prefix needle hay ||
    match hay with
    | EmptyString => false
    | String _ hay => contains needle hay
    end.
Proof. by destruct hay. Qed.

(** [needle in hay] holds exactly of the substrings of [hay]. *)
Lemma contains_substring (needle hay : string) :
  contains needle hay = true <->
  exists pre post, hay = String.append pre (String.append needle post).
Proof.
  split.
  - induction hay as [|c hay IH]; rewrite contains_unfold.
    + rewrite orb_false_r. intros [post ->]%prefix_append.
      by exists EmptyString, post.
    + intros [[post ->]%prefix_append|Hin]%orb_true_iff.
      * by exists EmptyString, post.
      * destruct (IH Hin) as (pre & post & ->). by exists (String c pre), post.
  - intros (pre & post & ->). induction pre as [|c pre IH].
    + rewrite contains_unfold. apply orb_true_iff. left.
      apply prefix_append. by exists post.
    + cbn [String.append]. rewrite contains_unfold.
      apply orb_true_iff. by right.
Qed.

Lemma select_sublist marker benchmarks :
  sublist (select marker benchmarks) benchmarks.
Proof.
  unfold select. induction benchmarks as [|b benchmarks IH]; simpl;
    [constructor|].
  destruct (contains marker (benchmark b)); by constructor.
Qed.

(** X14: the records of a report are the records whose benchmark name has
    the marker of the report as a substring, at any place of the name; they
    are taken in the order of the input and as often as they occur. *)
Theorem select_substring (marker : string) (benchmarks : list Benchmark) :
  sublist (select marker benchmarks) benchmarks /\
  (forall b, b ∈ select marker benchmarks <->
     b ∈ benchmarks /\
     exists pre post,
       benchmark b = String.append pre (String.append marker post)) /\
  (forall l1 l2,
     select marker (l1 ++ l2) = select marker l1 ++ select marker l2).
Proof.
  split; [apply select_sublist|]. split.
  - intros b. unfold select.
    rewrite list_elem_of_In, filter_In, <-list_elem_of_In.
    by rewrite contains_substring.
  - intros l1 l2. unfold select. apply List.filter_app.
Qed.

(** *** The method name *)

Lemma split_nonempty sep s : split sep s <> [].
Proof.
  destruct s as [|c s]; simpl; [done|].
  destruct (Ascii.eqb c sep); [done|]. by destruct (split sep s).
Qed.

Lemma contains_sep_cons sep c w :
  c <> sep ->
  contains (String sep EmptyString) (String c w)
  = contains (String sep EmptyString) w.
Proof.
  intros Hne. cbn [contains String.prefix].
  destruct (ascii_dec sep c) as [->|_]; done.
Qed.

(** The last field of a split: it has no separator, and it is the whole
    string or what follows a separator. *)
Lemma split_last_spec sep s w :
  last (split sep s) = Some w ->
  contains (String sep EmptyString) w = false /\
  (split sep s = [w] /\ s = w \/
   (2 <= length (split sep s))%nat /\
   exists pre, s = String.append pre (String sep w)).
Proof.
  revert w. induction s as [|c s IH]; intros w; simpl.
  { intros [= <-]. split; [done|]. by left. }
  destruct (Ascii.eqb c sep) eqn:Hc.
  - apply Ascii.eqb_eq in Hc as ->.
    pose proof (split_nonempty sep s) as Hne.
    destruct (split sep s) as [|w0 ws] eqn:Hsplit; [done|].
    change (last (EmptyString :: w0 :: ws)) with (last (w0 :: ws)).
    intros Hlast. destruct (IH w Hlast) as [Hno [[_ ->]|[_ [pre ->]]]].
    + split; [done|]. right. split; [simpl; lia|]. by exists EmptyString.
    + split; [done|]. right. split; [simpl; lia|]. by exists (String sep pre).
  - apply Ascii.eqb_neq in Hc.
    pose proof (split_nonempty sep s) as Hne.
    destruct (split sep s) as [|w0 [|w1 ws]] eqn:Hsplit; [done| |].
    + simpl. intros [= <-].
      destruct (IH w0 eq_refl) as [Hno [[_ ->]|[Hlen _]]];
        [|simpl in Hlen; lia].
      split; [by rewrite contains_sep_cons|]. by left.
    + change (last (String c w0 :: w1 :: ws)) with (last (w0 :: w1 :: ws)).
      intros Hlast. destruct (IH w Hlast) as [Hno [[[=] _]|[_ [pre ->]]]].
      split; [done|]. right. split; [simpl; lia|]. by exists (String c pre).
Qed.

Lemma method_of_spec (b : Benchmark) :
  contains "." (method_of b) = false /\
  (benchmark b = method_of b \/
   exists pre, benchmark b = String.append pre (String "." (method_of b))).
Proof.
  unfold method_of.
  destruct (split_last "." (benchmark b)) as [w Hw]. rewrite Hw. simpl.
  destruct (split_last_spec _ _ _ Hw) as [Hno [[_ ?]|[_ ?]]]; auto.
Qed.

(** What follows the last separator of a string is determined. *)
Lemma after_last_sep_unique sep (s m w : string) :
  contains (String sep EmptyString) m = false ->
  contains (String sep EmptyString) w = false ->
  (s = m \/ exists pre, s = String.append pre (String sep m)) ->
  (s = w \/ exists pre, s = String.append pre (String sep w)) ->
  m = w.
Proof.
  intros Hm Hw.
  assert (forall pre x y,
            contains (String sep EmptyString) x = false ->
            x <> String.append pre (String sep y)) as Hno.
  { intros pre x y Hx ->. apply not_true_iff_false in Hx. apply Hx.
    apply contains_substring. by exists pre, y. }
  intros [->|[pre ->]] [Heq|[pre' Heq]].
  - done.
  - by apply Hno in Heq.
  - symmetry in Heq. by apply Hno in Heq.
  - revert pre' Heq. induction pre as [|c pre IH]; intros [|c' pre'] Heq;
      simpl in Heq.
    + by injection Heq.
    + injection Heq as <- Heq. by apply Hno in Heq.
    + injection Heq as -> Heq. symmetry in Heq. by apply Hno in Heq.
    + injection Heq as _ Heq. by apply (IH pre').
Qed.

(** X15: the bucket of a Selection-Overhead record is decided by what
    follows the last dot of its benchmark name (the whole name when it has
    no dot): the loop stores the score times 1000 under the bucket of that
    part, and leaves the buckets as they are when it has none, whatever
    the package and class names before it contain. *)
Theorem overhead_step_after_last_dot (overheads : list (string * num))
    (b : Benchmark) (m : string) (s : num) :
  contains "." m = false ->
  (benchmark b = m \/
   exists pre, benchmark b = String.append pre (String "." m)) ->
  score (primaryMetric b) = Some s ->
  overhead_step overheads b
  = Ok match bucket_of m with
       | Some label => setitem label (score_us s) overheads
       | None => overheads
       end.
Proof.
  intros Hm Hname Hscore. rewrite overhead_step_read, Hscore.
  destruct (method_of_spec b) as [Hno Hmethod].
  by rewrite (after_last_sep_unique "." (benchmark b) (method_of b) m).
Qed.

Lemma overhead_step_after_last_dot_witness :
  overhead_step [("RoundRobin", PFloat 90)]
    (record "baseline.SelectionOverheadBenchmark.roundRobinOverhead" []
       (Some (PFloat 2)) None)
  = Ok match bucket_of "roundRobinOverhead" with
       | Some label => setitem label (score_us (PFloat 2))
                         [("RoundRobin", PFloat 90)]
       | None => [("RoundRobin", PFloat 90)]
       end.
Proof.
  apply (overhead_step_after_last_dot _
           (record "baseline.SelectionOverheadBenchmark.roundRobinOverhead" []
              (Some (PFloat 2)) None) "roundRobinOverhead" (PFloat 2)).
  - vm_compute. reflexivity.
  - right. by exists "baseline.SelectionOverheadBenchmark".
  - reflexivity.
Defined.
